(* ===== verification/_CoqProject ===== *)
-Q . S2P
Prelude.v
Rounding.v
Zoom.v
Fitz.v
PageLabel.v
Viewer.v
Wiring.v
Protocol.v
Launcher.v
Script.v
EventLoop.v
Session.v
Program.v
