(* ===== verification/Prelude.v ===== *)
(** * A verified model of the PDF viewer widget (src/PDFViewer1/pdf_viewer.py)

    The program is one file: four imports, one PyQt5 widget, [PDFViewer],
    a launcher, [launch_viewer], and the call of the launcher when the
    module runs as a script.  The widget keeps four data attributes ([doc], [page_count],
    [current_page], [zoom]) beside its Qt children; [__init__] builds it and
    six methods change it: [open_pdf], [show_page], [next_page],
    [prev_page], [zoom_in], [zoom_out].  Decoding and rasterising are calls
    into PyMuPDF ([fitz]); dialogs, widgets and the event loop are calls
    into Qt.  The launcher builds the widget, Qt's loop calls the slots of
    the widget, and the slots call the engine.

    ** Files

    - [Prelude] (this file): Python exceptions ([exn], with the split between
      [Exception] and the rest of [BaseException] that [except Exception]
      observes), results ([res]), the state-and-exception monad [M] in which
      the methods are written (the state survives a raise, as attribute
      assignments made before an exception do), its notation scope
      [slot_scope], pointwise equality [meq] with its [Proper] instances, the
      invariant rules ([preserves] and its rule for each operation of the
      monad), the hint database [slot], the
      tactics [slot_simp] and [preserves_auto], [by_Zrange], which decides
      a property of an interval of integers by computation, and two facts
      on lists and strings the components share.
    - [Rounding]: lemmas on the Standard Library's specification of
      binary64 rounding ([binary_round_aux]): the digits of a mantissa, the
      right shift as a division, and the mantissa and exponent of a rounded
      positive normal number.
    - [Zoom]: the zoom factor as an IEEE 754 binary64 number (the kernel's
      primitive floats, which are Python's [float]): [zoom_step] (1.25),
      [zoom_floor] (0.5), [zoom_mul] ([*=]), [zoom_div] ([/=]), [zoom_gt_floor]
      ([> 0.5]); the table [zoom_at] of the zoom values at levels -4 .. 24 and
      the exact rational value [zoom_exact] they round; and, for every
      binary64 number above 0.4, what one multiplication and one division
      by 1.25 do to it and by how many binary64 numbers they move it
      ([zoom_rank]).
    - [Fitz]: what the widget asks of PyMuPDF, as the class [Fitz]
      ([fitz_open], [doc_page_count], [doc_bool], [load_page], [get_pixmap]),
      the laws PyMuPDF documents for them, as the class [FitzLaws],
      [RenderTotal] for an engine whose pages all render, and [PixmapLaws]
      for the shape of an RGB pixmap ([pixmap_wf]); three small executable
      engines for the concrete runs: [toy_fitz], with damaged pages and an
      allocation limit, [clean_fitz], which keeps the laws and renders at
      every scale, and [limited_fitz], which keeps the laws and has the
      allocation limit.
    - [PageLabel]: Python's [str(int)] ([str_int]) and the f-strings of the
      page indicator and of the error dialog, with the parser the round trip
      is stated against.
    - [Viewer]: the widget.  [PDFViewer] is the record of the attributes;
      [__init__] is the constructor statement by statement (one assignment
      of the record for each call: [setWindowTitle], [resize],
      [QPushButton], [layout_add], [topbar_add], [setWidgetResizable],
      [setWidget], [setAlignment], [connect]) and [init] the object it
      computes from the widget [QWidget.__init__] returns; [open_pdf],
      [show_page], [next_page], [prev_page], [zoom_in], [zoom_out] are the
      methods, each a computation of [M PDFViewer unit];
      [getOpenFileName] and [add_message_box] are the two modal dialogs,
      recorded in order in the field [dialogs]; [call_open],
      [call_load_page] and [call_get_pixmap] are the three calls of
      PyMuPDF, recorded in order in the field [fitz_calls]; the
      invariants, the frame of every slot and the behaviour of every
      branch.
    - [Wiring]: signals, slots and the connection table [__init__] builds;
      [emit] runs the slots connected to a signal; [step] and [reachable] are
      the transition relation and the states the widget can be in; [after]
      is the state after a list of user events; [dialog_rounds] is the
      shape of the log of dialogs.
    - [Protocol]: how the engine expects to be called, as an inductive
      predicate on the record of the calls ([conforms]), and the proof
      that every record the widget produces conforms.
    - [Launcher]: [launch_viewer] and [main] (the guard under [__name__]).
      [Process] is the state of the process (the [QApplication] that is
      alive, the window, the log of calls); [L] is the monad of the
      launcher, whose computations return, raise or end the process;
      [instance], [new_QApplication], [new_PDFViewer], [show], [has_exec]
      and [run_exec] are the calls of the source, with what Qt documents of
      them; [launch_viewer] is the body of the function, up to the end of
      its [try] statement, and [call] its return, which releases the names
      [app] and [viewer] ([released]); [event_loop] is Qt's loop over the
      user events of an [Env], and [handled] the events it delivers.
    - [Script]: the module body of the file, from the top: the import
      statements ([imports]), the [class] statement ([class_PDFViewer]),
      the [def] of the launcher ([def_launch_viewer]) and the guard
      ([run_module]), over the global namespace ([Globals], a finite map)
      and for any installation of modules ([Installed]); [global_reads]
      lists what each function of the file reads from the namespace.
    - [EventLoop]: Qt's loop as an interactive program: [exec_loop] is an
      interaction tree that asks for the next event ([NextEvent]) for as
      long as the user wishes and dispatches it ([loop_body], [next]);
      [script] is the user who performs a list of events and quits.
    - [Session]: the abstract document session of the specification ([Empty]
      / [Loaded], [open], [advance], [setZoom], and [render] as the
      request it makes of the engine, [render_request]) and its
      [controller], with the zoom factor an exact rational; the abstraction
      [abs] from widget states to sessions and the simulation between the
      two.
    - [Program]: the composition: the window a launch leaves refines the
      session of the specification ([launched_session]) on the runs where
      the two zoom-out tests agree ([within_rule]); a launch on an engine
      with a limit ([RendersUpTo]); the launch and the interactive loop
      ([launch_loop]); the script run on the small engines.

    ** Correspondence

    Integers are [Z] (Python's are unbounded); the zoom is a [float]
    (binary64, round to nearest even: nothing is idealised to a real number,
    and the theorems about zoom values are about the bits Python computes);
    strings are [string]; [self.doc] is [option Document], and its truth value
    is [doc_truthy], that is [None] is false and a document answers through
    its [__len__].  A method that raises leaves the attributes it already
    assigned: [M] returns the state beside the exception.  A modal
    dialog is a call the user sees: the widget keeps the log of the dialogs
    it has shown, file dialogs and error boxes, in the order of the calls
    ([dialogs]; [message_boxes] are the error boxes among them).  What the
    user chooses in the file dialog is an argument of [open_pdf] and part
    of a user event; [getOpenFileName] returns the pair Qt returns, the
    file name and the selected filter, of which [open_pdf] keeps the
    first.  A call of the engine is recorded in the same way
    ([fitz_calls]) before its answer is used: [requested] is the state
    once [show_page] has made its calls and [opening] the state once
    [open_pdf] has called [fitz.open].  The source makes no other call of
    PyMuPDF: it never closes a document.
    The layouts are lists of what was added to them, in order.  An image
    is the record of the five arguments [QImage] is given.  In the launcher
    a name of the source that clashes with a name of the widget keeps its
    meaning and changes its spelling: [new_PDFViewer] is [PDFViewer()],
    [run_exec] is [app.exec()] or [app.exec_()], [window] is what the
    variable [viewer] holds.  The theorems about [launch_viewer] speak of
    the process at the end of its body; the return is a step of its own
    ([call]), taken by [main], by [run_module] and by a host that launches
    again ([launches]).  It follows PyQt5's ownership rule: an object built
    from Python without a parent is destroyed with its last reference, so
    the window goes with the name [viewer], and the application goes with
    the name [app] when the call built it; an application that
    [instance()] answered belongs to the host and stays.  A raise out of
    the body releases nothing, the traceback holding the frame.

    ** Theorems

    - invariants: the page index stays inside the document and the
      connections stay those of [__init__] in every reachable state, slots
      that raised included ([Wiring]); on an engine that keeps the laws the
      image and the indicator agree with the attributes;
    - well-formedness: the image on screen is a well-formed [QImage] (its
      buffer holds every row) when the engine's pixmaps are well formed, and
      the tree of widgets stays the one [__init__] built, each child placed
      once;
    - functional behaviour of each method on each branch, the error branches
      included (a failed open changes nothing but the dialogs; a failed
      render after a successful open has already changed the state; a
      render that fails in a navigation slot lets the exception leave the
      slot);
    - the dialogs: which a slot shows and in which order; in every
      reachable state the log is made of rounds, a file dialog and then at
      most one error box; the file dialog opens once for every click on
      Open PDF and never otherwise;
    - the calls of the engine: which a slot makes and in which order
      (one render for every accepted action, none after a refused one);
      on an engine that keeps the laws every call ever made is one the
      engine expects ([Protocol]): a page is loaded from the document
      last opened, at an index it has, and an image is asked of the page
      just loaded, at a positive scale;
    - safety: on an engine that renders at every scale no slot raises
      and the process is never ended; the same holds on an engine with a
      limit ([RendersUpTo]) as long as the user zooms in no more often than
      the limit allows, and the limit is shown to be real on
      [limited_fitz]; the launcher never misuses Qt, however often a host
      calls it, and in a process without an application every launch
      builds its own, the return of the launch before having destroyed the
      last;
    - the module body ([Script]): on an installation that provides PyQt5
      and PyMuPDF it binds the names the functions read and every
      attribute they read off a module exists; imported as a module it
      binds nine names, which are listed, and leaves the process as it
      was; a missing module ends it at the first import that fails, before
      any call of Qt;
    - the event loop ([EventLoop]): run on a script it returns what the
      loop over the list computes, so that the interactive loop started on
      the window of a launch returns the window and the ending of
      [launch_viewer] ([Program]); with any user, for any length of time,
      it passes only reachable states on, and on a well-behaved engine it
      is never aborted;
    - the launcher: the calls it makes and their order, on both answers of
      [instance] and of [hasattr]; its three endings (return, the exception
      of the loop call, the end of the process when an exception leaves a
      slot and no hook is installed); what it leaves;
    - bounds on the zoom, on every path: in every reachable state the zoom
      is above 0.4 (so it is a positive number, never zero or NaN), Zoom In
      strictly enlarges it and an accepted Zoom Out strictly lowers it,
      4102 zoom-ins make any reachable zoom infinite and 4101 zoom-outs
      bring any finite one to rest between 0.4 and 0.5;
    - bounds on the zoom, from 1.0: the smallest factor reached (0.4096,
      below the floor 0.5 of the specification), exactness of the binary64
      arithmetic on levels 0 .. 22, its path independence on levels
      -4 .. 24, its failure beyond, the overflow to infinity after 3181
      zoom-ins, and the number of zoom-outs that bring the zoom back;
    - round trip of the page indicator, which determines the index and the
      page count; a shortcut does what its button does; no slot touches
      what [__init__] built;
    - liveness: in every reachable state every page of the document can
      be reached from the keyboard, with Left and Right;
    - refinement ([Session]): every slot moves the abstraction as the
      controller moves the session, over single steps and whole runs, with
      the zoom-out test of the code; with the rule the specification words
      the same holds except at level -3, where the two part; the calls
      [show_page] makes of the engine are the request of the session's
      [render], at a scale within one part in 2^53 of its factor; and end
      to end ([Program]): on the runs where the user never zooms out at
      level -3, the window a launch leaves stands for the session the
      controller reaches with the rule of the specification on the events
      the loop handled, and that session keeps the invariant of the
      specification.

    ** Bounds

    The zoom table covers levels -4 .. 24 because binary64 multiplication by
    1.25 and division by 1.25 are inverse to each other exactly there; from
    level 25 on, zooming in and then out does not restore the factor, which is
    proved as a theorem and not assumed away.  Level -4 is the lowest the
    widget reaches from 1.0.  The refinement is stated on the table: a
    zoom-in must start at level 23 at most, which a run with at most 24
    zoom-ins guarantees, and [abs] is undefined on a zoom outside the
    table.  Beyond the table the zoom is followed by computation up to the
    overflow: 3180 zoom-ins is the last finite value.  Off the table, where
    the value depends on the path, the theorems are proved from the
    specification of rounding and hold of every binary64 number above 0.4;
    nothing is assumed of the path.  Every method is a total function and
    the event loop of [Launcher] recurses on the list of events; the only
    fuel is that of [settle], which zooms out until the guard refuses:
    [k + 4] is proved enough from the value after [k] zoom-ins, and 4101
    from any finite zoom.  The two counts, 4101 zoom-outs to rest and 4102
    zoom-ins to overflow, come from the place of the zoom among the
    binary64 numbers ([zoom_rank]): a step moves it by [2^50 - 1] places
    at least, a quarter of a binade less one for the rounding, and there
    are 1026 binades of [2^52] places between 0.4 and plus infinity.  They
    are bounds, not the exact counts: from 1.0 the overflow takes 3181
    zoom-ins.  The loop of [EventLoop] has no fuel: it is an interaction
    tree, possibly infinite, and what is proved of it holds of every
    answer of the user; that it returns is proved for every finite
    script.

    ** Not modelled

    Qt's painting, geometry and styles, and what happens inside a modal
    dialog (browsing, filtering, its buttons): they are library code with
    no effect on the attributes; the call of a dialog and its arguments are
    recorded, and the choice of the user is an input.  CPython's release of
    the document an assignment to [self.doc] replaces: the model has no
    heap; what is proved is that a replaced document is never called
    again.  PyMuPDF's decoding and the contents of the pixel buffer: the
    engine's answers are parameters of the model, constrained only by the
    laws of [Fitz], and they are functions of their arguments: a file that
    changes on disk between two calls of [fitz.open] is outside the model.
    [RenderTotal], under which some theorems are stated, holds of no real
    engine at every scale the zoom reaches; [RendersUpTo] is the assumption
    a real engine can meet.  The slots connected to a signal after one
    that raised: [emit] stops at the raise, and every signal has one slot
    at most.  CPython's handling of a frame an exception left (the
    traceback keeps its names alive): [call] releases the names of a
    launch that returned, and of no other.  The pixel buffer the render
    operation of the
    abstract session returns: the session is modelled up to the request
    it makes of the engine, and what the widget shows of the answer is
    stated on the widget.  Events other than clicks and
    shortcuts (timers, paint, resize, close): no slot of the program is
    connected to them.  The printed form of a float ([repr]): the zoom is
    never shown.  Of the import system, the search of the file system,
    the execution of the imported modules and [sys.modules]: an
    installation is the set of modules and of their attributes, and an
    import finds a module or raises.  The names of the builtins.
*)

From Stdlib Require Import ZArith String List Bool Lia Morphisms Setoid.
Import ListNotations.

Set Implicit Arguments.

(** ** Exceptions and results *)

(** A raised Python exception, as far as the program can tell exceptions
    apart: [except Exception] catches the first kind and lets the second
    (KeyboardInterrupt, SystemExit, GeneratorExit) through.  The string is
    [str(e)]. *)
Inductive exn : Type :=
| Exception (msg : string)
| BaseException (msg : string).

Definition exn_message (e : exn) : string :=
  match e with Exception m => m | BaseException m => m end.

Definition is_Exception (e : exn) : bool :=
  match e with Exception _ => true | BaseException _ => false end.

(** The result of evaluating an expression or a call. *)
Inductive res (A : Type) : Type :=
| Ok (a : A)
| Raise (e : exn).

Arguments Ok {A} a.
Arguments Raise {A} e.

Definition is_ok {A : Type} (r : res A) : bool :=
  match r with Ok _ => true | Raise _ => false end.

Definition raised {A : Type} (r : res A) : option exn :=
  match r with Ok _ => None | Raise e => Some e end.

(** The call raised something [except Exception] does not catch. *)
Definition raises_base {A : Type} (r : res A) : bool :=
  match r with Raise (BaseException _) => true | _ => false end.

(** The call raised something [except Exception] catches. *)
Definition raises_Exception {A : Type} (r : res A) : bool :=
  match r with Raise (Exception _) => true | _ => false end.

(** ** The monad of methods

    A method is a function from the object's state to a result and the state
    it leaves, whether it returned or raised. *)

Definition M (S A : Type) : Type := S -> res A * S.

Section Monad.
Context {S : Type}.

Definition ret {A : Type} (a : A) : M S A := fun s => (Ok a, s).

Definition bind {A B : Type} (m : M S A) (k : A -> M S B) : M S B :=
  fun s => match m s with
           | (Ok a, s') => k a s'
           | (Raise e, s') => (Raise e, s')
           end.

Definition raise {A : Type} (e : exn) : M S A := fun s => (Raise e, s).

(** A call into a library that does not touch the object. *)
Definition lift {A : Type} (r : res A) : M S A := fun s => (r, s).

Definition get : M S S := fun s => (Ok s, s).

Definition modify (f : S -> S) : M S unit := fun s => (Ok tt, f s).

(** [try: m except Exception as e: h (str e)]. *)
Definition try_except {A : Type} (m : M S A) (h : string -> M S A) : M S A :=
  fun s => match m s with
           | (Raise (Exception msg), s') => h msg s'
           | r => r
           end.

(** Run a method for its state, and for how it ended. *)
Definition exec {A : Type} (m : M S A) (s : S) : S := snd (m s).
Definition outcome {A : Type} (m : M S A) (s : S) : res A := fst (m s).

(** Pointwise equality of methods. *)
Definition meq {A : Type} (m1 m2 : M S A) : Prop := forall s, m1 s = m2 s.

End Monad.

Declare Scope slot_scope.
Delimit Scope slot_scope with slot.
Notation "x <- c1 ;; c2" := (bind c1 (fun x => c2))
  (at level 100, c1 at next level, c2 at level 200, right associativity) : slot_scope.
Notation "c1 ;; c2" := (bind c1 (fun _ => c2))
  (at level 100, c2 at level 200, right associativity) : slot_scope.
Infix "=m=" := meq (at level 70, no associativity) : slot_scope.
Local Open Scope slot_scope.

(** ** Invariants *)

Section Triples.
Context {S : Type}.

(** The state a method leaves satisfies [I] whenever the state it started
    from did, however the method ended. *)
Definition preserves {A : Type} (I : S -> Prop) (m : M S A) : Prop :=
  forall s, I s -> I (exec m s).

(** The method returns, from every state of [P]. *)
Definition returns {A : Type} (P : S -> Prop) (m : M S A) : Prop :=
  forall s, P s -> is_ok (outcome m s) = true.

End Triples.

(** ** Tactics *)

(** Unfold the monad's operations and reduce. *)
Ltac slot_unfold :=
  unfold preserves, returns, exec, outcome, meq,
    bind, ret, raise, lift, get, modify, try_except in *.

Ltac slot_simp := slot_unfold; cbn [fst snd] in *.

(** ** Laws of the monad *)

Section MonadLaws.
Context {S : Type}.

#[export] Instance meq_equiv {A : Type} : Equivalence (@meq S A).
Proof.
  split; [intros m s | intros m1 m2 H s | intros m1 m2 m3 H1 H2 s].
  - reflexivity.
  - symmetry; apply H.
  - rewrite H1; apply H2.
Qed.

#[export] Instance bind_proper {A B : Type} :
  Proper (meq ==> pointwise_relation A meq ==> meq) (@bind S A B).
Proof.
  intros m1 m2 Hm k1 k2 Hk s. unfold bind. rewrite Hm.
  destruct (m2 s) as [[a | e] s']; [apply Hk | reflexivity].
Qed.

#[export] Instance try_except_proper {A : Type} :
  Proper (meq ==> pointwise_relation string meq ==> meq) (@try_except S A).
Proof.
  intros m1 m2 Hm h1 h2 Hh s. unfold try_except. rewrite Hm.
  destruct (m2 s) as [[a | [msg | msg]] s']; [reflexivity | apply Hh | reflexivity].
Qed.

#[export] Instance exec_proper {A : Type} : Proper (meq ==> eq ==> eq) (@exec S A).
Proof. intros m1 m2 Hm s1 s2 <-. unfold exec. rewrite Hm. reflexivity. Qed.

#[export] Instance outcome_proper {A : Type} :
  Proper (meq ==> eq ==> eq) (@outcome S A).
Proof. intros m1 m2 Hm s1 s2 <-. unfold outcome. rewrite Hm. reflexivity. Qed.

#[export] Instance preserves_proper {A : Type} (I : S -> Prop) :
  Proper (meq ==> iff) (@preserves S A I).
Proof.
  intros m1 m2 Hm. unfold preserves.
  split; intros H s Hs; [rewrite <- Hm | rewrite Hm]; apply H, Hs.
Qed.

Lemma bind_ret_l {A B : Type} (a : A) (k : A -> M S B) :
  bind (ret a) k =m= k a.
Proof. intros s. reflexivity. Qed.

Lemma bind_ret_r {A : Type} (m : M S A) : bind m ret =m= m.
Proof. intros s. unfold bind, ret. destruct (m s) as [[a | e] s']; reflexivity. Qed.

Lemma bind_assoc {A B C : Type} (m : M S A) (k : A -> M S B) (h : B -> M S C) :
  bind (bind m k) h =m= bind m (fun a => bind (k a) h).
Proof. intros s. unfold bind. destruct (m s) as [[a | e] s']; reflexivity. Qed.

Lemma bind_raise {A B : Type} (e : exn) (k : A -> M S B) :
  bind (raise e) k =m= raise e.
Proof. intros s. reflexivity. Qed.

Lemma try_except_ret {A : Type} (a : A) (h : string -> M S A) :
  try_except (ret a) h =m= ret a.
Proof. intros s. reflexivity. Qed.

Lemma try_except_Exception {A : Type} (msg : string) (h : string -> M S A) :
  try_except (raise (Exception msg)) h =m= h msg.
Proof. intros s. reflexivity. Qed.

Lemma try_except_BaseException {A : Type} (msg : string) (h : string -> M S A) :
  try_except (raise (BaseException msg)) h =m= raise (BaseException msg).
Proof. intros s. reflexivity. Qed.

(** A body that returns is not handled. *)
Lemma try_except_ok {A : Type} (m : M S A) (h : string -> M S A) (s : S) (a : A) :
  outcome m s = Ok a -> try_except m h s = m s.
Proof.
  unfold outcome, try_except. destruct (m s) as [[a' | e] s']; cbn; [reflexivity | discriminate].
Qed.

(** What [except Exception] lets through is never an [Exception], provided
    the handler raises none. *)
Lemma try_except_outcome {A : Type} (m : M S A) (h : string -> M S A) (s : S) (e : exn) :
  (forall msg s', is_ok (outcome (h msg) s') = true) ->
  outcome (try_except m h) s = Raise e -> is_Exception e = false.
Proof.
  intros Hh. slot_simp. destruct (m s) as [[a | [msg | msg]] s']; cbn.
  - discriminate.
  - intros H. specialize (Hh msg s'). rewrite H in Hh. discriminate.
  - intros H. inversion H. reflexivity.
Qed.

End MonadLaws.

(** ** Rules for invariants *)

Section Rules.
Context {S : Type} (I : S -> Prop).

Lemma preserves_ret {A : Type} (a : A) : preserves I (ret a).
Proof. intros s H. exact H. Qed.

Lemma preserves_raise {A : Type} (e : exn) : preserves I (@raise S A e).
Proof. intros s H. exact H. Qed.

Lemma preserves_lift {A : Type} (r : res A) : preserves I (lift r).
Proof. intros s H. exact H. Qed.

Lemma preserves_get : preserves I get.
Proof. intros s H. exact H. Qed.

Lemma preserves_modify (f : S -> S) :
  (forall s, I s -> I (f s)) -> preserves I (modify f).
Proof. intros Hf s H. apply Hf, H. Qed.

Lemma preserves_bind {A B : Type} (m : M S A) (k : A -> M S B) :
  preserves I m -> (forall a, preserves I (k a)) -> preserves I (bind m k).
Proof.
  intros Hm Hk s H. specialize (Hm s H). slot_simp.
  destruct (m s) as [[a | e] s']; [apply Hk, Hm | exact Hm].
Qed.

Lemma preserves_try_except {A : Type} (m : M S A) (h : string -> M S A) :
  preserves I m -> (forall msg, preserves I (h msg)) -> preserves I (try_except m h).
Proof.
  intros Hm Hh s H. specialize (Hm s H). slot_simp.
  destruct (m s) as [[a | [msg | msg]] s']; [exact Hm | apply Hh, Hm | exact Hm].
Qed.

Lemma preserves_if {A : Type} (b : bool) (m1 m2 : M S A) :
  preserves I m1 -> preserves I m2 -> preserves I (if b then m1 else m2).
Proof. destruct b; auto. Qed.

Lemma preserves_meq {A : Type} (m1 m2 : M S A) :
  m1 =m= m2 -> preserves I m1 -> preserves I m2.
Proof. intros E H s Hs. unfold exec. rewrite <- E. apply H, Hs. Qed.

End Rules.

Create HintDb slot discriminated.
#[export] Hint Resolve preserves_ret preserves_raise preserves_lift preserves_get
  preserves_bind preserves_try_except preserves_if preserves_modify : slot.

(** Discharge an invariant goal by the rules, following the syntax of the
    method, with a case analysis where it branches on a value; what is left
    is what the state updates must satisfy, and the methods it calls. *)
Ltac preserves_step :=
  lazymatch goal with
  | |- preserves _ (ret _) => apply preserves_ret
  | |- preserves _ (raise _) => apply preserves_raise
  | |- preserves _ (lift _) => apply preserves_lift
  | |- preserves _ get => apply preserves_get
  | |- preserves _ (try_except _ _) => apply preserves_try_except
  | |- preserves _ (bind _ _) => apply preserves_bind
  | |- preserves _ (modify _) => apply preserves_modify
  | |- preserves _ (if _ then _ else _) => apply preserves_if
  | |- preserves _ (match ?x with _ => _ end) => destruct x
  | |- forall _, _ => intro
  end.

Ltac preserves_auto := repeat (cbv beta zeta; preserves_step).

(** ** Sequences of methods *)

Section Sequences.
Context {S E : Type}.

(** Run [step] on every event in order; the first raise ends the run. *)
Fixpoint for_each (step : E -> M S unit) (evs : list E) : M S unit :=
  match evs with
  | [] => ret tt
  | ev :: evs' => bind (step ev) (fun _ => for_each step evs')
  end.

Lemma preserves_for_each (I : S -> Prop) (step : E -> M S unit) (evs : list E) :
  (forall ev, preserves I (step ev)) -> preserves I (for_each step evs).
Proof.
  intros Hstep. induction evs as [| ev evs IH]; cbn [for_each].
  - apply preserves_ret.
  - apply preserves_bind; auto.
Qed.

End Sequences.

(** ** Lists *)

(** A log that grew is not the log it was. *)
Lemma app_neq_self {A : Type} (l l' : list A) (x : A) : l ++ x :: l' <> l.
Proof.
  intros H. apply (f_equal (@length A)) in H. rewrite length_app in H. cbn in H. lia.
Qed.

(** A string is a prefix of what is appended to it. *)
Lemma prefix_append (s t : string) : String.prefix s (s ++ t) = true.
Proof.
  induction s as [| c s IH]; cbn; [destruct t; reflexivity |].
  destruct (Ascii.ascii_dec c c) as [_ | n]; [exact IH | destruct (n eq_refl)].
Qed.

(** ** Integers and booleans *)

(** Turn the boolean tests of the hypotheses into propositions. *)
Ltac bool_hyps :=
  repeat match goal with
    | H : andb _ _ = true |- _ => apply andb_true_iff in H; destruct H
    | H : andb _ _ = false |- _ => apply andb_false_iff in H
    | H : negb _ = true |- _ => apply negb_true_iff in H
    | H : negb _ = false |- _ => apply negb_false_iff in H
    | H : (_ <? _)%Z = true |- _ => apply Z.ltb_lt in H
    | H : (_ <? _)%Z = false |- _ => apply Z.ltb_ge in H
    | H : (_ <=? _)%Z = true |- _ => apply Z.leb_le in H
    | H : (_ <=? _)%Z = false |- _ => apply Z.leb_gt in H
    | H : (_ =? _)%Z = true |- _ => apply Z.eqb_eq in H
    | H : (_ =? _)%Z = false |- _ => apply Z.eqb_neq in H
    end.

(** ** Bounded quantification over integers

    A property of every integer of an interval, decided by running a boolean
    test over the interval. *)

Definition Zrange (lo : Z) (n : nat) : list Z :=
  map (fun i => (lo + Z.of_nat i)%Z) (seq 0 n).

Lemma Zrange_In (lo : Z) (n : nat) (k : Z) :
  (lo <= k < lo + Z.of_nat n)%Z -> In k (Zrange lo n).
Proof.
  intros H. unfold Zrange. apply in_map_iff.
  exists (Z.to_nat (k - lo)). split; [lia | apply in_seq; lia].
Qed.

Lemma forallb_Zrange (p : Z -> bool) (lo : Z) (n : nat) :
  forallb p (Zrange lo n) = true ->
  forall k, (lo <= k < lo + Z.of_nat n)%Z -> p k = true.
Proof.
  intros H k Hk. rewrite forallb_forall in H. apply H, Zrange_In, Hk.
Qed.

(** Close a goal convertible with [p k = true], for [k] in the interval of
    [n] integers from [lo], by evaluating [p] on the interval. *)
Ltac by_Zrange p k lo n :=
  refine (@forallb_Zrange p lo n _ k _); [vm_compute; reflexivity | lia].
