(* ===== verification/Rounding.v ===== *)
(** * Rounding of binary floating-point numbers

    What [binary_round_aux] of the Standard Library's specification of
    IEEE 754 arithmetic returns for a positive number in the normal range:
    the number of digits of a mantissa, the right shift as a division, and
    the mantissa and exponent of the rounded number.  The Standard Library
    specifies the operations and proves nothing of their results; the
    bounds on the zoom of the widget that hold on every path rest on the
    lemmas of this file. *)

From Stdlib Require Import ZArith Lia Floats Bool.

Local Open Scope Z_scope.

(** ** Digits *)

Lemma digits2_pos_bounds (p : positive) :
  2 ^ (Zpos (digits2_pos p) - 1) <= Zpos p < 2 ^ Zpos (digits2_pos p).
Proof.
  induction p as [p IH | p IH |]; cbn [digits2_pos]; [| | cbn; lia];
    rewrite Pos2Z.inj_succ; replace (Z.succ (Zpos (digits2_pos p)) - 1)
      with (Z.succ (Zpos (digits2_pos p) - 1)) by lia;
    rewrite !Z.pow_succ_r by lia; lia.
Qed.

(** The number of digits is determined by the powers of two around the
    number. *)
Lemma digits2_pos_unique (p : positive) (d : Z) :
  2 ^ (d - 1) <= Zpos p < 2 ^ d -> Zpos (digits2_pos p) = d.
Proof.
  intros [H1 H2]. pose proof (digits2_pos_bounds p) as [B1 B2].
  assert (0 < d) by (destruct d; cbn in H2; lia).
  assert (d - 1 < Zpos (digits2_pos p))
    by (apply (Z.pow_lt_mono_r_iff 2); lia).
  assert (Zpos (digits2_pos p) - 1 < d)
    by (apply (Z.pow_lt_mono_r_iff 2); lia).
  lia.
Qed.

(** ** The right shift *)

Lemma shr_1_m (mrs : shr_record) :
  0 <= shr_m mrs -> shr_m (shr_1 mrs) = shr_m mrs / 2.
Proof.
  destruct mrs as [[| [p | p |] | p] r s]; cbn [shr_m shr_1]; intros H;
    try lia; rewrite <- Z.div2_div; reflexivity.
Qed.

Lemma pow2_xO (n : positive) : 2 ^ Zpos n~0 = 2 ^ Zpos n * 2 ^ Zpos n.
Proof. rewrite Pos2Z.inj_xO, <- Z.pow_add_r by lia. f_equal. lia. Qed.

Lemma pow2_xI (n : positive) : 2 ^ Zpos n~1 = 2 * (2 ^ Zpos n * 2 ^ Zpos n).
Proof.
  rewrite Pos2Z.inj_xI, <- pow2_xO, Pos2Z.inj_xO, Z.add_comm, Z.pow_add_r by lia.
  reflexivity.
Qed.

Lemma div_pow2_nonneg (m n : Z) : 0 <= m -> 0 <= m / 2 ^ n.
Proof.
  intros H. destruct (Z.le_gt_cases 0 n) as [Hn | Hn].
  - apply Z.div_pos; [exact H | apply Z.pow_pos_nonneg; lia].
  - rewrite Z.pow_neg_r by exact Hn. rewrite Z.div_0_r. lia.
Qed.

Lemma iter_pos_shr_m (n : positive) (mrs : shr_record) :
  0 <= shr_m mrs -> shr_m (iter_pos shr_1 n mrs) = shr_m mrs / 2 ^ Zpos n.
Proof.
  assert (P : forall k : positive, 0 < 2 ^ Zpos k) by (intros k; apply Z.pow_pos_nonneg; lia).
  revert mrs. induction n as [n IH | n IH |]; intros mrs H; cbn [iter_pos].
  - assert (H1 : 0 <= shr_m (shr_1 mrs)) by (rewrite shr_1_m by exact H; apply Z.div_pos; lia).
    assert (H2 : 0 <= shr_m (iter_pos shr_1 n (shr_1 mrs)))
      by (rewrite IH by exact H1; apply div_pow2_nonneg, H1).
    rewrite (IH _ H2), (IH _ H1), shr_1_m by exact H.
    pose proof (P n). rewrite !Z.div_div, pow2_xI by lia. reflexivity.
  - assert (H2 : 0 <= shr_m (iter_pos shr_1 n mrs))
      by (rewrite IH by exact H; apply div_pow2_nonneg, H).
    rewrite (IH _ H2), (IH _ H).
    pose proof (P n). rewrite Z.div_div, pow2_xO by lia. reflexivity.
  - rewrite shr_1_m by exact H. reflexivity.
Qed.

(** [shr] divides the mantissa and moves the exponent. *)
Lemma shr_spec (mrs : shr_record) (e n : Z) :
  0 <= shr_m mrs ->
  shr_m (fst (shr mrs e n)) = shr_m mrs / 2 ^ Z.max 0 n /\
  snd (shr mrs e n) = e + Z.max 0 n.
Proof.
  intros H. destruct n as [| p | p]; cbn [shr fst snd].
  - rewrite Z.div_1_r. lia.
  - rewrite iter_pos_shr_m by exact H. rewrite Z.max_r by lia. split; reflexivity.
  - rewrite Z.max_l by lia. rewrite Z.div_1_r. lia.
Qed.

Lemma shr_record_of_loc_m (m : Z) (l : location) : shr_m (shr_record_of_loc m l) = m.
Proof. destruct l as [| []]; reflexivity. Qed.

Lemma round_nearest_even_bounds (m : Z) (l : location) :
  m <= round_nearest_even m l <= m + 1.
Proof. destruct l as [| []]; cbn; try destruct (Z.even m); lia. Qed.

(** ** Rounding a positive number *)

Section Round.
Variables prec emax : Z.
Hypothesis prec_pos : 0 < prec.

(** The places [shr_fexp] shifts a mantissa of [d] digits at exponent
    [e]. *)
Definition shift_of (d e : Z) : Z := Z.max 0 (fexp prec emax (d + e) - e).

Lemma shr_fexp_spec (p : positive) (e : Z) (l : location) :
  let n := shift_of (Zpos (digits2_pos p)) e in
  shr_m (fst (shr_fexp prec emax (Zpos p) e l)) = Zpos p / 2 ^ n /\
  snd (shr_fexp prec emax (Zpos p) e l) = e + n.
Proof.
  unfold shr_fexp, shift_of. cbn [Zdigits2].
  rewrite <- (shr_record_of_loc_m (Zpos p) l) at 2.
  apply shr_spec. rewrite shr_record_of_loc_m. lia.
Qed.

(** A mantissa of [d] digits cut to [prec] digits. *)
Lemma cut_mantissa_bounds (p : positive) :
  let d := Zpos (digits2_pos p) in
  prec <= d -> 2 ^ (prec - 1) <= Zpos p / 2 ^ (d - prec) < 2 ^ prec.
Proof.
  intros d Hd. pose proof (digits2_pos_bounds p) as [L U]. fold d in L, U.
  assert (Q : 0 < 2 ^ (d - prec)) by (apply Z.pow_pos_nonneg; lia).
  assert (PL : 2 ^ (d - 1) = 2 ^ (prec - 1) * 2 ^ (d - prec))
    by (rewrite <- Z.pow_add_r by lia; f_equal; lia).
  assert (PU : 2 ^ d = 2 ^ prec * 2 ^ (d - prec))
    by (rewrite <- Z.pow_add_r by lia; f_equal; lia).
  rewrite PL in L. rewrite PU in U. split.
  - apply Z.div_le_lower_bound; lia.
  - apply Z.div_lt_upper_bound; lia.
Qed.

(** In the normal range: the mantissa is cut to [prec] digits, rounded up
    by one at most, and renormalised when the rounding carries. *)
Lemma binary_round_aux_normal (p : positive) (e : Z) (l : location) :
  let d := Zpos (digits2_pos p) in
  prec <= d -> SpecFloat.emin prec emax <= e + (d - prec) ->
  let m1 := Zpos p / 2 ^ (d - prec) in
  let e1 := e + (d - prec) in
  match binary_round_aux prec emax false (Zpos p) e l with
  | S754_finite false m3 e3 =>
      e3 <= emax - prec /\
      (e3 = e1 /\ m1 <= Zpos m3 <= m1 + 1 /\ Zpos m3 < 2 ^ prec \/
       e3 = e1 + 1 /\ Zpos m3 = 2 ^ (prec - 1) /\ m1 + 1 = 2 ^ prec)
  | S754_infinity false => emax - prec < e1 \/ emax - prec < e1 + 1 /\ m1 + 1 = 2 ^ prec
  | _ => False
  end.
Proof.
  intros d Hd He m1 e1. unfold binary_round_aux.
  assert (N1 : shift_of d e = d - prec) by (unfold shift_of, fexp; lia).
  pose proof (shr_fexp_spec p e l) as [M1 E1]. fold d in M1, E1. rewrite N1 in M1, E1.
  fold m1 in M1. fold e1 in E1.
  destruct (shr_fexp prec emax (Zpos p) e l) as [mrs1 e1']. cbn [fst snd] in M1, E1. subst e1'.
  pose proof (cut_mantissa_bounds p Hd) as B1. fold d m1 in B1.
  assert (T : 2 ^ prec = 2 * 2 ^ (prec - 1))
    by (rewrite <- Z.pow_succ_r by lia; f_equal; lia).
  pose proof (round_nearest_even_bounds (shr_m mrs1) (loc_of_shr_record mrs1)) as R.
  destruct (round_nearest_even (shr_m mrs1) (loc_of_shr_record mrs1)) as [| p2 | p2]; try lia.
  rewrite M1 in R.
  pose proof (shr_fexp_spec p2 e1 loc_Exact) as [M2 E2].
  destruct (shr_fexp prec emax (Zpos p2) e1 loc_Exact) as [mrs2 e2]. cbn [fst snd] in M2, E2.
  destruct (Z.lt_ge_cases (Zpos p2) (2 ^ prec)) as [C | C].
  - assert (D2 : Zpos (digits2_pos p2) = prec) by (apply digits2_pos_unique; lia).
    assert (N2 : shift_of (Zpos (digits2_pos p2)) e1 = 0) by (unfold shift_of, fexp; lia).
    rewrite N2, Z.div_1_r in M2. rewrite N2 in E2. rewrite M2.
    destruct (Z.leb_spec e2 (emax - prec)); lia.
  - assert (U2 : 2 ^ (prec + 1) = 2 ^ prec * 2)
      by (rewrite Z.pow_add_r, Z.pow_1_r by lia; reflexivity).
    assert (D2 : Zpos (digits2_pos p2) = prec + 1)
      by (apply digits2_pos_unique; replace (prec + 1 - 1) with prec by lia; lia).
    assert (N2 : shift_of (Zpos (digits2_pos p2)) e1 = 1) by (unfold shift_of, fexp; lia).
    rewrite N2 in M2, E2. rewrite Z.pow_1_r in M2.
    assert (M3 : shr_m mrs2 = 2 ^ (prec - 1))
      by (rewrite M2; replace (Zpos p2) with (2 ^ (prec - 1) * 2) by lia; apply Z.div_mul; lia).
    rewrite M3. assert (0 < 2 ^ (prec - 1)) by (apply Z.pow_pos_nonneg; lia).
    destruct (2 ^ (prec - 1)) as [| m3 | m3] eqn:E3; try lia.
    destruct (Z.leb_spec e2 (emax - prec)); lia.
Qed.

End Round.

(** ** Binary64 *)

(** What is above a positive normal number: plus infinity, or a positive
    normal number with a greater exponent, or the same exponent and a
    greater mantissa. *)
Lemma SFltb_above (mc : positive) (ec : Z) (x : spec_float) :
  valid_binary x = true -> -1074 < ec ->
  SFltb (S754_finite false mc ec) x = true ->
  x = S754_infinity false \/
  exists mx ex, x = S754_finite false mx ex /\ Zpos (digits2_pos mx) = 53 /\
    (ec < ex \/ ec = ex /\ Zpos mc < Zpos mx) /\ ex <= 971.
Proof.
  intros Hv Hc. unfold SFltb, SFcompare.
  destruct x as [s | [|] | | [|] mx ex]; try discriminate; [left; reflexivity |].
  intros Hlt. right. exists mx, ex.
  unfold valid_binary, SpecFloat.valid_binary, bounded, canonical_mantissa, fexp,
    SpecFloat.emin, prec, emax in Hv.
  apply andb_true_iff in Hv. destruct Hv as [Hm He].
  apply Z.eqb_eq in Hm. apply Z.leb_le in He.
  assert (Ho : ec < ex \/ ec = ex /\ Zpos mc < Zpos mx).
  { destruct (Z.compare_spec ec ex) as [-> | H | H]; [right | left; exact H | discriminate].
    split; [reflexivity |]. change (Pos.compare_cont Eq mc mx) with (Pos.compare mc mx) in Hlt.
    destruct (Pos.compare_spec mc mx); try discriminate. lia. }
  repeat split; [lia | exact Ho | lia].
Qed.
