(* ===== verification/Zoom.v ===== *)
(** * The zoom factor

    [self.zoom] is a Python [float]: an IEEE 754 binary64 number, multiplied
    and divided with rounding to nearest even.  The kernel's primitive floats
    are the same numbers with the same operations, so the definitions below
    compute the bits the program computes.  The file holds the three
    operations the methods apply to the zoom, the table of the values the
    zoom takes when the user starts from 1.0, and what the rounding does to
    it: where the arithmetic is exact, where it is path independent, and
    where it stops being so.  The last part is about every binary64 number
    above 0.4, on or off the table: a multiplication by 1.25 enlarges it, a
    division by 1.25 of a number above 0.5 lowers it and leaves it above
    0.4, each by a quarter of a binade at least, so that 4101 divisions in
    a row come to rest and 4102 multiplications overflow. *)

From Stdlib Require Import Floats ZArith QArith Qabs List Bool Lia.
From S2P Require Import Prelude Rounding.
Import ListNotations.

Local Open Scope Z_scope.

(** ** The operations of the source *)

(** [self.zoom = 1.0] *)
Definition zoom_initial : float := 1.0%float.

(** The constant both zoom methods use. *)
Definition zoom_step : float := 1.25%float.

(** The constant [zoom_out] compares with. *)
Definition zoom_floor : float := 0.5%float.

(** [self.zoom *= 1.25] *)
Definition zoom_mul (z : float) : float := (z * zoom_step)%float.

(** [self.zoom /= 1.25] *)
Definition zoom_div (z : float) : float := (z / zoom_step)%float.

(** [self.zoom > 0.5] *)
Definition zoom_gt_floor (z : float) : bool := (zoom_floor <? z)%float.

(** The number Python prints as 0.4: no zoom the widget reaches is at or
    below it. *)
Definition zoom_min : float := 0x1.999999999999ap-2%float.

Definition zoom_above_min (z : float) : bool := (zoom_min <? z)%float.

(** ** Levels

    The zoom after [k] net zoom-ins from 1.0 (zoom-outs when [k] is
    negative), computed the way the program computes it: one rounded
    operation per step. *)
Definition zoom_at (k : Z) : float :=
  match k with
  | Z0 => zoom_initial
  | Zpos p => Pos.iter zoom_mul zoom_initial p
  | Zneg p => Pos.iter zoom_div zoom_initial p
  end.

(** The factor the same steps give in exact arithmetic. *)
Definition zoom_exact (k : Z) : Q := ((5 # 4) ^ k)%Q.

(** The rational a finite binary64 number denotes. *)
Definition float_to_Q (z : float) : option Q :=
  match Prim2SF z with
  | S754_zero _ => Some 0%Q
  | S754_finite s m e =>
      Some ((if s then -1 else 1) * inject_Z (Zpos m) * (2 # 1) ^ e)%Q
  | _ => None
  end.

(** The window of levels on which the table is used. *)
Definition level_lo : Z := -4.
Definition levels : list Z := Zrange level_lo 29.

(** The level of a zoom value, if it is one of the table. *)
Definition zoom_level (z : float) : option Z :=
  find (fun k => PrimFloat.Leibniz.eqb (zoom_at k) z) levels.

(** Equality of two zoom values as a boolean. *)
Definition zoom_eqb (z1 z2 : float) : bool := PrimFloat.Leibniz.eqb z1 z2.

Lemma zoom_eqb_eq (z1 z2 : float) : zoom_eqb z1 z2 = true <-> z1 = z2.
Proof. apply FloatAxioms.Leibniz.eqb_spec. Qed.

(** Within [rel] of the exact value. *)
Definition zoom_close (rel : Q) (k : Z) : bool :=
  match float_to_Q (zoom_at k) with
  | Some q => Qle_bool (Qabs (q - zoom_exact k)) (zoom_exact k * rel)
  | None => false
  end.

(** Equal to the exact value. *)
Definition zoom_is_exact (k : Z) : bool :=
  match float_to_Q (zoom_at k) with
  | Some q => Qeq_bool q (zoom_exact k)
  | None => false
  end.

(** Zoom out until the guard refuses, at most [fuel] times: the value the
    zoom settles at, or nothing when the fuel runs out first. *)
Fixpoint settle (fuel : nat) (z : float) : option float :=
  if zoom_gt_floor z then
    match fuel with
    | O => None
    | S fuel' => settle fuel' (zoom_div z)
    end
  else Some z.

(** From level [k], [k + 4] zoom-outs are enough to settle, and the zoom
    settles between 0.4 and 0.5. *)
Definition settles_in_band (k : Z) : bool :=
  match settle (Z.to_nat (k + 4)) (zoom_at k) with
  | Some z => (zoom_min <=? z)%float && (z <=? zoom_floor)%float
  | None => false
  end.

(** ** Path independence on the window *)

(** Zooming in from a level of the window gives the next level, also below
    1.0, where the value was reached by divisions. *)
Lemma zoom_mul_level (k : Z) :
  -4 <= k < 24 -> zoom_mul (zoom_at k) = zoom_at (k + 1).
Proof.
  intros H. apply zoom_eqb_eq.
  by_Zrange (fun k => zoom_eqb (zoom_mul (zoom_at k)) (zoom_at (k + 1))) k (-4) 28%nat.
Qed.

(** Zooming out from a level of the window gives the previous level, also
    above 1.0, where the value was reached by multiplications. *)
Lemma zoom_div_level (k : Z) :
  -4 < k <= 24 -> zoom_div (zoom_at k) = zoom_at (k - 1).
Proof.
  intros H. apply zoom_eqb_eq.
  by_Zrange (fun k => zoom_eqb (zoom_div (zoom_at k)) (zoom_at (k - 1))) k (-3) 28%nat.
Qed.

(** The guard of [zoom_out] as a test on the level. *)
Lemma zoom_gt_floor_level (k : Z) :
  -4 <= k <= 24 -> zoom_gt_floor (zoom_at k) = (-3 <=? k).
Proof.
  intros H. apply eqb_prop.
  by_Zrange (fun k => Bool.eqb (zoom_gt_floor (zoom_at k)) (-3 <=? k)) k (-4) 29%nat.
Qed.

(** A value of the table has one level. *)
Lemma zoom_level_at (k : Z) :
  -4 <= k <= 24 -> zoom_level (zoom_at k) = Some k.
Proof.
  intros H.
  enough (E : match zoom_level (zoom_at k) with
              | Some k' => k' =? k
              | None => false
              end = true).
  { destruct (zoom_level (zoom_at k)) as [k' |]; [| discriminate].
    apply Z.eqb_eq in E. congruence. }
  by_Zrange (fun k => match zoom_level (zoom_at k) with
                      | Some k' => k' =? k
                      | None => false
                      end) k (-4) 29%nat.
Qed.

Lemma zoom_level_sound (z : float) (k : Z) :
  zoom_level z = Some k -> z = zoom_at k /\ -4 <= k <= 24.
Proof.
  unfold zoom_level. intros H. apply find_some in H. destruct H as [Hin Heq].
  apply zoom_eqb_eq in Heq. split; [congruence |].
  unfold levels, Zrange in Hin. apply in_map_iff in Hin.
  destruct Hin as [i [<- Hi]]. apply in_seq in Hi. unfold level_lo. lia.
Qed.

(** ** Exactness *)

(** Up to level 22 the zoom is exactly (5/4)^k: 5^22 is the last power of
    five below 2^53. *)
Lemma zoom_is_exact_upto_22 (k : Z) : 0 <= k <= 22 -> zoom_is_exact k = true.
Proof. intros H. by_Zrange zoom_is_exact k 0 23%nat. Qed.

(** On the whole window the zoom is within one part in 2^53 of the exact
    factor. *)
Lemma zoom_close_window (k : Z) :
  -4 <= k <= 24 -> zoom_close ((2 # 1) ^ (-53)) k = true.
Proof. intros H. by_Zrange (zoom_close ((2 # 1) ^ (-53))) k (-4) 29%nat. Qed.

(** ** Beyond the window *)

(** One more zoom-in is one more multiplication. *)
Lemma zoom_at_succ (k : Z) : 0 <= k -> zoom_at (k + 1) = zoom_mul (zoom_at k).
Proof.
  destruct k as [| p | p]; [reflexivity | | lia]. intros _.
  cbn [zoom_at Z.add]. rewrite Pos.add_1_r, Pos.iter_succ. reflexivity.
Qed.

(** From 3181 zoom-ins on the zoom is infinite. *)
Lemma zoom_at_infinite (k : Z) : 3181 <= k -> zoom_at k = infinity.
Proof.
  intros H. replace k with (3181 + Z.of_nat (Z.to_nat (k - 3181))) by lia.
  induction (Z.to_nat (k - 3181)) as [| n IH]; [vm_compute; reflexivity |].
  replace (3181 + Z.of_nat (S n)) with (3181 + Z.of_nat n + 1) by lia.
  rewrite zoom_at_succ, IH by lia. reflexivity.
Qed.

(** Up to there every zoom-in enlarges the zoom. *)
Lemma zoom_at_increases (k : Z) :
  0 <= k <= 3180 -> (zoom_at k <? zoom_at (k + 1))%float = true.
Proof.
  intros H. by_Zrange (fun k => (zoom_at k <? zoom_at (k + 1))%float) k 0 3181%nat.
Qed.

Lemma settles_in_band_upto_3180 (k : Z) : 0 <= k <= 3180 -> settles_in_band k = true.
Proof. intros H. by_Zrange settles_in_band k 0 3181%nat. Qed.

(** ** The claims about the arithmetic *)

(** On levels -4 .. 24, multiplying the zoom by 1.25 and dividing it
    by 1.25 are exact inverses in binary64, in both orders: the zoom
    depends on the net number of zoom-ins only, not on the path. *)
Lemma zoom_window_path_independent (k : Z) :
  -4 < k < 24 ->
  zoom_div (zoom_mul (zoom_at k)) = zoom_at k /\
  zoom_mul (zoom_div (zoom_at k)) = zoom_at k.
Proof.
  intros H. split.
  - rewrite zoom_mul_level, zoom_div_level by lia. f_equal. lia.
  - rewrite zoom_div_level, zoom_mul_level by lia. f_equal. lia.
Qed.

(** C37: up to 22 zoom-ins from 1.0 the zoom is exactly (5/4)^k, and on
    the whole window it is within one part in 2^53 of (5/4)^k. *)
Theorem zoom_at_accuracy (k : Z) :
  -4 <= k <= 24 ->
  exists q, float_to_Q (zoom_at k) = Some q /\
    (Qabs (q - zoom_exact k) <= zoom_exact k * (2 # 1) ^ (-53))%Q /\
    (0 <= k <= 22 -> (q == zoom_exact k)%Q).
Proof.
  intros H. pose proof (zoom_close_window k H) as C.
  pose proof (zoom_is_exact_upto_22 k) as X.
  unfold zoom_close, zoom_is_exact in C, X.
  destruct (float_to_Q (zoom_at k)) as [q |]; [| discriminate].
  exists q. split; [reflexivity | split].
  - apply Qle_bool_iff, C.
  - intros H'. apply Qeq_bool_iff, X, H'.
Qed.

(** The window cannot be made larger: level 23 is not exactly
    (5/4)^23, and from level 25 dividing does not undo multiplying. *)
Lemma zoom_window_is_tight :
  zoom_is_exact 23 = false /\
  zoom_eqb (zoom_div (zoom_at 25)) (zoom_at 24) = false.
Proof. split; vm_compute; reflexivity. Qed.

(** Nothing bounds the zoom from above.  Every zoom-in up to the
    3181st enlarges the zoom; the 3181st makes it infinite, and it stays
    infinite under every further zoom-in; at infinity [zoom_out] passes its
    guard and divides without lowering the zoom. *)
Lemma zoom_overflows (k : Z) :
  3181 <= k ->
  (forall j, 0 <= j <= 3180 -> (zoom_at j <? zoom_at (j + 1))%float = true) /\
  (zoom_at 3180 <? infinity)%float = true /\
  zoom_at k = infinity /\
  zoom_gt_floor (zoom_at k) = true /\
  zoom_div (zoom_at k) = zoom_at k.
Proof.
  intros H. rewrite (zoom_at_infinite k H).
  split; [exact zoom_at_increases | repeat split; vm_compute; reflexivity].
Qed.

(** ** Instances of the claims *)

Lemma zoom_window_path_independent_witness :
  zoom_div (zoom_mul (zoom_at 0)) = zoom_at 0 /\
  zoom_mul (zoom_div (zoom_at 0)) = zoom_at 0.
Proof. apply zoom_window_path_independent. lia. Defined.

Lemma zoom_at_accuracy_witness :
  exists q, float_to_Q (zoom_at 3) = Some q /\
    (Qabs (q - zoom_exact 3) <= zoom_exact 3 * (2 # 1) ^ (-53))%Q /\
    (0 <= 3 <= 22 -> (q == zoom_exact 3)%Q).
Proof. apply zoom_at_accuracy. lia. Defined.

Lemma zoom_overflows_witness :
  (forall j, 0 <= j <= 3180 -> (zoom_at j <? zoom_at (j + 1))%float = true) /\
  (zoom_at 3180 <? infinity)%float = true /\
  zoom_at 4000 = infinity /\
  zoom_gt_floor (zoom_at 4000) = true /\
  zoom_div (zoom_at 4000) = zoom_at 4000.
Proof. apply zoom_overflows. lia. Defined.

(** ** The least zoom

    What holds of the zoom on every path, whatever the number of zoom-ins
    and zoom-outs and whatever their order: the two operations of the
    source, on any binary64 number above 0.4.  The proofs go through the
    specification of the rounded product and quotient ([SFmul], [SFdiv])
    and the lemmas of [Rounding]. *)

Lemma zoom_step_SF : Prim2SF zoom_step = S754_finite false 5629499534213120 (-52).
Proof. vm_compute. reflexivity. Qed.

Lemma zoom_floor_SF : Prim2SF zoom_floor = S754_finite false 4503599627370496 (-53).
Proof. vm_compute. reflexivity. Qed.

Lemma zoom_min_SF : Prim2SF zoom_min = S754_finite false 7205759403792794 (-54).
Proof. vm_compute. reflexivity. Qed.

(** A mantissa of 53 digits. *)
Lemma normal_mantissa (m : positive) :
  Zpos (digits2_pos m) = 53 -> 4503599627370496 <= Zpos m < 9007199254740992.
Proof. intros H. pose proof (digits2_pos_bounds m) as B. rewrite H in B. exact B. Qed.

(** The order of two positive finite numbers, read off exponents and
    mantissas. *)
Lemma SFltb_finite (m1 m2 : positive) (e1 e2 : Z) :
  SFltb (S754_finite false m1 e1) (S754_finite false m2 e2) = true <->
  e1 < e2 \/ e1 = e2 /\ Zpos m1 < Zpos m2.
Proof.
  unfold SFltb, SFcompare. change (Pos.compare_cont Eq m1 m2) with (Pos.compare m1 m2).
  destruct (Z.compare_spec e1 e2), (Pos.compare_spec m1 m2); split; intros G;
    try reflexivity; try discriminate; lia.
Qed.

(** The place of a positive normal number among the binary64 numbers, by
    mantissa and exponent: consecutive numbers have consecutive ranks. *)
Definition SF_rank (m : positive) (e : Z) : Z := (e + 1074) * 4503599627370496 + Zpos m.

(** Multiplying a positive normal number by 1.25 gives plus infinity or a
    greater number, at least [2^50 - 1] numbers further up. *)
Lemma SFmul_step_rounds (mx : positive) (ex : Z) :
  Zpos (digits2_pos mx) = 53 -> -1074 <= ex ->
  match SFmul prec emax (S754_finite false mx ex) (S754_finite false 5629499534213120 (-52)) with
  | S754_finite false m3 e3 =>
      (ex < e3 \/ ex = e3 /\ Zpos mx < Zpos m3) /\
      SF_rank mx ex + 1125899906842623 <= SF_rank m3 e3
  | S754_infinity false => True
  | _ => False
  end.
Proof.
  intros Hd Hx. cbn [SFmul xorb]. pose proof (normal_mantissa mx Hd) as Bm.
  set (P := (mx * 5629499534213120)%positive).
  assert (EP : Zpos P = Zpos mx * 5629499534213120) by apply Pos2Z.inj_mul.
  assert (D : Zpos (digits2_pos P) = 105 \/ Zpos (digits2_pos P) = 106).
  { destruct (Z.lt_ge_cases (Zpos P) (2 ^ 105)) as [H | H]; [left | right];
      apply digits2_pos_unique; cbn in H |- *; lia. }
  pose proof (digits2_pos_bounds P) as BP.
  pose proof (binary_round_aux_normal prec emax ltac:(reflexivity) P (ex + -52) loc_Exact) as L.
  unfold SpecFloat.emin, prec, emax in L. cbv zeta in L.
  specialize (L ltac:(lia) ltac:(lia)).
  destruct (binary_round_aux _ _ false (Zpos P) (ex + -52) loc_Exact)
    as [s | [|] | | [|] m3 e3]; try contradiction; [exact I |].
  destruct L as [_ L]. unfold SF_rank.
  destruct D as [D | D]; rewrite D in L, BP;
    [change (2 ^ (105 - 53)) with 4503599627370496 in L
    | change (2 ^ (106 - 53)) with 9007199254740992 in L];
    change (2 ^ 53) with 9007199254740992 in L;
    change (2 ^ (53 - 1)) with 4503599627370496 in L; cbn in BP;
    match type of L with
    | context [Zpos P / ?c] =>
        pose proof (Z.mul_div_le (Zpos P) c ltac:(lia));
        pose proof (Z.mul_succ_div_gt (Zpos P) c ltac:(lia))
    end; lia.
Qed.

(** Dividing a positive normal number by 1.25 gives a smaller positive
    number, at least [2^50 - 1] numbers further down, which is above the
    least value when the number was above 0.5. *)
Lemma SFdiv_step_rounds (mx : positive) (ex : Z) :
  Zpos (digits2_pos mx) = 53 -> -1073 <= ex <= 971 ->
  exists m3 e3,
    SFdiv prec emax (S754_finite false mx ex) (S754_finite false 5629499534213120 (-52)) =
      S754_finite false m3 e3 /\
    (e3 < ex \/ e3 = ex /\ Zpos m3 < Zpos mx) /\
    (-53 < ex \/ -53 = ex /\ 4503599627370496 < Zpos mx ->
     -54 < e3 \/ -54 = e3 /\ 7205759403792794 < Zpos m3) /\
    SF_rank m3 e3 + 1125899906842623 <= SF_rank mx ex.
Proof.
  intros Hd Hx. pose proof (normal_mantissa mx Hd) as Bm.
  cbn [SFdiv xorb]. unfold SFdiv_core_binary. cbn [Zdigits2]. rewrite Hd.
  change (Zpos (digits2_pos 5629499534213120)) with 53.
  replace (Z.min (fexp prec emax (53 + ex - (53 + -52))) (ex - -52)) with (ex - 1)
    by (unfold fexp, SpecFloat.emin, prec, emax; lia).
  replace (ex - -52 - (ex - 1)) with 53 by lia. cbv zeta. rewrite Z.shiftl_mul_pow2 by lia.
  change (2 ^ 53) with 9007199254740992.
  pose proof (Z.div_eucl_eq (Zpos mx * 9007199254740992) 5629499534213120 ltac:(lia)) as Eq.
  pose proof (Z.mod_pos_bound (Zpos mx * 9007199254740992) 5629499534213120 ltac:(lia)) as Br.
  unfold Z.modulo in Br.
  destruct (Z.div_eucl (Zpos mx * 9007199254740992) 5629499534213120) as [q r].
  destruct q as [| q | q]; try lia.
  assert (D : Zpos (digits2_pos q) = 53 \/ Zpos (digits2_pos q) = 54).
  { destruct (Z.lt_ge_cases (Zpos q) (2 ^ 53)) as [H | H]; [left | right];
      apply digits2_pos_unique; cbn in H |- *; lia. }
  pose proof (digits2_pos_bounds q) as BQ.
  pose proof (binary_round_aux_normal prec emax ltac:(reflexivity) q (ex - 1)
                (new_location 5629499534213120 r)) as L.
  unfold SpecFloat.emin, prec, emax in L. cbv zeta in L.
  specialize (L ltac:(lia) ltac:(lia)).
  pose proof (Z.mul_div_le (Zpos q) 2 ltac:(lia)) as Q1.
  pose proof (Z.mul_succ_div_gt (Zpos q) 2 ltac:(lia)) as Q2.
  unfold SF_rank.
  destruct D as [D | D]; rewrite D in L, BQ; cbn in BQ;
    [change (2 ^ (53 - 53)) with 1 in L; rewrite Z.div_1_r in L
    | change (2 ^ (54 - 53)) with 2 in L];
    change (2 ^ 53) with 9007199254740992 in L;
    change (2 ^ (53 - 1)) with 4503599627370496 in L;
    (destruct (binary_round_aux _ _ false (Zpos q) (ex - 1) _)
       as [s | [|] | | [|] m3 e3]; try contradiction; [lia |]);
    exists m3, e3; (split; [reflexivity | lia]).
Qed.

(** The zoom above the least value, at the level of floats. *)
Lemma zoom_above_cases (c : float) (mc : positive) (ec : Z) (z : float) :
  Prim2SF c = S754_finite false mc ec -> -1074 < ec -> (c <? z)%float = true ->
  Prim2SF z = S754_infinity false \/
  exists mx ex, Prim2SF z = S754_finite false mx ex /\ Zpos (digits2_pos mx) = 53 /\
    (ec < ex \/ ec = ex /\ Zpos mc < Zpos mx) /\ ex <= 971.
Proof.
  intros Hc He H. rewrite ltb_spec, Hc in H.
  apply (SFltb_above mc ec); [apply Prim2SF_valid | exact He | exact H].
Qed.

(** A finite zoom above the least value, and what one zoom-in makes of
    it. *)
Lemma zoom_mul_SF (z : float) :
  zoom_above_min z = true -> (z <? infinity)%float = true ->
  exists mx ex, Prim2SF z = S754_finite false mx ex /\
    match Prim2SF (zoom_mul z) with
    | S754_finite false m3 e3 =>
        (ex < e3 \/ ex = e3 /\ Zpos mx < Zpos m3) /\
        SF_rank mx ex + 1125899906842623 <= SF_rank m3 e3
    | S754_infinity false => True
    | _ => False
    end.
Proof.
  unfold zoom_above_min, zoom_mul. intros H Hf.
  destruct (zoom_above_cases zoom_min _ _ z zoom_min_SF ltac:(lia) H)
    as [E | (mx & ex & E & Hd & Ho & _)];
    [rewrite ltb_spec, E in Hf; discriminate Hf |].
  exists mx, ex. split; [exact E |].
  rewrite mul_spec, zoom_step_SF, E. apply SFmul_step_rounds; [exact Hd | lia].
Qed.

(** A finite zoom above the floor, and what one zoom-out makes of it. *)
Lemma zoom_div_SF (z : float) :
  zoom_gt_floor z = true -> (z <? infinity)%float = true ->
  exists mx ex m3 e3,
    Prim2SF z = S754_finite false mx ex /\
    Prim2SF (zoom_div z) = S754_finite false m3 e3 /\
    (e3 < ex \/ e3 = ex /\ Zpos m3 < Zpos mx) /\
    (-54 < e3 \/ -54 = e3 /\ 7205759403792794 < Zpos m3) /\
    SF_rank m3 e3 + 1125899906842623 <= SF_rank mx ex.
Proof.
  unfold zoom_gt_floor, zoom_div. intros H Hf.
  destruct (zoom_above_cases zoom_floor _ _ z zoom_floor_SF ltac:(lia) H)
    as [E | (mx & ex & E & Hd & Ho & He)];
    [rewrite ltb_spec, E in Hf; discriminate Hf |].
  destruct (SFdiv_step_rounds mx ex Hd ltac:(lia)) as (m3 & e3 & R & Hlt & Hab & Hr).
  exists mx, ex, m3, e3. rewrite div_spec, zoom_step_SF, E. unfold SF64div. rewrite R.
  split; [reflexivity |]. split; [reflexivity |]. split; [exact Hlt |].
  split; [apply Hab, Ho | exact Hr].
Qed.

(** Zooming in enlarges a finite zoom above the least value. *)
Lemma zoom_mul_grows (z : float) :
  zoom_above_min z = true -> (z <? infinity)%float = true -> (z <? zoom_mul z)%float = true.
Proof.
  intros H Hf. destruct (zoom_mul_SF z H Hf) as (mx & ex & E & R). rewrite ltb_spec, E.
  destruct (Prim2SF (zoom_mul z)) as [s | [|] | | [|] m3 e3]; try contradiction;
    [reflexivity | apply SFltb_finite, R].
Qed.

(** Zooming out from above the floor lowers a finite zoom, and leaves it
    above the least value. *)
Lemma zoom_div_shrinks (z : float) :
  zoom_gt_floor z = true -> (z <? infinity)%float = true ->
  (zoom_div z <? z)%float = true /\ zoom_above_min (zoom_div z) = true.
Proof.
  intros H Hf. destruct (zoom_div_SF z H Hf) as (mx & ex & m3 & e3 & E & E' & Hlt & Hab & _).
  unfold zoom_above_min. rewrite !ltb_spec, zoom_min_SF, E, E'.
  split; apply SFltb_finite; assumption.
Qed.

(** What is below a finite number is not plus infinity. *)
Lemma ltb_finite (a b : float) :
  (a <? b)%float = true -> (b <? infinity)%float = true -> (a <? infinity)%float = true.
Proof.
  rewrite !ltb_spec.
  destruct (Prim2SF a) as [| [|] | | [|]], (Prim2SF b) as [| [|] | | [|]];
    try discriminate; reflexivity.
Qed.

(** Plus infinity is above the least value, and stays where it is. *)
Lemma zoom_above_min_not_finite (z : float) :
  zoom_above_min z = true -> (z <? infinity)%float = false -> z = infinity.
Proof.
  unfold zoom_above_min. intros H Hf.
  destruct (zoom_above_cases zoom_min _ _ z zoom_min_SF ltac:(lia) H)
    as [E | (mx & ex & E & _)].
  - apply Prim2SF_inj. rewrite E. reflexivity.
  - rewrite ltb_spec, E in Hf. discriminate Hf.
Qed.

(** Zooming in keeps the zoom above the least value. *)
Lemma zoom_mul_above_min (z : float) :
  zoom_above_min z = true -> zoom_above_min (zoom_mul z) = true.
Proof.
  intros H. destruct (z <? infinity)%float eqn:Hf.
  - pose proof (zoom_mul_grows z H Hf) as G. unfold zoom_above_min in *.
    destruct (zoom_above_cases zoom_min _ _ z zoom_min_SF ltac:(lia) H)
      as [E | (mx & ex & E & _ & Ho & _)]; [rewrite ltb_spec, E in Hf; discriminate Hf |].
    rewrite ltb_spec, zoom_min_SF in *. rewrite E in G.
    destruct (Prim2SF (zoom_mul z)) as [s | [|] | | [|] m3 e3]; try discriminate G;
      [reflexivity |].
    apply SFltb_finite in G. apply SFltb_finite. lia.
  - rewrite (zoom_above_min_not_finite z H Hf). reflexivity.
Qed.

(** Zooming out from above the floor leaves the zoom above the least
    value. *)
Lemma zoom_div_above_min (z : float) :
  zoom_gt_floor z = true -> zoom_above_min (zoom_div z) = true.
Proof.
  intros H. destruct (z <? infinity)%float eqn:Hf; [apply zoom_div_shrinks; assumption |].
  assert (A : zoom_above_min z = true).
  { unfold zoom_gt_floor, zoom_above_min in *.
    destruct (zoom_above_cases zoom_floor _ _ z zoom_floor_SF ltac:(lia) H)
      as [E | (mx & ex & E & _ & Ho & _)]; rewrite ltb_spec, zoom_min_SF, E;
      [reflexivity | apply SFltb_finite; lia]. }
  rewrite (zoom_above_min_not_finite z A Hf). reflexivity.
Qed.

(** What is above the least value is a positive number. *)
Lemma zoom_above_min_positive (z : float) :
  zoom_above_min z = true -> (0 <? z)%float = true /\ (z =? z)%float = true.
Proof.
  unfold zoom_above_min. rewrite !ltb_spec, FloatAxioms.eqb_spec, zoom_min_SF.
  change (Prim2SF 0) with (S754_zero false).
  destruct (Prim2SF z) as [[|] | [|] | | [|] m e]; try discriminate;
    intros _; split; try reflexivity.
  unfold SFeqb, SFcompare. rewrite Z.compare_refl.
  change (Pos.compare_cont Eq m m) with (Pos.compare m m). rewrite Pos.compare_refl. reflexivity.
Qed.

(** ** The rank of a zoom

    One step of the zoom moves it by at least [2^50 - 1] binary64 numbers,
    and there are fewer than [1026 * 2^52] of them between the least value
    and plus infinity: this bounds the zoom-ins before overflow and the
    zoom-outs before rest. *)

(** The place of a zoom among the positive binary64 numbers; plus infinity
    comes after the greatest finite number. *)
Definition zoom_rank (z : float) : Z :=
  match Prim2SF z with
  | S754_finite false m e => SF_rank m e
  | S754_infinity false => 9218868437227405312
  | _ => 0
  end.

(** The least number of numbers a step moves the zoom by. *)
Definition rank_step : Z := 1125899906842623.

(** Zoom-ins that make any zoom above the least value infinite. *)
Definition zoom_ins_to_overflow : nat := 4102.

(** Zoom-outs that bring any finite zoom to rest. *)
Definition zoom_outs_to_rest : nat := 4101.

(** What is above a positive normal constant has a greater rank. *)
Lemma zoom_rank_above (c : float) (mc : positive) (ec : Z) (z : float) :
  Prim2SF c = S754_finite false mc ec -> -1074 < ec <= 971 -> Zpos mc < 9007199254740992 ->
  (c <? z)%float = true -> SF_rank mc ec < zoom_rank z.
Proof.
  intros Hc He Hm H. unfold zoom_rank, SF_rank.
  destruct (zoom_above_cases c mc ec z Hc ltac:(lia) H) as [E | (mx & ex & E & Hd & Ho & _)];
    rewrite E; [lia | pose proof (normal_mantissa mx Hd); lia].
Qed.

(** A finite zoom ranks below plus infinity. *)
Lemma zoom_rank_finite (z : float) :
  zoom_above_min z = true -> (z <? infinity)%float = true ->
  zoom_rank z < 9218868437227405312.
Proof.
  unfold zoom_above_min, zoom_rank, SF_rank. intros H Hf.
  destruct (zoom_above_cases zoom_min _ _ z zoom_min_SF ltac:(lia) H)
    as [E | (mx & ex & E & Hd & _ & He)];
    [rewrite ltb_spec, E in Hf; discriminate Hf |].
  rewrite E. pose proof (normal_mantissa mx Hd). lia.
Qed.

(** An accepted zoom-out lowers the rank by a step at least. *)
Lemma zoom_div_rank (z : float) :
  zoom_gt_floor z = true -> (z <? infinity)%float = true ->
  zoom_rank (zoom_div z) + rank_step <= zoom_rank z.
Proof.
  intros H Hf. destruct (zoom_div_SF z H Hf) as (mx & ex & m3 & e3 & E & E' & _ & _ & R).
  unfold zoom_rank. rewrite E, E'. exact R.
Qed.

(** A zoom-in raises the rank by a step at least, or to plus infinity. *)
Lemma zoom_mul_rank (z : float) :
  zoom_above_min z = true ->
  Z.min (zoom_rank z + rank_step) 9218868437227405312 <= zoom_rank (zoom_mul z).
Proof.
  intros H. destruct (z <? infinity)%float eqn:Hf.
  - destruct (zoom_mul_SF z H Hf) as (mx & ex & E & R). unfold zoom_rank. rewrite E.
    destruct (Prim2SF (zoom_mul z)) as [s | [|] | | [|] m3 e3]; try contradiction;
      unfold rank_step; lia.
  - rewrite (zoom_above_min_not_finite z H Hf). vm_compute. discriminate.
Qed.

(** ** Zoom-outs settle, from any zoom *)

(** From a finite zoom above the least value, [n] zoom-outs reach a zoom the
    guard refuses when [n] steps span the ranks down to the floor; that zoom
    is above the least value. *)
Lemma settle_within (n : nat) (z : float) :
  zoom_above_min z = true -> (z <? infinity)%float = true ->
  zoom_rank z <= zoom_rank zoom_floor + Z.of_nat n * rank_step ->
  exists z', settle n z = Some z' /\ zoom_above_min z' = true /\ zoom_gt_floor z' = false.
Proof.
  revert z. induction n as [| n IH]; intros z Ha Hf Hr; cbn [settle];
    destruct (zoom_gt_floor z) eqn:G; try (exists z; repeat split; assumption).
  - pose proof (zoom_rank_above zoom_floor _ _ z zoom_floor_SF ltac:(lia) ltac:(lia) G) as R.
    change (zoom_rank zoom_floor) with (SF_rank 4503599627370496 (-53)) in Hr. lia.
  - destruct (zoom_div_shrinks z G Hf) as [Hlt Hab]. pose proof (zoom_div_rank z G Hf) as R.
    apply IH; [exact Hab | exact (ltb_finite _ _ Hlt Hf) | unfold rank_step in *; lia].
Qed.

(** Any finite zoom above the least value is at rest after 4101 zoom-outs. *)
Lemma settle_terminates (z : float) :
  zoom_above_min z = true -> (z <? infinity)%float = true ->
  exists z', settle zoom_outs_to_rest z = Some z' /\
    zoom_above_min z' = true /\ zoom_gt_floor z' = false.
Proof.
  intros Ha Hf. apply settle_within; [exact Ha | exact Hf |].
  pose proof (zoom_rank_finite z Ha Hf) as B.
  change (zoom_rank zoom_floor) with 4602678819172646912. unfold rank_step, zoom_outs_to_rest.
  lia.
Qed.

(** ** Zoom-ins overflow, from any zoom *)

(** From a zoom above the least value, [n] zoom-ins reach plus infinity when
    [n] steps span the ranks up to it. *)
Lemma overflow_within (n : nat) (z : float) :
  zoom_above_min z = true ->
  9218868437227405312 <= zoom_rank z + Z.of_nat n * rank_step ->
  Nat.iter n zoom_mul z = infinity.
Proof.
  revert z. induction n as [| n IH]; intros z Ha Hr.
  - destruct (z <? infinity)%float eqn:Hf; [| apply (zoom_above_min_not_finite z Ha Hf)].
    pose proof (zoom_rank_finite z Ha Hf). lia.
  - rewrite Nat.iter_succ_r. apply IH; [apply zoom_mul_above_min, Ha |].
    pose proof (zoom_mul_rank z Ha). unfold rank_step in *. lia.
Qed.

(** Any zoom above the least value is infinite after 4102 zoom-ins. *)
Lemma zoom_mul_overflows (z : float) :
  zoom_above_min z = true -> Nat.iter zoom_ins_to_overflow zoom_mul z = infinity.
Proof.
  intros Ha. apply overflow_within; [exact Ha |].
  pose proof (zoom_rank_above zoom_min _ _ z zoom_min_SF ltac:(lia) ltac:(lia) Ha) as R.
  unfold SF_rank in R. unfold rank_step, zoom_ins_to_overflow. lia.
Qed.
