(* ===== verification/Fitz.v ===== *)
(** * What the widget asks of PyMuPDF

    The program calls five things of the [fitz] module: [fitz.open], the
    [page_count] attribute, the truth value of a document (the [if self.doc]
    tests), [load_page] and [get_pixmap] with a [fitz.Matrix].  They are not
    code of the repository, so they are an interface here: the class [Fitz]
    gives their types, the class [FitzLaws] what PyMuPDF documents about
    them, [PixmapLaws] the shape of the pixel buffers it returns, and the
    widget's theorems are proved for every instance.  The instances
    [toy_fitz], [clean_fitz] and [limited_fitz] at the end are small
    executable engines for concrete runs.

    The answers of the engine are functions of their arguments: the same
    path opens the same document and the same page renders the same image
    at the same scale, so a file that changes on disk while the program
    runs is outside the model. *)

From Stdlib Require Import Floats ZArith String List Bool Lia.
From S2P Require Import Prelude.
Import ListNotations.

Local Open Scope Z_scope.

(** ** Values *)

(** [fitz.Matrix]: the six coefficients. *)
Record Matrix : Type := mkMatrix {
  mat_a : float;
  mat_b : float;
  mat_c : float;
  mat_d : float;
  mat_e : float;
  mat_f : float
}.

(** [fitz.Matrix(sx, sy)]: the scaling matrix. *)
Definition Matrix_scale (sx sy : float) : Matrix :=
  mkMatrix sx 0%float 0%float sy 0%float 0%float.

(** [fitz.Pixmap], as far as the widget reads it. *)
Record Pixmap : Type := mkPixmap {
  pix_samples : list Byte.byte;
  pix_width : Z;
  pix_height : Z;
  pix_stride : Z
}.

(** ** The interface *)

Class Fitz : Type := {
  Document : Type;
  Page : Type;
  (** [fitz.open(path)] *)
  fitz_open : string -> res Document;
  (** [doc.page_count] *)
  doc_page_count : Document -> Z;
  (** [bool(doc)] *)
  doc_bool : Document -> bool;
  (** [doc.load_page(n)] *)
  load_page : Document -> Z -> res Page;
  (** [page.get_pixmap(matrix=m)] *)
  get_pixmap : Page -> Matrix -> res Pixmap
}.

(** What PyMuPDF documents: a page count is not negative; [Document] has a
    [__len__], the page count, and no [__bool__], so a document with no page
    is false; [load_page] accepts every index below the page count. *)
Class FitzLaws (F : Fitz) : Prop := {
  page_count_nonneg : forall d : Document, 0 <= doc_page_count d;
  doc_bool_len : forall d : Document, doc_bool d = negb (doc_page_count d =? 0);
  load_page_in_range : forall (d : Document) (n : Z),
    0 <= n < doc_page_count d -> is_ok (load_page d n) = true
}.

(** An engine that renders every page at every scale.  This is an
    idealisation: a real engine refuses an image that is too large, so it
    holds of no engine at the scales the zoom can reach.  The theorems
    that assume it say what the widget does as long as the engine renders;
    [RendersUpTo] of [Program] is the assumption with a limit. *)
Class RenderTotal (F : Fitz) : Prop := {
  get_pixmap_ok : forall (p : Page) (m : Matrix), is_ok (get_pixmap p m) = true
}.

(** The pixel buffer [get_pixmap] returns when it is called as the widget
    calls it, with a matrix only: RGB without alpha, three bytes a pixel,
    rows without padding. *)
Definition pixmap_wf (pix : Pixmap) : Prop :=
  0 <= pix_width pix /\ 0 <= pix_height pix /\
  pix_stride pix = 3 * pix_width pix /\
  Z.of_nat (length (pix_samples pix)) = pix_stride pix * pix_height pix.

Class PixmapLaws (F : Fitz) : Prop := {
  get_pixmap_wf : forall (p : Page) (m : Matrix) (pix : Pixmap),
    get_pixmap p m = Ok pix -> pixmap_wf pix
}.

(** [self.doc] as a condition: [None] is false. *)
Definition doc_truthy {F : Fitz} (d : option Document) : bool :=
  match d with
  | None => false
  | Some d => doc_bool d
  end.

Section Laws.
Context {F : Fitz} {L : FitzLaws F}.

Lemma doc_bool_pos (d : Document) : doc_bool d = true <-> 0 < doc_page_count d.
Proof.
  rewrite doc_bool_len, negb_true_iff, Z.eqb_neq.
  pose proof (page_count_nonneg d). lia.
Qed.

Lemma load_page_returns (d : Document) (n : Z) :
  0 <= n < doc_page_count d -> exists p, load_page d n = Ok p.
Proof.
  intros H. apply load_page_in_range in H.
  destruct (load_page d n) as [p | e]; [eauto | discriminate].
Qed.

End Laws.

(** ** A small engine

    Documents are lists of pages; a page is its size in points, or damaged.
    The file system is fixed.  A pixmap has the scaled size, rounded down,
    three bytes per pixel, and is refused when the scale is not a positive
    finite number or the image has more than [toy_max_pixels] pixels. *)

Record ToyDoc : Type := mkToyDoc { toy_pages : list (option (Z * Z)) }.

Definition toy_three : ToyDoc := mkToyDoc [Some (4, 6); Some (4, 6); Some (6, 4)].
Definition toy_torn : ToyDoc := mkToyDoc [None; Some (4, 6)].
Definition toy_empty : ToyDoc := mkToyDoc [].

Definition toy_files : list (string * ToyDoc) :=
  [ ("three.pdf"%string, toy_three);
    ("one.pdf"%string, mkToyDoc [Some (2, 2)]);
    ("empty.pdf"%string, toy_empty);
    ("torn.pdf"%string, toy_torn) ].

Definition toy_open (path : string) : res ToyDoc :=
  match find (fun f => String.eqb (fst f) path) toy_files with
  | Some f => Ok (snd f)
  | None => Raise (Exception ("no such file: '" ++ path ++ "'"))
  end.

Definition toy_load_page (d : ToyDoc) (n : Z) : res (Z * Z) :=
  if (0 <=? n) && (n <? Z.of_nat (length (toy_pages d))) then
    match nth_error (toy_pages d) (Z.to_nat n) with
    | Some (Some p) => Ok p
    | _ => Raise (Exception "cannot load page")
    end
  else Raise (Exception "page not in document").

(** The integer part of [z * n], for a positive finite [z]. *)
Definition toy_scale (z : float) (n : Z) : option Z :=
  match Prim2SF z with
  | S754_finite false m e => Some (Z.shiftl (Zpos m * Z.max 0 n) e)
  | _ => None
  end.

Definition toy_max_pixels : Z := 4096.

Definition toy_get_pixmap (p : Z * Z) (m : Matrix) : res Pixmap :=
  match toy_scale (mat_a m) (fst p), toy_scale (mat_d m) (snd p) with
  | Some w, Some h =>
      if w * h <=? toy_max_pixels then
        Ok (mkPixmap (repeat Byte.x00 (Z.to_nat (3 * w * h))) w h (3 * w))
      else Raise (Exception "cannot allocate pixmap")
  | _, _ => Raise (Exception "bad matrix")
  end.

Definition toy_fitz : Fitz := {|
  Document := ToyDoc;
  Page := Z * Z;
  fitz_open := toy_open;
  doc_page_count d := Z.of_nat (length (toy_pages d));
  doc_bool d := negb (Z.of_nat (length (toy_pages d)) =? 0);
  load_page := toy_load_page;
  get_pixmap := toy_get_pixmap
|}.

(** ** A well-behaved engine

    No damaged page and no refused pixmap: the engine the laws describe. *)

Definition clean_three : list (Z * Z) := [(4, 6); (4, 6); (6, 4)].

Definition clean_files : list (string * list (Z * Z)) :=
  [ ("three.pdf"%string, clean_three);
    ("one.pdf"%string, [(2, 2)]);
    ("empty.pdf"%string, []) ].

Definition clean_open (path : string) : res (list (Z * Z)) :=
  match find (fun f => String.eqb (fst f) path) clean_files with
  | Some f => Ok (snd f)
  | None => Raise (Exception ("no such file: '" ++ path ++ "'"))
  end.

Definition clean_load_page (d : list (Z * Z)) (n : Z) : res (Z * Z) :=
  match nth_error d (Z.to_nat n) with
  | Some p => if 0 <=? n then Ok p else Raise (Exception "page not in document")
  | None => Raise (Exception "page not in document")
  end.

Definition clean_get_pixmap (p : Z * Z) (m : Matrix) : res Pixmap :=
  let w := match toy_scale (mat_a m) (fst p) with Some w => w | None => 0 end in
  let h := match toy_scale (mat_d m) (snd p) with Some h => h | None => 0 end in
  Ok (mkPixmap (repeat Byte.x00 (Z.to_nat (3 * w * h))) w h (3 * w)).

Definition clean_fitz : Fitz := {|
  Document := list (Z * Z);
  Page := Z * Z;
  fitz_open := clean_open;
  doc_page_count d := Z.of_nat (length d);
  doc_bool d := negb (Z.of_nat (length d) =? 0);
  load_page := clean_load_page;
  get_pixmap := clean_get_pixmap
|}.

Lemma clean_fitz_laws : FitzLaws clean_fitz.
Proof.
  split; cbn.
  - intros d. lia.
  - reflexivity.
  - intros d n H. unfold clean_load_page.
    destruct (nth_error d (Z.to_nat n)) as [p |] eqn:E.
    + destruct (Z.leb_spec 0 n); [reflexivity | lia].
    + apply nth_error_None in E. lia.
Qed.

Lemma clean_fitz_total : RenderTotal clean_fitz.
Proof. split. reflexivity. Qed.

(** ** An engine with a limit

    The documents of the well-behaved engine and the pixmaps of the small
    one: every page loads, and an image of more than [toy_max_pixels]
    pixels is refused. *)

Definition limited_fitz : Fitz := {|
  Document := list (Z * Z);
  Page := Z * Z;
  fitz_open := clean_open;
  doc_page_count d := Z.of_nat (length d);
  doc_bool d := negb (Z.of_nat (length d) =? 0);
  load_page := clean_load_page;
  get_pixmap := toy_get_pixmap
|}.

Lemma limited_fitz_laws : FitzLaws limited_fitz.
Proof.
  split.
  - exact (@page_count_nonneg clean_fitz clean_fitz_laws).
  - exact (@doc_bool_len clean_fitz clean_fitz_laws).
  - exact (@load_page_in_range clean_fitz clean_fitz_laws).
Qed.

(** ** The buffers of the engines *)

Lemma toy_scale_nonneg (z : float) (n w : Z) : toy_scale z n = Some w -> 0 <= w.
Proof.
  unfold toy_scale. destruct (Prim2SF z) as [| | | [|] m e]; try discriminate.
  intros [= <-]. apply Z.shiftl_nonneg.
  change (0 <= Z.pos m * Z.max 0 n). apply Z.mul_nonneg_nonneg; lia.
Qed.

Lemma blank_pixmap_wf (w h : Z) :
  0 <= w -> 0 <= h ->
  pixmap_wf (mkPixmap (repeat Byte.x00 (Z.to_nat (3 * w * h))) w h (3 * w)).
Proof.
  intros Hw Hh. unfold pixmap_wf. cbn [pix_width pix_height pix_stride pix_samples].
  rewrite repeat_length, Z2Nat.id by nia. repeat split; lia.
Qed.

Lemma toy_fitz_pixmaps : PixmapLaws toy_fitz.
Proof.
  split. cbn. intros p m pix. unfold toy_get_pixmap.
  destruct (toy_scale (mat_a m) (fst p)) as [w |] eqn:Ew; [| discriminate].
  destruct (toy_scale (mat_d m) (snd p)) as [h |] eqn:Eh; [| discriminate].
  destruct (w * h <=? toy_max_pixels); [| discriminate].
  intros [= <-]. apply blank_pixmap_wf; eauto using toy_scale_nonneg.
Qed.

Lemma clean_fitz_pixmaps : PixmapLaws clean_fitz.
Proof.
  split. cbn. intros p m pix. unfold clean_get_pixmap. intros [= <-].
  apply blank_pixmap_wf;
    match goal with
    | |- 0 <= match toy_scale ?z ?n with _ => _ end =>
        destruct (toy_scale z n) eqn:E; [eapply toy_scale_nonneg, E | lia]
    end.
Qed.
