(* ===== verification/PageLabel.v ===== *)
(** * The texts the widget shows

    Two f-strings: the page indicator [f"Page: {current_page + 1} / {page_count}"]
    of [show_page] and the message [f"Failed to open PDF:\n{e}"] of [open_pdf].
    An integer in an f-string is printed by [str]: decimal digits, and a minus
    sign for a negative number.  The file also holds a reader of the
    indicator, so that what the indicator says of the state can be stated as
    a round trip. *)

From Stdlib Require Import ZArith String Ascii List Bool Lia.
From Stdlib Require Import Decimal DecimalString DecimalZ DecimalPos.
From S2P Require Import Prelude.
Import ListNotations.

Local Open Scope string_scope.

(** ** Printing *)

(** [str(z)] for a Python integer. *)
Definition str_int (z : Z) : string := NilZero.string_of_int (Z.to_int z).

(** The text of the indicator before any document is open. *)
Definition initial_page_label : string := "Page: 0 / 0".

(** [f"Page: {current_page + 1} / {page_count}"] *)
Definition page_label_text (current_page page_count : Z) : string :=
  "Page: " ++ str_int (current_page + 1) ++ " / " ++ str_int page_count.

(** The line feed of ["\n"]. *)
Definition newline : string := String (ascii_of_nat 10) EmptyString.

(** [f"Failed to open PDF:\n{e}"], given [str(e)]. *)
Definition open_error_text (msg : string) : string :=
  "Failed to open PDF:" ++ newline ++ msg.

(** ** Reading the indicator back *)

(** The maximal runs without a space. *)
Fixpoint words (s : string) : list string :=
  match s with
  | EmptyString => [EmptyString]
  | String c s' =>
      if Ascii.eqb c " " then EmptyString :: words s'
      else match words s' with
           | w :: ws => String c w :: ws
           | [] => [String c EmptyString]
           end
  end.

Definition int_of_str (s : string) : option Z :=
  option_map Z.of_int (NilZero.int_of_string s).

(** The page number and the page count an indicator shows. *)
Definition parse_page_label (s : string) : option (Z * Z) :=
  match words s with
  | [ "Page:"; a; "/"; b ] =>
      match int_of_str a, int_of_str b with
      | Some x, Some y => Some (x, y)
      | _, _ => None
      end
  | _ => None
  end.

Fixpoint no_space (s : string) : bool :=
  match s with
  | EmptyString => true
  | String c s' => negb (Ascii.eqb c " ") && no_space s'
  end.

(** ** Lemmas *)

Lemma words_no_space (s : string) : no_space s = true -> words s = [s].
Proof.
  induction s as [| c s IH]; cbn; [reflexivity |].
  intros H. apply andb_true_iff in H. destruct H as [Hc Hs].
  apply negb_true_iff in Hc. rewrite Hc, (IH Hs). reflexivity.
Qed.

Lemma words_app_space (a r : string) :
  no_space a = true -> words (a ++ String " " r) = a :: words r.
Proof.
  induction a as [| c a IH]; cbn; [reflexivity |].
  intros H. apply andb_true_iff in H. destruct H as [Hc Ha].
  apply negb_true_iff in Hc. rewrite Hc, (IH Ha). reflexivity.
Qed.

Lemma no_space_uint (d : uint) : no_space (NilEmpty.string_of_uint d) = true.
Proof. induction d; cbn; auto. Qed.

Lemma no_space_str_int (z : Z) : no_space (str_int z) = true.
Proof.
  unfold str_int, NilZero.string_of_int, NilZero.string_of_uint.
  destruct (Z.to_int z) as [d | d]; destruct d; cbn; auto using no_space_uint.
Qed.

Lemma to_int_not_nil (z : Z) : Z.to_int z <> Pos Nil /\ Z.to_int z <> Neg Nil.
Proof.
  destruct z as [| p | p]; cbn; split; try discriminate;
    intros H; injection H as H; revert H; apply (Unsigned.to_uint_nonnil p).
Qed.

(** Reading a printed integer gives the integer. *)
Lemma int_of_str_int (z : Z) : int_of_str (str_int z) = Some z.
Proof.
  unfold int_of_str, str_int.
  destruct (to_int_not_nil z) as [H1 H2].
  rewrite (NilZero.isi _ H1 H2). cbn. f_equal. apply DecimalZ.of_to.
Qed.

Lemma words_page_label (cp pc : Z) :
  words (page_label_text cp pc) = ["Page:"; str_int (cp + 1); "/"; str_int pc].
Proof.
  unfold page_label_text.
  change ("Page: " ++ ?x) with ("Page:" ++ String " " x).
  rewrite words_app_space by reflexivity.
  change (" / " ++ ?x) with (String " " ("/" ++ String " " x)).
  rewrite words_app_space by apply no_space_str_int.
  rewrite words_app_space by reflexivity.
  rewrite words_no_space by apply no_space_str_int.
  reflexivity.
Qed.

(** ** The round trip *)

(** C35: the page indicator can be read back: parsing the text that
    [show_page] writes for page index [cp] of [pc] pages gives the pair
    [(cp + 1, pc)], for all integers, negative ones included. *)
Theorem parse_page_label_text (cp pc : Z) :
  parse_page_label (page_label_text cp pc) = Some ((cp + 1)%Z, pc).
Proof.
  unfold parse_page_label. rewrite words_page_label. cbn.
  rewrite !int_of_str_int. reflexivity.
Qed.

(** The indicator determines the index and the page count: two
    states with the same indicator text have the same [current_page] and
    the same [page_count]. *)
Lemma page_label_text_inj (cp pc cp' pc' : Z) :
  page_label_text cp pc = page_label_text cp' pc' -> cp = cp' /\ pc = pc'.
Proof.
  intros H. apply (f_equal parse_page_label) in H. unfold parse_page_label in H.
  rewrite !words_page_label in H. cbn in H. rewrite !int_of_str_int in H.
  injection H. lia.
Qed.

Lemma page_label_text_inj_witness : 2%Z = 2%Z /\ 10%Z = 10%Z.
Proof. apply (page_label_text_inj 2 10 2 10). reflexivity. Defined.

(** The indicator [__init__] writes reads as page 0 of 0. *)
Example parse_initial_page_label :
  parse_page_label initial_page_label = Some (0%Z, 0%Z).
Proof. reflexivity. Qed.

(** Concrete texts. *)
Example page_label_text_3_of_10 : page_label_text 2 10 = "Page: 3 / 10".
Proof. reflexivity. Qed.

Example str_int_negative : str_int (-12) = "-12".
Proof. reflexivity. Qed.
