(* ===== verification/Viewer.v ===== *)
(** * The widget

    [PDFViewer] of src/PDFViewer1/pdf_viewer.py: the attributes as a record,
    [__init__] statement by statement, with [init] the object it computes,
    and the six methods as computations of the monad [M PDFViewer].  A
    method that calls [show_page] and sees it raise has already assigned
    its attributes; the monad keeps them.  The two modal dialogs the widget
    shows, the file dialog and the error box, are recorded in the order of
    the calls, and so are the calls of the engine, which is any instance
    of [Fitz]. *)

From Stdlib Require Import Floats ZArith String List Bool Lia Morphisms Setoid.
From S2P Require Import Prelude Zoom Fitz PageLabel.
Import ListNotations.

Local Open Scope Z_scope.
Local Open Scope slot_scope.

(** ** Qt values *)

(** The five buttons, by the attribute that holds them. *)
Inductive Button : Type :=
| open_btn
| prev_btn
| next_btn
| zoom_in_btn
| zoom_out_btn.

(** The methods connected to signals. *)
Inductive Slot : Type :=
| slot_open_pdf
| slot_prev_page
| slot_next_page
| slot_zoom_in
| slot_zoom_out.

(** [button.clicked], and [QShortcut.activated] by key sequence. *)
Inductive Signal : Type :=
| clicked (b : Button)
| activated (keys : string).

(** The child widgets, by the attribute that holds them. *)
Inductive Widget : Type :=
| ButtonWidget (b : Button)
| PageLabelWidget
| ScrollWidget
| LabelWidget.

(** What a layout holds: a widget, the layout [topbar], or a stretch. *)
Inductive LayoutItem : Type :=
| ItemWidget (w : Widget)
| ItemTopbar
| ItemStretch.

Inductive Alignment : Type :=
| AlignDefault
| AlignCenter.

Inductive ImageFormat : Type :=
| Format_RGB888.

(** [QImage(data, width, height, bytesPerLine, format)] *)
Record QImage : Type := mkQImage {
  img_data : list Byte.byte;
  img_width : Z;
  img_height : Z;
  img_bytes_per_line : Z;
  img_format : ImageFormat
}.

(** A modal [QMessageBox.critical(self, title, text)]. *)
Record MessageBox : Type := mkMessageBox {
  box_title : string;
  box_text : string
}.

(** A modal [QFileDialog.getOpenFileName(self, caption, directory, filter)]. *)
Record FileDialog : Type := mkFileDialog {
  dlg_caption : string;
  dlg_directory : string;
  dlg_filter : string
}.

(** A modal dialog the widget has shown. *)
Inductive Dialog : Type :=
| OpenFileName (d : FileDialog)
| Critical (b : MessageBox).

(** The error boxes among the dialogs, in order. *)
Definition critical_boxes (l : list Dialog) : list MessageBox :=
  flat_map (fun d => match d with
                     | Critical b => [b]
                     | OpenFileName _ => []
                     end) l.

(** The file dialogs among the dialogs, in order. *)
Definition file_dialogs (l : list Dialog) : list FileDialog :=
  flat_map (fun d => match d with
                     | OpenFileName f => [f]
                     | Critical _ => []
                     end) l.

Lemma critical_boxes_app (l1 l2 : list Dialog) :
  critical_boxes (l1 ++ l2) = critical_boxes l1 ++ critical_boxes l2.
Proof. apply flat_map_app. Qed.

Lemma file_dialogs_app (l1 l2 : list Dialog) :
  file_dialogs (l1 ++ l2) = file_dialogs l1 ++ file_dialogs l2.
Proof. apply flat_map_app. Qed.

(** The text of a button. *)
Definition button_text (b : Button) : string :=
  match b with
  | open_btn => "Open PDF"
  | prev_btn => "← Prev"
  | next_btn => "Next →"
  | zoom_in_btn => "Zoom In"
  | zoom_out_btn => "Zoom Out"
  end.

(** [QImage(pix.samples, pix.width, pix.height, pix.stride, Format_RGB888)] *)
Definition QImage_of_pixmap (pix : Pixmap) : QImage :=
  mkQImage (pix_samples pix) (pix_width pix) (pix_height pix) (pix_stride pix)
    Format_RGB888.

(** What [QImage] needs of the buffer it is given, which it does not copy:
    with [Format_RGB888] a row holds at least three bytes a pixel, and the
    buffer holds every row. *)
Definition QImage_wf (img : QImage) : Prop :=
  0 <= img_width img /\ 0 <= img_height img /\
  3 * img_width img <= img_bytes_per_line img /\
  img_bytes_per_line img * img_height img <= Z.of_nat (length (img_data img)).

Lemma QImage_of_pixmap_wf (pix : Pixmap) : pixmap_wf pix -> QImage_wf (QImage_of_pixmap pix).
Proof. unfold pixmap_wf, QImage_wf. cbn. lia. Qed.

(** The attributes [__init__] builds and no method assigns. *)
Definition Widgets : Type :=
  string * (Z * Z) * list (Button * string) * list LayoutItem * list LayoutItem * bool *
  option Widget * Alignment * list (Signal * Slot).

Section Viewer.
Context {F : Fitz}.

(** ** The object *)

(** A call of PyMuPDF: [fitz.open(path)], [doc.load_page(n)] and
    [page.get_pixmap(matrix=m)]. *)
Inductive FitzCall : Type :=
| Fitz_open (path : string)
| Document_load_page (d : Document) (n : Z)
| Page_get_pixmap (p : Page) (m : Matrix).

Record PDFViewer : Type := mkPDFViewer {
  window_title : string;
  window_size : Z * Z;
  buttons : list (Button * string);
  layout : list LayoutItem;
  topbar : list LayoutItem;
  page_label : string;
  scroll_widget_resizable : bool;
  scroll_widget : option Widget;
  label_alignment : Alignment;
  label : option QImage;
  doc : option Document;
  page_count : Z;
  current_page : Z;
  zoom : float;
  connections : list (Signal * Slot);
  dialogs : list Dialog;
  fitz_calls : list FitzCall
}.

(** ** Attribute assignments *)

Definition set_page_label (t : string) (s : PDFViewer) : PDFViewer :=
  mkPDFViewer (window_title s) (window_size s) (buttons s) (layout s) (topbar s) t
    (scroll_widget_resizable s) (scroll_widget s)
    (label_alignment s) (label s) (doc s)
    (page_count s) (current_page s) (zoom s) (connections s) (dialogs s) (fitz_calls s).

Definition set_label (i : option QImage) (s : PDFViewer) : PDFViewer :=
  mkPDFViewer (window_title s) (window_size s) (buttons s) (layout s) (topbar s) (page_label s)
    (scroll_widget_resizable s) (scroll_widget s)
    (label_alignment s) i (doc s)
    (page_count s) (current_page s) (zoom s) (connections s) (dialogs s) (fitz_calls s).

Definition set_doc (d : option Document) (s : PDFViewer) : PDFViewer :=
  mkPDFViewer (window_title s) (window_size s) (buttons s) (layout s) (topbar s) (page_label s)
    (scroll_widget_resizable s) (scroll_widget s)
    (label_alignment s) (label s) d
    (page_count s) (current_page s) (zoom s) (connections s) (dialogs s) (fitz_calls s).

Definition set_page_count (n : Z) (s : PDFViewer) : PDFViewer :=
  mkPDFViewer (window_title s) (window_size s) (buttons s) (layout s) (topbar s) (page_label s)
    (scroll_widget_resizable s) (scroll_widget s)
    (label_alignment s) (label s) (doc s)
    n (current_page s) (zoom s) (connections s) (dialogs s) (fitz_calls s).

Definition set_current_page (n : Z) (s : PDFViewer) : PDFViewer :=
  mkPDFViewer (window_title s) (window_size s) (buttons s) (layout s) (topbar s) (page_label s)
    (scroll_widget_resizable s) (scroll_widget s)
    (label_alignment s) (label s) (doc s)
    (page_count s) n (zoom s) (connections s) (dialogs s) (fitz_calls s).

Definition set_zoom (z : float) (s : PDFViewer) : PDFViewer :=
  mkPDFViewer (window_title s) (window_size s) (buttons s) (layout s) (topbar s) (page_label s)
    (scroll_widget_resizable s) (scroll_widget s)
    (label_alignment s) (label s) (doc s)
    (page_count s) (current_page s) z (connections s) (dialogs s) (fitz_calls s).

(** A dialog is appended to the ones shown so far. *)
Definition add_dialog (d : Dialog) (s : PDFViewer) : PDFViewer :=
  mkPDFViewer (window_title s) (window_size s) (buttons s) (layout s) (topbar s) (page_label s)
    (scroll_widget_resizable s) (scroll_widget s)
    (label_alignment s) (label s) (doc s)
    (page_count s) (current_page s) (zoom s) (connections s)
    (dialogs s ++ [d]) (fitz_calls s).

(** The error boxes shown so far. *)
Definition message_boxes (s : PDFViewer) : list MessageBox :=
  critical_boxes (dialogs s).

(** [QMessageBox.critical(self, title, text)] *)
Definition add_message_box (b : MessageBox) (s : PDFViewer) : PDFViewer :=
  add_dialog (Critical b) s.

(** A call of the engine is appended to the ones made so far. *)
Definition add_fitz_call (c : FitzCall) (s : PDFViewer) : PDFViewer :=
  mkPDFViewer (window_title s) (window_size s) (buttons s) (layout s) (topbar s) (page_label s)
    (scroll_widget_resizable s) (scroll_widget s)
    (label_alignment s) (label s) (doc s)
    (page_count s) (current_page s) (zoom s) (connections s) (dialogs s)
    (fitz_calls s ++ [c]).

(** [fitz.open(path)]: the call is made, and returns or raises as the
    engine says. *)
Definition call_open (path : string) : M PDFViewer Document :=
  modify (add_fitz_call (Fitz_open path)) ;;
  lift (fitz_open path).

(** [doc.load_page(n)] *)
Definition call_load_page (d : Document) (n : Z) : M PDFViewer Page :=
  modify (add_fitz_call (Document_load_page d n)) ;;
  lift (load_page d n).

(** [page.get_pixmap(matrix=m)] *)
Definition call_get_pixmap (p : Page) (m : Matrix) : M PDFViewer Pixmap :=
  modify (add_fitz_call (Page_get_pixmap p m)) ;;
  lift (get_pixmap p m).

(** ** [__init__] *)

(** The buttons in the order the loop adds them to [topbar]. *)
Definition toolbar_buttons : list Button :=
  [open_btn; prev_btn; next_btn; zoom_in_btn; zoom_out_btn].

(** The [connect] calls and the shortcuts, in the order of the source. *)
Definition init_connections : list (Signal * Slot) :=
  [ (clicked open_btn, slot_open_pdf);
    (clicked prev_btn, slot_prev_page);
    (clicked next_btn, slot_next_page);
    (clicked zoom_in_btn, slot_zoom_in);
    (clicked zoom_out_btn, slot_zoom_out);
    (activated "Right", slot_next_page);
    (activated "Left", slot_prev_page);
    (activated "Ctrl++", slot_zoom_in);
    (activated "Ctrl+-", slot_zoom_out) ].

(** ** [__init__], statement by statement *)

(** [self.setWindowTitle(t)] *)
Definition setWindowTitle (t : string) (s : PDFViewer) : PDFViewer :=
  mkPDFViewer t (window_size s) (buttons s) (layout s) (topbar s) (page_label s)
    (scroll_widget_resizable s) (scroll_widget s) (label_alignment s) (label s) (doc s)
    (page_count s) (current_page s) (zoom s) (connections s) (dialogs s) (fitz_calls s).

(** [self.resize(w, h)] *)
Definition resize (w h : Z) (s : PDFViewer) : PDFViewer :=
  mkPDFViewer (window_title s) (w, h) (buttons s) (layout s) (topbar s) (page_label s)
    (scroll_widget_resizable s) (scroll_widget s) (label_alignment s) (label s) (doc s)
    (page_count s) (current_page s) (zoom s) (connections s) (dialogs s) (fitz_calls s).

(** [QtWidgets.QPushButton(text)], held by the attribute [b]. *)
Definition QPushButton (b : Button) (text : string) (s : PDFViewer) : PDFViewer :=
  mkPDFViewer (window_title s) (window_size s) (buttons s ++ [(b, text)]) (layout s)
    (topbar s) (page_label s) (scroll_widget_resizable s) (scroll_widget s)
    (label_alignment s) (label s) (doc s) (page_count s) (current_page s) (zoom s)
    (connections s) (dialogs s) (fitz_calls s).

(** [layout.addLayout] and [layout.addWidget]: the item goes below the others. *)
Definition layout_add (i : LayoutItem) (s : PDFViewer) : PDFViewer :=
  mkPDFViewer (window_title s) (window_size s) (buttons s) (layout s ++ [i]) (topbar s)
    (page_label s) (scroll_widget_resizable s) (scroll_widget s) (label_alignment s)
    (label s) (doc s) (page_count s) (current_page s) (zoom s) (connections s)
    (dialogs s) (fitz_calls s).

(** [topbar.addWidget] and [topbar.addStretch]: the item goes right of the others. *)
Definition topbar_add (i : LayoutItem) (s : PDFViewer) : PDFViewer :=
  mkPDFViewer (window_title s) (window_size s) (buttons s) (layout s) (topbar s ++ [i])
    (page_label s) (scroll_widget_resizable s) (scroll_widget s) (label_alignment s)
    (label s) (doc s) (page_count s) (current_page s) (zoom s) (connections s)
    (dialogs s) (fitz_calls s).

(** [self.scroll.setWidgetResizable(b)] *)
Definition setWidgetResizable (b : bool) (s : PDFViewer) : PDFViewer :=
  mkPDFViewer (window_title s) (window_size s) (buttons s) (layout s) (topbar s) (page_label s) b
    (scroll_widget s) (label_alignment s) (label s) (doc s) (page_count s)
    (current_page s) (zoom s) (connections s) (dialogs s) (fitz_calls s).

(** [self.scroll.setWidget(w)] *)
Definition setWidget (w : Widget) (s : PDFViewer) : PDFViewer :=
  mkPDFViewer (window_title s) (window_size s) (buttons s) (layout s) (topbar s) (page_label s)
    (scroll_widget_resizable s) (Some w) (label_alignment s) (label s) (doc s)
    (page_count s) (current_page s) (zoom s) (connections s) (dialogs s) (fitz_calls s).

(** [self.label.setAlignment(a)] *)
Definition setAlignment (a : Alignment) (s : PDFViewer) : PDFViewer :=
  mkPDFViewer (window_title s) (window_size s) (buttons s) (layout s) (topbar s) (page_label s)
    (scroll_widget_resizable s) (scroll_widget s) a (label s) (doc s) (page_count s)
    (current_page s) (zoom s) (connections s) (dialogs s) (fitz_calls s).

(** [signal.connect(slot)], and a [QShortcut] built with [activated=slot]: the slot is
    called after those connected before. *)
Definition connect (sig : Signal) (sl : Slot) (s : PDFViewer) : PDFViewer :=
  mkPDFViewer (window_title s) (window_size s) (buttons s) (layout s) (topbar s) (page_label s)
    (scroll_widget_resizable s) (scroll_widget s) (label_alignment s) (label s) (doc s)
    (page_count s) (current_page s) (zoom s) (connections s ++ [(sig, sl)])
    (dialogs s) (fitz_calls s).

(** The body of [__init__], on the widget [super().__init__()] returns. *)
Definition __init__ : M PDFViewer unit :=
  modify (setWindowTitle "Python PDF Viewer") ;;
  modify (resize 900 700) ;;
  modify (layout_add ItemTopbar) ;;
  modify (QPushButton open_btn "Open PDF") ;;
  modify (QPushButton prev_btn "← Prev") ;;
  modify (QPushButton next_btn "Next →") ;;
  modify (QPushButton zoom_in_btn "Zoom In") ;;
  modify (QPushButton zoom_out_btn "Zoom Out") ;;
  for_each (fun b => modify (topbar_add (ItemWidget (ButtonWidget b)))) toolbar_buttons ;;
  modify (topbar_add ItemStretch) ;;
  modify (set_page_label initial_page_label) ;;
  modify (topbar_add (ItemWidget PageLabelWidget)) ;;
  modify (setWidgetResizable true) ;;
  modify (layout_add (ItemWidget ScrollWidget)) ;;
  modify (set_label None) ;;
  modify (setAlignment AlignCenter) ;;
  modify (setWidget LabelWidget) ;;
  modify (set_doc None) ;;
  modify (set_page_count 0) ;;
  modify (set_current_page 0) ;;
  modify (set_zoom zoom_initial) ;;
  modify (connect (clicked open_btn) slot_open_pdf) ;;
  modify (connect (clicked prev_btn) slot_prev_page) ;;
  modify (connect (clicked next_btn) slot_next_page) ;;
  modify (connect (clicked zoom_in_btn) slot_zoom_in) ;;
  modify (connect (clicked zoom_out_btn) slot_zoom_out) ;;
  modify (connect (activated "Right") slot_next_page) ;;
  modify (connect (activated "Left") slot_prev_page) ;;
  modify (connect (activated "Ctrl++") slot_zoom_in) ;;
  modify (connect (activated "Ctrl+-") slot_zoom_out).

(** A widget as [super().__init__()] leaves it: nothing laid out, nothing
    connected, nothing shown.  The attributes [__init__] assigns do not
    exist yet; the record holds any value for them. *)
Definition fresh (s : PDFViewer) : Prop :=
  buttons s = [] /\ layout s = [] /\ topbar s = [] /\ connections s = [] /\
  dialogs s = [] /\ fitz_calls s = [].

(** The state of a widget before [__init__]'s body runs. *)
Definition QWidget_init : PDFViewer := {|
  window_title := "";
  window_size := (640, 480);
  buttons := [];
  layout := [];
  topbar := [];
  page_label := "";
  scroll_widget_resizable := false;
  scroll_widget := None;
  label_alignment := AlignDefault;
  label := None;
  doc := None;
  page_count := 0;
  current_page := 0;
  zoom := 0%float;
  connections := [];
  dialogs := [];
  fitz_calls := []
|}.

(** The object [PDFViewer()] returns: what the body of [__init__] leaves
    of the widget [super().__init__()] returns. *)
Definition init : PDFViewer := Eval cbv in exec __init__ QWidget_init.

(** The child widgets [__init__] creates. *)
Definition all_widgets : list Widget :=
  map ButtonWidget toolbar_buttons ++ [PageLabelWidget; ScrollWidget; LabelWidget].

(** The widgets a state has placed, in the layouts and in the scroll
    area. *)
Definition placed (s : PDFViewer) : list Widget :=
  let widgets_in := flat_map (fun i => match i with
                                       | ItemWidget w => [w]
                                       | _ => []
                                       end) in
  widgets_in (layout s) ++ widgets_in (topbar s) ++
  match scroll_widget s with
  | Some w => [w]
  | None => []
  end.

(** ** The methods *)

(** [show_page]: nothing when the document is false; otherwise load the
    current page, scale it by the zoom in both directions, show the image
    and rewrite the indicator.  Either library call may raise. *)
Definition show_page : M PDFViewer unit :=
  self <- get ;;
  match doc self with
  | None => ret tt
  | Some d =>
      if negb (doc_bool d) then ret tt
      else
        page <- call_load_page d (current_page self) ;;
        let mat := Matrix_scale (zoom self) (zoom self) in
        pix <- call_get_pixmap page mat ;;
        let img := QImage_of_pixmap pix in
        modify (set_label (Some img)) ;;
        modify (set_page_label
                  (page_label_text (current_page self) (page_count self)))
  end.

(** The arguments of the file dialog [open_pdf] shows. *)
Definition open_file_dialog : FileDialog :=
  mkFileDialog "Open PDF" "" "PDF Files (*.pdf)".

(** [QFileDialog.getOpenFileName(self, caption, directory, filter)], when
    the user chooses [chosen] (empty: the user cancels): the dialog is shown
    and the call returns the file name and the filter selected, both empty
    after a cancel. *)
Definition getOpenFileName (chosen caption directory filter : string) :
  M PDFViewer (string * string) :=
  modify (add_dialog (OpenFileName (mkFileDialog caption directory filter))) ;;
  ret (chosen, if String.eqb chosen "" then ""%string else filter).

(** [open_pdf], when the user chooses [chosen] in the file dialog. *)
Definition open_pdf (chosen : string) : M PDFViewer unit :=
  answer <- getOpenFileName chosen "Open PDF" "" "PDF Files (*.pdf)" ;;
  let (path, _) := answer in
  if String.eqb path "" then ret tt
  else
    try_except
      (d <- call_open path ;;
       modify (set_doc (Some d)) ;;
       modify (set_page_count (doc_page_count d)) ;;
       modify (set_current_page 0) ;;
       modify (set_zoom zoom_initial) ;;
       show_page)
      (fun msg =>
         modify (add_message_box (mkMessageBox "Error" (open_error_text msg)))).

Definition next_page : M PDFViewer unit :=
  self <- get ;;
  if doc_truthy (doc self) && (current_page self <? page_count self - 1) then
    modify (set_current_page (current_page self + 1)) ;;
    show_page
  else ret tt.

Definition prev_page : M PDFViewer unit :=
  self <- get ;;
  if doc_truthy (doc self) && (0 <? current_page self) then
    modify (set_current_page (current_page self - 1)) ;;
    show_page
  else ret tt.

Definition zoom_in : M PDFViewer unit :=
  self <- get ;;
  if doc_truthy (doc self) then
    modify (set_zoom (zoom_mul (zoom self))) ;;
    show_page
  else ret tt.

Definition zoom_out : M PDFViewer unit :=
  self <- get ;;
  if doc_truthy (doc self) && zoom_gt_floor (zoom self) then
    modify (set_zoom (zoom_div (zoom self))) ;;
    show_page
  else ret tt.

(** The method a slot names; [path] is what the user chooses in the file
    dialog when the slot is [open_pdf]. *)
Definition run_slot (path : string) (sl : Slot) : M PDFViewer unit :=
  match sl with
  | slot_open_pdf => open_pdf path
  | slot_prev_page => prev_page
  | slot_next_page => next_page
  | slot_zoom_in => zoom_in
  | slot_zoom_out => zoom_out
  end.

End Viewer.

Arguments PDFViewer : clear implicits.
Arguments PDFViewer {F}.

(** ** The data attributes

    [show_page] writes the two display widgets and nothing else, so what
    the methods do to [doc], [page_count], [current_page] and [zoom] can be
    read off without it.  [same_data] relates two states with the same four
    attributes. *)

Section Data.
Context {F : Fitz}.

Definition same_data (s1 s2 : PDFViewer) : Prop :=
  doc s1 = doc s2 /\ page_count s1 = page_count s2 /\
  current_page s1 = current_page s2 /\ zoom s1 = zoom s2.

(** The state [open_pdf] has assigned when it calls [show_page]. *)
Definition opened (d : Document) (s : PDFViewer) : PDFViewer :=
  set_zoom zoom_initial
    (set_current_page 0 (set_page_count (doc_page_count d) (set_doc (Some d) s))).

(** What [show_page] computes before it touches the widgets. *)
Definition render (s : PDFViewer) : res QImage :=
  match doc s with
  | None => Raise (Exception "no document")
  | Some d =>
      match load_page d (current_page s) with
      | Raise e => Raise e
      | Ok page =>
          match get_pixmap page (Matrix_scale (zoom s) (zoom s)) with
          | Raise e => Raise e
          | Ok pix => Ok (QImage_of_pixmap pix)
          end
      end
  end.

(** The state once [show_page] has called the engine: [load_page] for the
    current page, and [get_pixmap] for the page it returned, if it did. *)
Definition requested (s : PDFViewer) : PDFViewer :=
  match doc s with
  | None => s
  | Some d =>
      let s1 := add_fitz_call (Document_load_page d (current_page s)) s in
      match load_page d (current_page s) with
      | Ok page => add_fitz_call (Page_get_pixmap page (Matrix_scale (zoom s) (zoom s))) s1
      | Raise _ => s1
      end
  end.

(** The state [show_page] leaves when the render gave [img]. *)
Definition shown (img : QImage) (s : PDFViewer) : PDFViewer :=
  set_page_label (page_label_text (current_page s) (page_count s))
    (set_label (Some img) (requested s)).

#[export] Instance same_data_equiv : Equivalence same_data.
Proof.
  unfold same_data. split.
  - intros s. auto.
  - intros s1 s2 (H1 & H2 & H3 & H4). auto.
  - intros s1 s2 s3 (H1 & H2 & H3 & H4) (G1 & G2 & G3 & G4).
    repeat split; congruence.
Qed.

(** ** [show_page] on every branch *)

Lemma show_page_falsy (s : PDFViewer) :
  doc_truthy (doc s) = false -> show_page s = (Ok tt, s).
Proof.
  unfold show_page, doc_truthy. slot_simp.
  destruct (doc s) as [d |]; [intros -> |]; reflexivity.
Qed.

Lemma show_page_rendered (s : PDFViewer) (img : QImage) :
  doc_truthy (doc s) = true -> render s = Ok img ->
  show_page s = (Ok tt, shown img s).
Proof.
  unfold show_page, call_load_page, call_get_pixmap, doc_truthy, render, shown, requested.
  slot_simp.
  destruct (doc s) as [d |]; [intros -> | discriminate]. cbn.
  destruct (load_page d (current_page s)) as [p | e]; [| discriminate].
  destruct (get_pixmap p _) as [pix | e]; [| discriminate].
  intros [= <-]. reflexivity.
Qed.

Lemma show_page_raises (s : PDFViewer) (e : exn) :
  doc_truthy (doc s) = true -> render s = Raise e ->
  show_page s = (Raise e, requested s).
Proof.
  unfold show_page, call_load_page, call_get_pixmap, doc_truthy, render, requested.
  slot_simp.
  destruct (doc s) as [d |]; [intros -> | discriminate]. cbn.
  destruct (load_page d (current_page s)) as [p | e']; [| intros [= <-]; reflexivity].
  destruct (get_pixmap p _) as [pix | e']; [discriminate | intros [= <-]; reflexivity].
Qed.

(** The calls of the engine change no attribute of the data. *)
Lemma requested_same_data (s : PDFViewer) : same_data (requested s) s.
Proof.
  unfold requested. destruct (doc s) as [d |]; [| reflexivity].
  destruct (load_page d (current_page s)); repeat split.
Qed.

(** Nor the display, nor the dialogs. *)
Lemma requested_display (s : PDFViewer) :
  label (requested s) = label s /\ page_label (requested s) = page_label s /\
  dialogs (requested s) = dialogs s.
Proof.
  unfold requested. destruct (doc s) as [d |]; [| repeat split].
  destruct (load_page d (current_page s)); repeat split.
Qed.

(** The calls [show_page] makes of the engine when the document is true:
    [load_page], and [get_pixmap] if the page was loaded. *)
Definition render_calls (s : PDFViewer) : list FitzCall :=
  match doc s with
  | None => []
  | Some d =>
      Document_load_page d (current_page s) ::
      match load_page d (current_page s) with
      | Ok page => [Page_get_pixmap page (Matrix_scale (zoom s) (zoom s))]
      | Raise _ => []
      end
  end.

Lemma requested_calls (s : PDFViewer) :
  fitz_calls (requested s) = fitz_calls s ++ render_calls s.
Proof.
  unfold requested, render_calls. destruct (doc s) as [d |]; [| symmetry; apply app_nil_r].
  destruct (load_page d (current_page s)); cbn; rewrite <- ?app_assoc; reflexivity.
Qed.

Lemma shown_same_data (img : QImage) (s : PDFViewer) : same_data (shown img s) s.
Proof.
  destruct (requested_same_data s) as (H1 & H2 & H3 & H4).
  unfold shown. repeat split; cbn; assumption.
Qed.

(** What [show_page] shows, and what it leaves of the logs. *)
Lemma shown_display (img : QImage) (s : PDFViewer) :
  label (shown img s) = Some img /\
  page_label (shown img s) = page_label_text (current_page s) (page_count s) /\
  dialogs (shown img s) = dialogs s /\
  fitz_calls (shown img s) = fitz_calls s ++ render_calls s.
Proof.
  unfold shown. cbn. repeat split; [apply requested_display | apply requested_calls].
Qed.

(** The three branches are all there is. *)
Lemma show_page_cases (s : PDFViewer) :
  show_page s = (Ok tt, s) \/
  (exists img, render s = Ok img /\ show_page s = (Ok tt, shown img s)) \/
  (exists e, render s = Raise e /\ show_page s = (Raise e, requested s)).
Proof.
  destruct (doc_truthy (doc s)) eqn:T; [| left; apply show_page_falsy, T].
  right. destruct (render s) as [img | e] eqn:R.
  - left. exists img. split; [reflexivity | apply show_page_rendered; assumption].
  - right. exists e. split; [reflexivity | apply show_page_raises; assumption].
Qed.

(** The same, as one equation. *)
Lemma show_page_spec (s : PDFViewer) :
  show_page s =
    if doc_truthy (doc s) then
      match render s with
      | Ok img => (Ok tt, shown img s)
      | Raise e => (Raise e, requested s)
      end
    else (Ok tt, s).
Proof.
  destruct (doc_truthy (doc s)) eqn:T; [| apply show_page_falsy, T].
  destruct (render s) as [img | e] eqn:R;
    [apply show_page_rendered | apply show_page_raises]; assumption.
Qed.

(** [show_page] leaves the data attributes alone. *)
Lemma show_page_same_data (s : PDFViewer) : same_data (exec show_page s) s.
Proof.
  unfold exec.
  destruct (show_page_cases s) as [-> | [(img & _ & ->) | (e & _ & ->)]];
    cbn [snd]; [reflexivity | apply shown_same_data | apply requested_same_data].
Qed.

(** It shows no dialog. *)
Lemma show_page_dialogs (s : PDFViewer) : dialogs (exec show_page s) = dialogs s.
Proof.
  unfold exec.
  destruct (show_page_cases s) as [-> | [(img & _ & ->) | (e & _ & ->)]];
    cbn [snd]; [reflexivity | apply shown_display | apply requested_display].
Qed.

Lemma show_page_message_boxes (s : PDFViewer) :
  message_boxes (exec show_page s) = message_boxes s.
Proof. unfold message_boxes. rewrite show_page_dialogs. reflexivity. Qed.

(** The render reads the data attributes only. *)
Lemma render_same_data (s1 s2 : PDFViewer) : same_data s1 s2 -> render s1 = render s2.
Proof. intros (H1 & H2 & H3 & H4). unfold render. rewrite H1, H3, H4. reflexivity. Qed.

(** How it ends depends on the data attributes only. *)
Lemma show_page_outcome (s1 s2 : PDFViewer) :
  same_data s1 s2 -> outcome show_page s1 = outcome show_page s2.
Proof.
  intros (H1 & H2 & H3 & H4). unfold outcome. rewrite !show_page_spec.
  unfold render. rewrite H1, H3, H4. destruct (doc_truthy (doc s2)); [| reflexivity].
  destruct (doc s2) as [d |]; [| reflexivity].
  destruct (load_page d (current_page s2)) as [pg | e]; [| reflexivity].
  destruct (get_pixmap pg _); reflexivity.
Qed.

End Data.

(** ** The shape of the four navigation methods

    [next_page], [prev_page], [zoom_in] and [zoom_out] test a condition on
    the object, assign one attribute and call [show_page]. *)

Section Guarded.
Context {F : Fitz}.

Definition guarded (guard : PDFViewer -> bool) (upd : PDFViewer -> PDFViewer) :
  M PDFViewer unit :=
  self <- get ;;
  if guard self then modify upd ;; show_page else ret tt.

Definition next_page_guard (s : PDFViewer) : bool :=
  doc_truthy (doc s) && (current_page s <? page_count s - 1).
Definition next_page_upd (s : PDFViewer) : PDFViewer :=
  set_current_page (current_page s + 1) s.

Definition prev_page_guard (s : PDFViewer) : bool :=
  doc_truthy (doc s) && (0 <? current_page s).
Definition prev_page_upd (s : PDFViewer) : PDFViewer :=
  set_current_page (current_page s - 1) s.

Definition zoom_in_guard (s : PDFViewer) : bool := doc_truthy (doc s).
Definition zoom_in_upd (s : PDFViewer) : PDFViewer :=
  set_zoom (zoom_mul (zoom s)) s.

Definition zoom_out_guard (s : PDFViewer) : bool :=
  doc_truthy (doc s) && zoom_gt_floor (zoom s).
Definition zoom_out_upd (s : PDFViewer) : PDFViewer :=
  set_zoom (zoom_div (zoom s)) s.

Ltac guarded_eq g :=
  intros s; unfold guarded, g; slot_simp;
  match goal with |- context [if ?b then _ else _] => destruct b end; reflexivity.

Lemma next_page_guarded : next_page =m= guarded next_page_guard next_page_upd.
Proof. unfold next_page. guarded_eq next_page_guard. Qed.

Lemma prev_page_guarded : prev_page =m= guarded prev_page_guard prev_page_upd.
Proof. unfold prev_page. guarded_eq prev_page_guard. Qed.

Lemma zoom_in_guarded : zoom_in =m= guarded zoom_in_guard zoom_in_upd.
Proof. unfold zoom_in. guarded_eq zoom_in_guard. Qed.

Lemma zoom_out_guarded : zoom_out =m= guarded zoom_out_guard zoom_out_upd.
Proof. unfold zoom_out. guarded_eq zoom_out_guard. Qed.

Lemma guarded_false (g : PDFViewer -> bool) (u : PDFViewer -> PDFViewer) (s : PDFViewer) :
  g s = false -> guarded g u s = (Ok tt, s).
Proof. intros H. unfold guarded. slot_simp. rewrite H. reflexivity. Qed.

Lemma guarded_true (g : PDFViewer -> bool) (u : PDFViewer -> PDFViewer) (s : PDFViewer) :
  g s = true -> guarded g u s = show_page (u s).
Proof. intros H. unfold guarded. slot_simp. rewrite H. reflexivity. Qed.

(** The data attributes after a guarded method, whether [show_page] raised
    or not. *)
Lemma guarded_same_data (g : PDFViewer -> bool) (u : PDFViewer -> PDFViewer) (s : PDFViewer) :
  same_data (exec (guarded g u) s) (if g s then u s else s).
Proof.
  unfold exec. destruct (g s) eqn:G.
  - rewrite (guarded_true _ _ _ G). apply show_page_same_data.
  - rewrite (guarded_false _ _ _ G). reflexivity.
Qed.

(** An invariant of the data attributes survives a guarded method when
    the assignment keeps it under the guard. *)
Lemma guarded_preserves (I : PDFViewer -> Prop) (g : PDFViewer -> bool)
  (u : PDFViewer -> PDFViewer) :
  Proper (same_data ==> iff) I ->
  (forall s, I s -> g s = true -> I (u s)) ->
  preserves I (guarded g u).
Proof.
  intros HI Hu s Hs. rewrite (guarded_same_data g u s).
  destruct (g s) eqn:G; auto.
Qed.

(** Guards and assignments read and write the data attributes only. *)
Ltac solve_data_proper :=
  intros s1 s2 (H1 & H2 & H3 & H4);
  unfold same_data, next_page_guard, prev_page_guard, zoom_in_guard,
    zoom_out_guard, next_page_upd, prev_page_upd, zoom_in_upd, zoom_out_upd;
  cbn; rewrite ?H1, ?H2, ?H3, ?H4; auto.

#[export] Instance next_page_guard_proper : Proper (same_data ==> eq) next_page_guard.
Proof. solve_data_proper. Qed.

#[export] Instance prev_page_guard_proper : Proper (same_data ==> eq) prev_page_guard.
Proof. solve_data_proper. Qed.

#[export] Instance zoom_in_guard_proper : Proper (same_data ==> eq) zoom_in_guard.
Proof. solve_data_proper. Qed.

#[export] Instance zoom_out_guard_proper : Proper (same_data ==> eq) zoom_out_guard.
Proof. solve_data_proper. Qed.

#[export] Instance next_page_upd_proper : Proper (same_data ==> same_data) next_page_upd.
Proof. solve_data_proper. Qed.

#[export] Instance prev_page_upd_proper : Proper (same_data ==> same_data) prev_page_upd.
Proof. solve_data_proper. Qed.

#[export] Instance zoom_in_upd_proper : Proper (same_data ==> same_data) zoom_in_upd.
Proof. solve_data_proper. Qed.

#[export] Instance zoom_out_upd_proper : Proper (same_data ==> same_data) zoom_out_upd.
Proof. solve_data_proper. Qed.

(** [show_page] on a state whose document is true: the page shown, or
    the exception of the engine with nothing shown. *)
Definition rendered (s : PDFViewer) : res unit * PDFViewer :=
  match render s with
  | Ok img => (Ok tt, shown img s)
  | Raise e => (Raise e, requested s)
  end.

(** A guarded method whose assignment keeps the document, in closed form. *)
Lemma guarded_rendered (g : PDFViewer -> bool) (u : PDFViewer -> PDFViewer) (s : PDFViewer) :
  (g s = true -> doc_truthy (doc (u s)) = true) ->
  guarded g u s = if g s then rendered (u s) else (Ok tt, s).
Proof.
  intros H. destruct (g s) eqn:G; [| apply guarded_false, G].
  rewrite (guarded_true _ _ _ G), show_page_spec, (H eq_refl). reflexivity.
Qed.

(** The state after a guarded method whose guard held, up to display. *)
Lemma guarded_same_data_true (g : PDFViewer -> bool) (u : PDFViewer -> PDFViewer)
  (s : PDFViewer) :
  g s = true -> same_data (exec (guarded g u) s) (u s).
Proof. intros G. rewrite guarded_same_data, G. reflexivity. Qed.

End Guarded.

(** ** [open_pdf] on every branch *)

Section Open.
Context {F : Fitz}.

Definition open_error_box (msg : string) : MessageBox :=
  mkMessageBox "Error" (open_error_text msg).

Definition open_handler (msg : string) : M PDFViewer unit :=
  modify (add_message_box (open_error_box msg)).

(** The state once the file dialog has been shown. *)
Definition asked (s : PDFViewer) : PDFViewer :=
  add_dialog (OpenFileName open_file_dialog) s.

(** The state once the dialog has answered and [fitz.open] is called. *)
Definition opening (path : string) (s : PDFViewer) : PDFViewer :=
  add_fitz_call (Fitz_open path) (asked s).

(** What is left of [open_pdf] once the dialog has answered. *)
Lemma open_pdf_asked (path : string) (s : PDFViewer) :
  open_pdf path s =
    if String.eqb path "" then (Ok tt, asked s)
    else try_except
           (d <- call_open path ;;
            modify (set_doc (Some d)) ;;
            modify (set_page_count (doc_page_count d)) ;;
            modify (set_current_page 0) ;;
            modify (set_zoom zoom_initial) ;;
            show_page)
           open_handler (asked s).
Proof.
  unfold open_pdf, getOpenFileName. unfold bind at 1 2. unfold modify at 1, ret at 1.
  destruct (String.eqb path ""); reflexivity.
Qed.

(** The user cancelled the dialog. *)
Lemma open_pdf_cancel (s : PDFViewer) : open_pdf "" s = (Ok tt, asked s).
Proof. reflexivity. Qed.

Lemma open_pdf_fitz_Exception (path msg : string) (s : PDFViewer) :
  path <> ""%string -> fitz_open path = Raise (Exception msg) ->
  open_pdf path s = (Ok tt, add_message_box (open_error_box msg) (opening path s)).
Proof.
  intros Hp Ho. rewrite open_pdf_asked. apply String.eqb_neq in Hp. rewrite Hp.
  unfold call_open. slot_simp. rewrite Ho. reflexivity.
Qed.

Lemma open_pdf_fitz_BaseException (path msg : string) (s : PDFViewer) :
  path <> ""%string -> fitz_open path = Raise (BaseException msg) ->
  open_pdf path s = (Raise (BaseException msg), opening path s).
Proof.
  intros Hp Ho. rewrite open_pdf_asked. apply String.eqb_neq in Hp. rewrite Hp.
  unfold call_open. slot_simp. rewrite Ho. reflexivity.
Qed.

(** Once [fitz.open] returned, what is left is [show_page] under the
    handler, from the state with the four attributes assigned. *)
Lemma open_pdf_fitz_Ok (path : string) (d : Document) (s : PDFViewer) :
  path <> ""%string -> fitz_open path = Ok d ->
  open_pdf path s = try_except show_page open_handler (opened d (opening path s)).
Proof.
  intros Hp Ho. rewrite open_pdf_asked. apply String.eqb_neq in Hp. rewrite Hp.
  unfold try_except at 1. unfold call_open. unfold bind at 1 2.
  unfold modify at 1, lift. rewrite Ho. reflexivity.
Qed.

Lemma message_boxes_add (b : MessageBox) (s : PDFViewer) :
  message_boxes (add_message_box b s) = message_boxes s ++ [b].
Proof. unfold message_boxes. cbn. apply critical_boxes_app. Qed.

Lemma message_boxes_asked (s : PDFViewer) : message_boxes (asked s) = message_boxes s.
Proof. unfold message_boxes. cbn. rewrite critical_boxes_app. apply app_nil_r. Qed.

Lemma message_boxes_opening (path : string) (s : PDFViewer) :
  message_boxes (opening path s) = message_boxes s.
Proof. apply message_boxes_asked. Qed.

(** The dialog changes no data attribute, and nor does the call. *)
Lemma asked_same_data (s : PDFViewer) : same_data (asked s) s.
Proof. repeat split. Qed.

Lemma opening_same_data (path : string) (s : PDFViewer) : same_data (opening path s) s.
Proof. repeat split. Qed.

(** [show_page] under the handler of [open_pdf] changes no data
    attribute, however it ends. *)
Lemma open_handled_same_data (s : PDFViewer) :
  same_data (snd (try_except show_page open_handler s)) s.
Proof.
  unfold try_except. pose proof (show_page_same_data s) as H. unfold exec in H.
  destruct (show_page s) as [[[] | [msg | msg]] s']; exact H.
Qed.

(** The data attributes after [open_pdf]: the old ones, or the ones of the
    new document. *)
Lemma open_pdf_same_data (path : string) (s : PDFViewer) :
  same_data (exec (open_pdf path) s)
    (match fitz_open path with
     | Ok d => if String.eqb path "" then s else opened d s
     | Raise _ => s
     end).
Proof.
  unfold exec. destruct (String.eqb_spec path "") as [-> | Hp].
  - rewrite open_pdf_cancel. destruct (fitz_open ""); apply asked_same_data.
  - destruct (fitz_open path) as [d | [msg | msg]] eqn:Ho.
    + rewrite (open_pdf_fitz_Ok path d s Hp Ho), open_handled_same_data. repeat split.
    + rewrite (open_pdf_fitz_Exception path msg s Hp Ho). cbn. repeat split.
    + rewrite (open_pdf_fitz_BaseException path msg s Hp Ho). apply opening_same_data.
Qed.

End Open.

(** ** What the methods leave alone

    A method changes the state only through the attribute assignments it
    makes, so a property that survives those assignments survives the
    method, however it ends.  The assignments come in three groups: the two
    of the display (the image set is always the render of the state), the
    four of the data, the dialog, and the call of the engine. *)

Section Frame.
Context {F : Fitz}.
Variable P : PDFViewer -> Prop.

Definition keeps_display : Prop :=
  (forall img s, render s = Ok img -> P s -> P (set_label (Some img) s)) /\
  (forall t s, P s -> P (set_page_label t s)).

Definition keeps_data : Prop :=
  (forall d s, P s -> P (set_doc d s)) /\
  (forall n s, P s -> P (set_page_count n s)) /\
  (forall n s, P s -> P (set_current_page n s)) /\
  (forall z s, P s -> P (set_zoom z s)).

Definition keeps_dialog : Prop := forall d s, P s -> P (add_dialog d s).

Definition keeps_call : Prop := forall c s, P s -> P (add_fitz_call c s).

Lemma requested_frame (s : PDFViewer) : keeps_call -> P s -> P (requested s).
Proof.
  intros Hc Hs. unfold requested. destruct (doc s) as [d |]; [| exact Hs].
  destruct (load_page d (current_page s)); auto.
Qed.

Lemma show_page_frame : keeps_display -> keeps_call -> preserves P show_page.
Proof.
  intros [Hl Ht] Hc s Hs. unfold exec. rewrite show_page_spec.
  destruct (doc_truthy (doc s)); [| exact Hs].
  destruct (render s) as [img | e] eqn:R; [| apply requested_frame; assumption].
  apply Ht, Hl; [| apply requested_frame; assumption].
  rewrite <- R. apply render_same_data, requested_same_data.
Qed.

Lemma navigation_frame (path : string) (sl : Slot) :
  sl <> slot_open_pdf -> keeps_display -> keeps_data -> keeps_call ->
  preserves P (run_slot path sl).
Proof.
  intros Hsl Hd (_ & _ & Hc & Hz) He.
  destruct sl; [contradiction | | | |]; unfold run_slot;
    [unfold prev_page | unfold next_page | unfold zoom_in | unfold zoom_out];
    preserves_auto; auto using show_page_frame.
Qed.

Lemma open_pdf_frame (path : string) :
  keeps_display -> keeps_data -> keeps_dialog -> keeps_call ->
  preserves P (open_pdf path).
Proof.
  intros Hd (H1 & H2 & H3 & H4) Hb He.
  unfold open_pdf, getOpenFileName, add_message_box, call_open.
  preserves_auto; auto using show_page_frame.
Qed.

Lemma run_slot_frame (path : string) (sl : Slot) :
  keeps_display -> keeps_data -> keeps_dialog -> keeps_call ->
  preserves P (run_slot path sl).
Proof.
  intros Hd Ha Hb He. destruct sl;
    [apply open_pdf_frame; assumption | | | |];
    apply navigation_frame; (assumption || discriminate).
Qed.

End Frame.

(** A property that reads attributes no assignment of the group writes. *)
Ltac frame_exact :=
  unfold keeps_display, keeps_data, keeps_dialog, keeps_call; repeat split; intros;
  match goal with
  | H : _ |- _ => exact H
  end.

(** ** What [__init__] builds *)

Section Init.
Context {F : Fitz}.

(** The attributes of the object [PDFViewer()] returns: the title and the
    size, the five buttons with their texts, the toolbar with the buttons
    in the order of the loop, then the stretch and the indicator, the
    scroll area around the image label, the four data attributes, and the
    nine connections in the order of the source. *)
Lemma init_attributes :
  init = {|
    window_title := "Python PDF Viewer";
    window_size := (900, 700);
    buttons := map (fun b => (b, button_text b)) toolbar_buttons;
    layout := [ItemTopbar; ItemWidget ScrollWidget];
    topbar := map (fun b => ItemWidget (ButtonWidget b)) toolbar_buttons ++
              [ItemStretch; ItemWidget PageLabelWidget];
    page_label := initial_page_label;
    scroll_widget_resizable := true;
    scroll_widget := Some LabelWidget;
    label_alignment := AlignCenter;
    label := None;
    doc := None;
    page_count := 0;
    current_page := 0;
    zoom := zoom_initial;
    connections := init_connections;
    dialogs := [];
    fitz_calls := []
  |}.
Proof. vm_compute. reflexivity. Qed.

(** [__init__] assigns every attribute, whatever it held: on any widget
    with nothing laid out, connected or shown it leaves the same object. *)
Lemma init_builds (s : PDFViewer) :
  fresh s -> __init__ s = (Ok tt, init).
Proof.
  unfold fresh. destruct s. cbn [buttons layout topbar connections dialogs fitz_calls].
  intros (-> & -> & -> & -> & -> & ->). vm_compute. reflexivity.
Qed.

(** [PDFViewer()]: the body on the widget [super().__init__()] returns. *)
Lemma init_QWidget : __init__ QWidget_init = (Ok tt, init).
Proof. vm_compute. reflexivity. Qed.

(** The tree of widgets: [topbar] is in the layout of the window, and every
    child widget is placed, once. *)
Definition widget_tree_wf (s : PDFViewer) : Prop :=
  In ItemTopbar (layout s) /\ NoDup (placed s) /\ forall w, In w all_widgets -> In w (placed s).

Lemma init_widget_tree : widget_tree_wf init.
Proof.
  split; [left; reflexivity |]. split.
  - repeat constructor; cbn; intuition discriminate.
  - cbn. tauto.
Qed.

(** The tree is read off the attributes no method assigns. *)
Lemma widget_tree_wf_widgets (s1 s2 : PDFViewer) :
  layout s1 = layout s2 -> topbar s1 = topbar s2 -> scroll_widget s1 = scroll_widget s2 ->
  widget_tree_wf s1 -> widget_tree_wf s2.
Proof. unfold widget_tree_wf, placed. intros -> -> ->. exact (fun H => H). Qed.

End Init.

(** ** The widgets and the dialogs *)

Section Widgets.
Context {F : Fitz}.

(** What [__init__] builds and no method assigns: the window, the toolbar,
    the scroll area, the alignment and the connections. *)
Definition widgets_of (s : PDFViewer) : Widgets :=
  (window_title s, window_size s, buttons s, layout s, topbar s,
   scroll_widget_resizable s, scroll_widget s, label_alignment s, connections s).

Lemma widgets_frame (w : Widgets) :
  keeps_display (fun s => widgets_of s = w) /\
  keeps_data (fun s => widgets_of s = w) /\
  keeps_dialog (fun s => widgets_of s = w) /\
  keeps_call (fun s => widgets_of s = w).
Proof. frame_exact. Qed.

Lemma dialogs_frame (l : list Dialog) :
  keeps_display (fun s => dialogs s = l) /\
  keeps_data (fun s => dialogs s = l) /\
  keeps_call (fun s => dialogs s = l).
Proof. frame_exact. Qed.

(** Only [open_pdf] shows a dialog. *)
Lemma navigation_dialogs (path : string) (sl : Slot) (s : PDFViewer) :
  sl <> slot_open_pdf -> dialogs (exec (run_slot path sl) s) = dialogs s.
Proof.
  intros Hsl. destruct (dialogs_frame (dialogs s)) as (H1 & H2 & H3).
  apply (navigation_frame _ path sl Hsl H1 H2 H3). reflexivity.
Qed.

Lemma navigation_message_boxes (path : string) (sl : Slot) (s : PDFViewer) :
  sl <> slot_open_pdf ->
  message_boxes (exec (run_slot path sl) s) = message_boxes s.
Proof. intros Hsl. unfold message_boxes. rewrite navigation_dialogs by exact Hsl. reflexivity. Qed.

(** The message [open_pdf] reports, if any: the one of [fitz.open], or the
    one of the first render. *)
Definition open_report (path : string) (s : PDFViewer) : option string :=
  if String.eqb path "" then None
  else
    match fitz_open path with
    | Raise (Exception msg) => Some msg
    | Raise (BaseException _) => None
    | Ok d =>
        match outcome show_page (opened d s) with
        | Raise (Exception msg) => Some msg
        | _ => None
        end
    end.

(** The dialogs one activation of [open_pdf] shows: the file dialog, then
    the error box if there is something to report. *)
Definition open_dialogs (path : string) (s : PDFViewer) : list Dialog :=
  OpenFileName open_file_dialog ::
  match open_report path s with
  | Some msg => [Critical (open_error_box msg)]
  | None => []
  end.

Lemma open_pdf_dialogs (path : string) (s : PDFViewer) :
  dialogs (exec (open_pdf path) s) = dialogs s ++ open_dialogs path s.
Proof.
  unfold open_dialogs, open_report, exec.
  destruct (String.eqb_spec path "") as [-> | Hp]; [reflexivity |].
  destruct (fitz_open path) as [d | [msg | msg]] eqn:Ho.
  - rewrite (open_pdf_fitz_Ok path d s Hp Ho). unfold try_except.
    rewrite <- (show_page_outcome (opened d (opening path s)) (opened d s)) by (repeat split).
    pose proof (show_page_dialogs (opened d (opening path s))) as B. unfold exec, outcome in *.
    destruct (show_page (opened d (opening path s))) as [[[] | [msg | msg]] s']; cbn [fst snd] in *;
      cbn; rewrite B; cbn; rewrite <- ?app_assoc; reflexivity.
  - rewrite (open_pdf_fitz_Exception path msg s Hp Ho). cbn. rewrite <- app_assoc. reflexivity.
  - rewrite (open_pdf_fitz_BaseException path msg s Hp Ho). reflexivity.
Qed.

Lemma open_pdf_message_boxes (path : string) (s : PDFViewer) :
  message_boxes (exec (open_pdf path) s) =
    message_boxes s ++
    match open_report path s with
    | Some msg => [open_error_box msg]
    | None => []
    end.
Proof.
  unfold message_boxes. rewrite open_pdf_dialogs, critical_boxes_app. unfold open_dialogs.
  destruct (open_report path s); reflexivity.
Qed.

(** No slot touches what [__init__] built: the window title and
    size, the toolbar, the scroll area, the alignment of the page and the
    connections are the same after every slot, whether it returned or
    raised. *)
Lemma run_slot_keeps_widgets (path : string) (sl : Slot) (s : PDFViewer) :
  widgets_of (exec (run_slot path sl) s) = widgets_of s.
Proof.
  destruct (widgets_frame (widgets_of s)) as (H1 & H2 & H3 & H4).
  apply (run_slot_frame _ path sl H1 H2 H3 H4). reflexivity.
Qed.

(** The error surface alone: what a slot adds to the error boxes. *)
Lemma run_slot_message_boxes (path : string) (sl : Slot) (s : PDFViewer) :
  message_boxes (exec (run_slot path sl) s) =
    message_boxes s ++
    match sl, open_report path s with
    | slot_open_pdf, Some msg => [mkMessageBox "Error" (open_error_text msg)]
    | _, _ => []
    end.
Proof.
  destruct sl; try (rewrite navigation_message_boxes by discriminate;
                    symmetry; apply app_nil_r).
  cbn [run_slot]. rewrite open_pdf_message_boxes.
  destruct (open_report path s); reflexivity.
Qed.

(** The dialogs a slot shows. *)
Definition slot_dialogs (path : string) (sl : Slot) (s : PDFViewer) : list Dialog :=
  match sl with
  | slot_open_pdf => open_dialogs path s
  | _ => []
  end.

Lemma run_slot_adds_dialogs (path : string) (sl : Slot) (s : PDFViewer) :
  dialogs (exec (run_slot path sl) s) = dialogs s ++ slot_dialogs path sl s.
Proof.
  destruct sl; try (rewrite navigation_dialogs by discriminate; symmetry; apply app_nil_r).
  apply open_pdf_dialogs.
Qed.

(** C19: the dialogs of a slot, in order.  A navigation or zoom slot shows
    none.  [open_pdf] shows the file dialog, captioned Open PDF, in the
    default directory, filtered to PDF files, on every activation; then, if
    [fitz.open] or the first render raised an [Exception], exactly one
    error box, titled Error, whose text is [Failed to open PDF:], a line
    feed and the message; and nothing else. *)
Theorem run_slot_dialogs (path : string) (sl : Slot) (s : PDFViewer) :
  dialogs (exec (run_slot path sl) s) =
    dialogs s ++
    match sl with
    | slot_open_pdf =>
        OpenFileName (mkFileDialog "Open PDF" "" "PDF Files (*.pdf)") ::
        match open_report path s with
        | Some msg => [Critical (mkMessageBox "Error" (open_error_text msg))]
        | None => []
        end
    | _ => []
    end.
Proof. rewrite run_slot_adds_dialogs. destruct sl; reflexivity. Qed.

End Widgets.

(** ** The calls of the engine *)

Section Calls.
Context {F : Fitz}.

Lemma calls_frame (l : list FitzCall) :
  keeps_display (fun s => fitz_calls s = l) /\
  keeps_data (fun s => fitz_calls s = l) /\
  keeps_dialog (fun s => fitz_calls s = l).
Proof. frame_exact. Qed.

(** [show_page] calls the engine when the document is true, and only then. *)
Lemma show_page_calls (s : PDFViewer) :
  fitz_calls (exec show_page s) =
    fitz_calls s ++ if doc_truthy (doc s) then render_calls s else [].
Proof.
  unfold exec. rewrite show_page_spec.
  destruct (doc_truthy (doc s)); [| symmetry; apply app_nil_r].
  destruct (render s); cbn [snd]; [apply shown_display | apply requested_calls].
Qed.

(** A guarded method calls the engine when its guard holds: once for the
    page and, if it loads, once for its image, on the state the assignment
    left. *)
Lemma guarded_calls (g : PDFViewer -> bool) (u : PDFViewer -> PDFViewer) (s : PDFViewer) :
  (g s = true -> doc_truthy (doc (u s)) = true /\ fitz_calls (u s) = fitz_calls s) ->
  fitz_calls (exec (guarded g u) s) = fitz_calls s ++ if g s then render_calls (u s) else [].
Proof.
  intros H. unfold exec. destruct (g s) eqn:G.
  - rewrite (guarded_true g u s G). destruct (H eq_refl) as [T E].
    fold (exec show_page (u s)). rewrite show_page_calls, T, E. reflexivity.
  - rewrite (guarded_false g u s G). symmetry. apply app_nil_r.
Qed.

(** The calls one activation of [open_pdf] makes: none after a cancel;
    otherwise [fitz.open], and the calls of the first render when the
    document opened and is true. *)
Definition open_calls (path : string) (s : PDFViewer) : list FitzCall :=
  if String.eqb path "" then []
  else
    Fitz_open path ::
    match fitz_open path with
    | Ok d => if doc_bool d then render_calls (opened d s) else []
    | Raise _ => []
    end.

Lemma open_pdf_calls (path : string) (s : PDFViewer) :
  fitz_calls (exec (open_pdf path) s) = fitz_calls s ++ open_calls path s.
Proof.
  unfold open_calls, exec.
  destruct (String.eqb_spec path "") as [-> | Hp]; [symmetry; apply app_nil_r |].
  destruct (fitz_open path) as [d | [msg | msg]] eqn:Ho.
  - rewrite (open_pdf_fitz_Ok path d s Hp Ho). unfold try_except.
    pose proof (show_page_calls (opened d (opening path s))) as C. unfold exec in C.
    change (doc_truthy (doc (opened d (opening path s)))) with (doc_bool d) in C.
    change (render_calls (opened d (opening path s))) with (render_calls (opened d s)) in C.
    destruct (show_page (opened d (opening path s))) as [[[] | [msg | msg]] s'];
      cbn [fst snd] in *; cbn in C |- *; rewrite C, <- app_assoc; reflexivity.
  - rewrite (open_pdf_fitz_Exception path msg s Hp Ho). reflexivity.
  - rewrite (open_pdf_fitz_BaseException path msg s Hp Ho). reflexivity.
Qed.

(** The calls a slot makes. *)
Definition slot_calls (path : string) (sl : Slot) (s : PDFViewer) : list FitzCall :=
  match sl with
  | slot_open_pdf => open_calls path s
  | slot_prev_page => if prev_page_guard s then render_calls (prev_page_upd s) else []
  | slot_next_page => if next_page_guard s then render_calls (next_page_upd s) else []
  | slot_zoom_in => if zoom_in_guard s then render_calls (zoom_in_upd s) else []
  | slot_zoom_out => if zoom_out_guard s then render_calls (zoom_out_upd s) else []
  end.

Lemma run_slot_adds_calls (path : string) (sl : Slot) (s : PDFViewer) :
  fitz_calls (exec (run_slot path sl) s) = fitz_calls s ++ slot_calls path sl s.
Proof.
  destruct sl; cbn [run_slot slot_calls]; [apply open_pdf_calls | | | |];
    [ rewrite prev_page_guarded | rewrite next_page_guarded
    | rewrite zoom_in_guarded | rewrite zoom_out_guarded ];
    apply guarded_calls;
    unfold prev_page_guard, next_page_guard, zoom_in_guard, zoom_out_guard;
    intros G; bool_hyps; split; (assumption || reflexivity).
Qed.

(** C20: the calls of PyMuPDF a slot makes, in order.  A navigation or
    zoom method whose test fails makes none: nothing is rendered again.
    When the test holds it assigns the attribute and then asks for the page
    of the new index, and for its image at the new zoom if the page loaded:
    one render for every change, none kept.  [open_pdf] makes no call after
    a cancel; otherwise it calls [fitz.open] and, when the document opened
    and has a page, renders page 0 at zoom 1.0. *)
Theorem run_slot_fitz_calls (path : string) (sl : Slot) (s : PDFViewer) :
  fitz_calls (exec (run_slot path sl) s) =
    fitz_calls s ++
    match sl with
    | slot_open_pdf =>
        if String.eqb path "" then []
        else Fitz_open path ::
             match fitz_open path with
             | Ok d => if doc_bool d then render_calls (opened d s) else []
             | Raise _ => []
             end
    | slot_prev_page =>
        if doc_truthy (doc s) && (0 <? current_page s)
        then render_calls (set_current_page (current_page s - 1) s) else []
    | slot_next_page =>
        if doc_truthy (doc s) && (current_page s <? page_count s - 1)
        then render_calls (set_current_page (current_page s + 1) s) else []
    | slot_zoom_in =>
        if doc_truthy (doc s) then render_calls (set_zoom (zoom_mul (zoom s)) s) else []
    | slot_zoom_out =>
        if doc_truthy (doc s) && zoom_gt_floor (zoom s)
        then render_calls (set_zoom (zoom_div (zoom s)) s) else []
    end.
Proof. rewrite run_slot_adds_calls. destruct sl; reflexivity. Qed.

End Calls.

(** ** The image on screen

    [QImage] does not copy the buffer it is given: it reads
    [bytesPerLine * height] bytes of it when the label is painted.  On an
    engine whose pixmaps have the shape PyMuPDF documents, every image the
    widget shows is one [QImage] can read. *)

Section Image.
Context {F : Fitz} {X : PixmapLaws F}.

Definition label_wf (s : PDFViewer) : Prop :=
  forall img, label s = Some img -> QImage_wf img.

Lemma render_wf (s : PDFViewer) (img : QImage) : render s = Ok img -> QImage_wf img.
Proof.
  unfold render. destruct (doc s) as [d |]; [| discriminate].
  destruct (load_page d (current_page s)) as [p | e]; [| discriminate].
  destruct (get_pixmap p _) as [pix | e] eqn:E; [| discriminate].
  intros [= <-]. apply QImage_of_pixmap_wf, (get_pixmap_wf _ _ _ E).
Qed.

Lemma label_wf_frame :
  keeps_display label_wf /\ keeps_data label_wf /\ keeps_dialog label_wf /\
  keeps_call label_wf.
Proof.
  unfold keeps_display, keeps_data, keeps_dialog, keeps_call.
  repeat match goal with |- _ /\ _ => split end; intros; intros img' E; cbn in E;
    try (injection E as <-); eauto using render_wf.
Qed.

Lemma init_label_wf : label_wf init.
Proof. intros img H. discriminate H. Qed.

Lemma run_slot_label_wf (path : string) (sl : Slot) : preserves label_wf (run_slot path sl).
Proof. destruct label_wf_frame as (H1 & H2 & H3 & H4). apply run_slot_frame; assumption. Qed.

End Image.

(** ** The invariant of the data attributes *)

Section Invariant.
Context {F : Fitz}.

(** The page index is not negative and is below the page count, or is 0
    (the state of [__init__], and of a document with no page). *)
Definition page_in_range (s : PDFViewer) : Prop :=
  0 <= current_page s /\ (current_page s < page_count s \/ current_page s = 0).

(** [page_count] is the page count of the document held, 0 without one. *)
Definition count_cached (s : PDFViewer) : Prop :=
  page_count s = match doc s with
                 | Some d => doc_page_count d
                 | None => 0
                 end.

Definition viewer_inv (s : PDFViewer) : Prop := page_in_range s /\ count_cached s.

#[export] Instance viewer_inv_proper : Proper (same_data ==> iff) viewer_inv.
Proof.
  intros s1 s2 (H1 & H2 & H3 & H4).
  unfold viewer_inv, page_in_range, count_cached. rewrite H1, H2, H3. reflexivity.
Qed.

Lemma init_inv : viewer_inv init.
Proof. unfold viewer_inv, page_in_range, count_cached. cbn. lia. Qed.

(** The four assignments of [open_pdf] establish the invariant from any
    state. *)
Lemma opened_inv (d : Document) (s : PDFViewer) : viewer_inv (opened d s).
Proof. unfold viewer_inv, page_in_range, count_cached. cbn. lia. Qed.

Lemma next_page_upd_inv (s : PDFViewer) :
  viewer_inv s -> next_page_guard s = true -> viewer_inv (next_page_upd s).
Proof.
  unfold viewer_inv, page_in_range, count_cached, next_page_guard.
  intros [[H1 H2] H3] G. bool_hyps. cbn. repeat split; [lia | lia | exact H3].
Qed.

Lemma prev_page_upd_inv (s : PDFViewer) :
  viewer_inv s -> prev_page_guard s = true -> viewer_inv (prev_page_upd s).
Proof.
  unfold viewer_inv, page_in_range, count_cached, prev_page_guard.
  intros [[H1 H2] H3] G. bool_hyps. cbn. repeat split; [lia | lia | exact H3].
Qed.

Lemma zoom_in_upd_inv (s : PDFViewer) :
  viewer_inv s -> zoom_in_guard s = true -> viewer_inv (zoom_in_upd s).
Proof. intros H _. exact H. Qed.

Lemma zoom_out_upd_inv (s : PDFViewer) :
  viewer_inv s -> zoom_out_guard s = true -> viewer_inv (zoom_out_upd s).
Proof. intros H _. exact H. Qed.

Lemma open_pdf_inv (path : string) : preserves viewer_inv (open_pdf path).
Proof.
  intros s Hs. rewrite (open_pdf_same_data path s).
  destruct (fitz_open path) as [d | e]; [| exact Hs].
  destruct (String.eqb path ""); [exact Hs | apply opened_inv].
Qed.

(** Reduce an invariant of a navigation method to its assignment. *)
Ltac by_guarded E H :=
  eapply preserves_meq;
  [ symmetry; apply E | apply guarded_preserves; [exact _ | exact H] ].

(** Whatever slot runs, with whatever answer of the file dialog, on
    whatever engine, and whether it returns or raises, it keeps the
    invariant. *)
Lemma run_slot_inv (path : string) (sl : Slot) :
  preserves viewer_inv (run_slot path sl).
Proof.
  destruct sl; cbn [run_slot].
  - apply open_pdf_inv.
  - by_guarded prev_page_guarded prev_page_upd_inv.
  - by_guarded next_page_guarded next_page_upd_inv.
  - by_guarded zoom_in_guarded zoom_in_upd_inv.
  - by_guarded zoom_out_guarded zoom_out_upd_inv.
Qed.

End Invariant.

(** ** Behaviour of the navigation methods *)

Section Navigation.
Context {F : Fitz}.

(** [next_page] on the last page, or past it, or without a document,
    does nothing at all: it returns, and no attribute and no widget
    changes. *)
Lemma next_page_at_last (s : PDFViewer) :
  page_count s - 1 <= current_page s -> next_page s = (Ok tt, s).
Proof.
  intros H. rewrite (next_page_guarded s). apply guarded_false.
  unfold next_page_guard. apply andb_false_iff. right. apply Z.ltb_ge, H.
Qed.

(** [prev_page] on the first page does nothing at all. *)
Lemma prev_page_at_first (s : PDFViewer) :
  current_page s <= 0 -> prev_page s = (Ok tt, s).
Proof.
  intros H. rewrite (prev_page_guarded s). apply guarded_false.
  unfold prev_page_guard. apply andb_false_iff. right. apply Z.ltb_ge, H.
Qed.

(** Without a document nothing moves.  With no document, or with a
    document that has no page, Prev, Next, Zoom In and Zoom Out return and
    change no attribute and no widget. *)
Lemma navigation_without_doc (path : string) (sl : Slot) (s : PDFViewer) :
  doc_truthy (doc s) = false -> sl <> slot_open_pdf ->
  run_slot path sl s = (Ok tt, s).
Proof.
  intros T Hsl. destruct sl; [contradiction | | | |]; cbn [run_slot].
  - rewrite (prev_page_guarded s). apply guarded_false.
    unfold prev_page_guard. rewrite T. reflexivity.
  - rewrite (next_page_guarded s). apply guarded_false.
    unfold next_page_guard. rewrite T. reflexivity.
  - rewrite (zoom_in_guarded s). apply guarded_false. exact T.
  - rewrite (zoom_out_guarded s). apply guarded_false.
    unfold zoom_out_guard. rewrite T. reflexivity.
Qed.

(** Before the last page of a true document, [next_page] moves to the
    next index and, when the page renders, shows its image and the
    indicator of the new index and returns; when the render raises, the
    exception leaves the method with the index already moved and the
    widgets untouched. *)
Lemma next_page_advances (s : PDFViewer) :
  doc_truthy (doc s) = true -> current_page s < page_count s - 1 ->
  next_page s =
    match render (next_page_upd s) with
    | Ok img => (Ok tt, shown img (next_page_upd s))
    | Raise e => (Raise e, requested (next_page_upd s))
    end.
Proof.
  intros T H. rewrite (next_page_guarded s), guarded_true.
  - destruct (render (next_page_upd s)) as [img | e] eqn:R.
    + apply show_page_rendered; [exact T | exact R].
    + apply show_page_raises; [exact T | exact R].
  - unfold next_page_guard. rewrite T. apply Z.ltb_lt, H.
Qed.

(** After the first page of a true document, [prev_page] decrements
    [current_page] and then shows the page; if the render raises, the
    exception leaves the slot with the index already decremented and the
    display as it was. *)
Lemma prev_page_retreats (s : PDFViewer) :
  doc_truthy (doc s) = true -> 0 < current_page s ->
  prev_page s =
    match render (prev_page_upd s) with
    | Ok img => (Ok tt, shown img (prev_page_upd s))
    | Raise e => (Raise e, requested (prev_page_upd s))
    end.
Proof.
  intros T H. rewrite (prev_page_guarded s), guarded_true.
  - destruct (render (prev_page_upd s)) as [img | e] eqn:R.
    + apply show_page_rendered; [exact T | exact R].
    + apply show_page_raises; [exact T | exact R].
  - unfold prev_page_guard. rewrite T. apply Z.ltb_lt, H.
Qed.

(** Going to the next page and back restores the four data
    attributes, whether or not the renders succeeded in between (when the
    first one raises, the second call is the user's next key press). *)
Lemma next_then_prev_same_data (s : PDFViewer) :
  viewer_inv s -> next_page_guard s = true ->
  same_data (exec prev_page (exec next_page s)) s.
Proof.
  intros [[H1 H2] H3] G. rewrite prev_page_guarded, next_page_guarded.
  pose proof (guarded_same_data_true next_page_guard next_page_upd s G) as E.
  unfold next_page_guard in G. bool_hyps.
  rewrite guarded_same_data_true; rewrite E.
  - unfold same_data, prev_page_upd, next_page_upd. cbn. repeat split. lia.
  - unfold prev_page_guard, next_page_upd. cbn.
    apply andb_true_iff. split; [assumption | apply Z.ltb_lt; lia].
Qed.

(** C18: the four navigation and zoom methods, on every branch.  Each
    tests the document (and the page index or the zoom), and when the test
    fails returns and changes nothing at all.  When it holds the method
    assigns the attribute first and renders second: if the page renders,
    the image and the indicator are those of the new state; if the engine
    raises, the exception leaves the slot with the attribute already
    assigned and the display as it was. *)
Theorem navigation_spec (s : PDFViewer) :
  next_page s =
    (if doc_truthy (doc s) && (current_page s <? page_count s - 1)
     then rendered (set_current_page (current_page s + 1) s) else (Ok tt, s)) /\
  prev_page s =
    (if doc_truthy (doc s) && (0 <? current_page s)
     then rendered (set_current_page (current_page s - 1) s) else (Ok tt, s)) /\
  zoom_in s =
    (if doc_truthy (doc s)
     then rendered (set_zoom (zoom_mul (zoom s)) s) else (Ok tt, s)) /\
  zoom_out s =
    (if doc_truthy (doc s) && zoom_gt_floor (zoom s)
     then rendered (set_zoom (zoom_div (zoom s)) s) else (Ok tt, s)).
Proof.
  repeat split;
    [ rewrite (next_page_guarded s); apply (guarded_rendered next_page_guard next_page_upd)
    | rewrite (prev_page_guarded s); apply (guarded_rendered prev_page_guard prev_page_upd)
    | rewrite (zoom_in_guarded s); apply (guarded_rendered zoom_in_guard zoom_in_upd)
    | rewrite (zoom_out_guarded s); apply (guarded_rendered zoom_out_guard zoom_out_upd) ];
    unfold next_page_guard, prev_page_guard, zoom_in_guard, zoom_out_guard;
    intros G; bool_hyps; assumption.
Qed.

End Navigation.

(** ** Behaviour of [open_pdf] *)

Section OpenBehaviour.
Context {F : Fitz}.

#[export] Instance render_proper : Proper (same_data ==> eq) render.
Proof. exact render_same_data. Qed.

#[export] Instance doc_proper : Proper (same_data ==> eq) doc.
Proof. intros s1 s2 (H1 & _). exact H1. Qed.

(** C2: opening a document that opens and renders replaces the document,
    caches its page count, resets the page index to 0 and the zoom to 1.0
    whatever they were, shows the first page and the indicator of page 1,
    shows the file dialog and no other, and returns. *)
Theorem open_pdf_success (path : string) (d : Document) (img : QImage) (s : PDFViewer) :
  path <> ""%string -> fitz_open path = Ok d -> doc_bool d = true ->
  render (opened d s) = Ok img ->
  open_pdf path s = (Ok tt, shown img (opened d (opening path s))) /\
  doc (shown img (opened d (opening path s))) = Some d /\
  page_count (shown img (opened d (opening path s))) = doc_page_count d /\
  current_page (shown img (opened d (opening path s))) = 0 /\
  zoom (shown img (opened d (opening path s))) = zoom_initial /\
  label (shown img (opened d (opening path s))) = Some img /\
  page_label (shown img (opened d (opening path s))) = page_label_text 0 (doc_page_count d) /\
  dialogs (shown img (opened d (opening path s))) = dialogs s ++ [OpenFileName open_file_dialog] /\
  fitz_calls (shown img (opened d (opening path s))) =
    fitz_calls s ++ Fitz_open path :: render_calls (opened d s).
Proof.
  intros Hp Ho T R. split.
  { rewrite (open_pdf_fitz_Ok path d s Hp Ho). unfold try_except.
    rewrite (show_page_rendered (opened d (opening path s)) img T R). reflexivity. }
  destruct (shown_same_data img (opened d (opening path s))) as (-> & -> & -> & ->).
  destruct (shown_display img (opened d (opening path s))) as (-> & -> & -> & ->).
  repeat split. cbn [fitz_calls opened opening set_zoom set_current_page set_page_count
                       set_doc add_fitz_call asked add_dialog].
  rewrite <- app_assoc. reflexivity.
Qed.

(** C3: when [fitz.open] raises an [Exception], [open_pdf] returns, no
    attribute and no display widget changes, and after the file dialog
    exactly one error box is shown, titled "Error", whose text is "Failed to open PDF:", a line feed
    and the exception's message. *)
Theorem open_pdf_failure (path msg : string) (s : PDFViewer) :
  path <> ""%string -> fitz_open path = Raise (Exception msg) ->
  outcome (open_pdf path) s = Ok tt /\
  same_data (exec (open_pdf path) s) s /\
  label (exec (open_pdf path) s) = label s /\
  page_label (exec (open_pdf path) s) = page_label s /\
  dialogs (exec (open_pdf path) s) =
    dialogs s ++ [OpenFileName open_file_dialog;
                  Critical (mkMessageBox "Error" (open_error_text msg))] /\
  fitz_calls (exec (open_pdf path) s) = fitz_calls s ++ [Fitz_open path].
Proof.
  intros Hp Ho. unfold outcome, exec.
  rewrite (open_pdf_fitz_Exception path msg s Hp Ho). cbn.
  repeat split. rewrite <- app_assoc. reflexivity.
Qed.

(** C4: when the document opens but its first page does not render, the
    exception is caught and reported like a failure to open, yet the four
    attributes are already those of the new document while the image and
    the indicator are still those of the old one. *)
Theorem open_pdf_render_failure (path msg : string) (d : Document) (s : PDFViewer) :
  path <> ""%string -> fitz_open path = Ok d -> doc_bool d = true ->
  render (opened d s) = Raise (Exception msg) ->
  open_pdf path s =
    (Ok tt, add_message_box (open_error_box msg) (requested (opened d (opening path s)))) /\
  doc (exec (open_pdf path) s) = Some d /\
  page_count (exec (open_pdf path) s) = doc_page_count d /\
  current_page (exec (open_pdf path) s) = 0 /\
  zoom (exec (open_pdf path) s) = zoom_initial /\
  label (exec (open_pdf path) s) = label s /\
  page_label (exec (open_pdf path) s) = page_label s /\
  fitz_calls (exec (open_pdf path) s) =
    fitz_calls s ++ Fitz_open path :: render_calls (opened d s).
Proof.
  intros Hp Ho T R.
  assert (E : open_pdf path s =
              (Ok tt, add_message_box (open_error_box msg)
                        (requested (opened d (opening path s))))).
  { rewrite (open_pdf_fitz_Ok path d s Hp Ho). unfold try_except.
    rewrite (show_page_raises (opened d (opening path s)) _ T R). reflexivity. }
  unfold exec. rewrite E. cbn [snd].
  destruct (requested_same_data (opened d (opening path s))) as (H1 & H2 & H3 & H4).
  destruct (requested_display (opened d (opening path s))) as (H5 & H6 & _).
  pose proof (requested_calls (opened d (opening path s))) as H7.
  cbn [add_message_box add_dialog doc page_count current_page zoom label page_label
         fitz_calls].
  rewrite H1, H2, H3, H4, H5, H6, H7. repeat split.
  cbn. rewrite <- app_assoc. reflexivity.
Qed.

(** C39: A document with no page is false: [show_page] does nothing, and the
    image and the indicator of the previous document stay on screen. *)
Theorem open_pdf_no_page (path : string) (d : Document) (s : PDFViewer) :
  path <> ""%string -> fitz_open path = Ok d -> doc_bool d = false ->
  open_pdf path s = (Ok tt, opened d (opening path s)) /\
  label (opened d (opening path s)) = label s /\ page_label (opened d (opening path s)) = page_label s /\
  dialogs (opened d (opening path s)) = dialogs s ++ [OpenFileName open_file_dialog] /\
  fitz_calls (opened d (opening path s)) = fitz_calls s ++ [Fitz_open path].
Proof.
  intros Hp Ho T. split; [| repeat split].
  rewrite (open_pdf_fitz_Ok path d s Hp Ho). unfold try_except.
  rewrite (show_page_falsy (opened d (opening path s)) T). reflexivity.
Qed.

(** What leaves [open_pdf] as an exception is not an [Exception]: only
    what [except Exception] does not catch. *)
Lemma open_pdf_raises (path : string) (s : PDFViewer) (e : exn) :
  outcome (open_pdf path) s = Raise e -> is_Exception e = false.
Proof.
  unfold outcome. rewrite open_pdf_asked. destruct (String.eqb path ""); [discriminate |].
  apply try_except_outcome. reflexivity.
Qed.

(** No [Exception] leaves [open_pdf], whatever the path, the state
    and the engine: a failure of [fitz.open], of [load_page] or of
    [get_pixmap] ends in the dialog, never in the caller. *)
Lemma open_pdf_catches (path : string) (s : PDFViewer) :
  raises_Exception (outcome (open_pdf path) s) = false.
Proof.
  destruct (outcome (open_pdf path) s) as [[] | e] eqn:E; [reflexivity |].
  apply open_pdf_raises in E. destruct e; [discriminate E | reflexivity].
Qed.

End OpenBehaviour.

(** ** The data attributes after a slot *)

Section DataStep.
Context {F : Fitz}.

(** The state a slot leaves, up to the display: the assignment of the
    method when its guard holds, and for [open_pdf] the four assignments
    when [fitz.open] returned. *)
Definition data_step (path : string) (sl : Slot) (s : PDFViewer) : PDFViewer :=
  match sl with
  | slot_open_pdf =>
      match fitz_open path with
      | Ok d => if String.eqb path "" then s else opened d s
      | Raise _ => s
      end
  | slot_prev_page => if prev_page_guard s then prev_page_upd s else s
  | slot_next_page => if next_page_guard s then next_page_upd s else s
  | slot_zoom_in => if zoom_in_guard s then zoom_in_upd s else s
  | slot_zoom_out => if zoom_out_guard s then zoom_out_upd s else s
  end.

Lemma run_slot_same_data (path : string) (sl : Slot) (s : PDFViewer) :
  same_data (exec (run_slot path sl) s) (data_step path sl s).
Proof.
  destruct sl; cbn [run_slot data_step].
  - apply open_pdf_same_data.
  - rewrite prev_page_guarded. apply guarded_same_data.
  - rewrite next_page_guarded. apply guarded_same_data.
  - rewrite zoom_in_guarded. apply guarded_same_data.
  - rewrite zoom_out_guarded. apply guarded_same_data.
Qed.

(** The navigation methods keep the document. *)
Lemma navigation_doc (path : string) (sl : Slot) (s : PDFViewer) :
  sl <> slot_open_pdf -> doc (exec (run_slot path sl) s) = doc s.
Proof.
  intros Hsl. rewrite (run_slot_same_data path sl s).
  destruct sl; [contradiction | | | |]; cbn [data_step];
    match goal with |- context [if ?g then _ else _] => destruct g end; reflexivity.
Qed.

(** ** When a slot returns

    [show_page] is the only call of a method that may raise out of it, and
    what it renders is determined by the data attributes: a slot returns
    when the render of the state it leaves does. *)

Lemma show_page_returns_if (s : PDFViewer) :
  (doc_truthy (doc s) = true -> is_ok (render s) = true) -> outcome show_page s = Ok tt.
Proof.
  intros H. unfold outcome. rewrite show_page_spec.
  destruct (doc_truthy (doc s)); [| reflexivity].
  specialize (H eq_refl). destruct (render s); [reflexivity | discriminate].
Qed.

Lemma guarded_returns_if (g : PDFViewer -> bool) (u : PDFViewer -> PDFViewer) (s : PDFViewer) :
  (g s = true -> doc_truthy (doc (u s)) = true -> is_ok (render (u s)) = true) ->
  outcome (guarded g u) s = Ok tt.
Proof.
  intros H. unfold outcome. destruct (g s) eqn:G.
  - rewrite (guarded_true g u s G). apply show_page_returns_if, H. reflexivity.
  - rewrite (guarded_false g u s G). reflexivity.
Qed.

Lemma open_pdf_returns_if (path : string) (s : PDFViewer) :
  raises_base (fitz_open path) = false ->
  (forall d, path <> ""%string -> fitz_open path = Ok d -> doc_bool d = true ->
             is_ok (render (opened d s)) = true) ->
  outcome (open_pdf path) s = Ok tt.
Proof.
  intros Hb H. unfold outcome. destruct (String.eqb_spec path "") as [-> | Hp].
  { reflexivity. }
  destruct (fitz_open path) as [d | [msg | msg]] eqn:Ho; [| | discriminate].
  - rewrite (open_pdf_fitz_Ok path d s Hp Ho). unfold try_except.
    assert (R : outcome show_page (opened d (opening path s)) = Ok tt).
    { apply show_page_returns_if. intros T.
      rewrite (render_same_data _ (opened d s)) by repeat split. apply (H d Hp eq_refl T). }
    unfold outcome in R. destruct (show_page (opened d (opening path s))) as [r s']. cbn in R.
    rewrite R. reflexivity.
  - rewrite (open_pdf_fitz_Exception path msg s Hp Ho). reflexivity.
Qed.

Lemma run_slot_returns_if (path : string) (sl : Slot) (s : PDFViewer) :
  raises_base (fitz_open path) = false ->
  (doc_truthy (doc (data_step path sl s)) = true ->
   is_ok (render (data_step path sl s)) = true) ->
  outcome (run_slot path sl) s = Ok tt.
Proof.
  intros Hb H. destruct sl; cbn [run_slot data_step] in *.
  - apply open_pdf_returns_if; [exact Hb |]. intros d Hp Ho T.
    apply String.eqb_neq in Hp. rewrite Ho, Hp in H. apply H, T.
  - rewrite prev_page_guarded. apply guarded_returns_if. intros G. rewrite G in H. exact H.
  - rewrite next_page_guarded. apply guarded_returns_if. intros G. rewrite G in H. exact H.
  - rewrite zoom_in_guarded. apply guarded_returns_if. intros G. rewrite G in H. exact H.
  - rewrite zoom_out_guarded. apply guarded_returns_if. intros G. rewrite G in H. exact H.
Qed.

End DataStep.

(** ** Paging through the document *)

Section Paging.
Context {F : Fitz}.

(** The index after [next_page] and after [prev_page], whether the render
    raised or not. *)
Lemma next_page_data (s : PDFViewer) :
  same_data (exec next_page s) (if next_page_guard s then next_page_upd s else s).
Proof. apply (run_slot_same_data "" slot_next_page). Qed.

Lemma prev_page_data (s : PDFViewer) :
  same_data (exec prev_page s) (if prev_page_guard s then prev_page_upd s else s).
Proof. apply (run_slot_same_data "" slot_prev_page). Qed.

(** [n] presses of Next: the index moves [n] pages on and stops at the
    last; the document and the page count stay. *)
Lemma next_page_iter (n : nat) (s : PDFViewer) :
  doc_truthy (doc s) = true ->
  doc (Nat.iter n (exec next_page) s) = doc s /\
  page_count (Nat.iter n (exec next_page) s) = page_count s /\
  current_page (Nat.iter n (exec next_page) s) =
    Z.max (current_page s) (Z.min (current_page s + Z.of_nat n) (page_count s - 1)).
Proof.
  intros T. induction n as [| n (IHd & IHc & IHp)]; [cbn; repeat split; lia |].
  rewrite Nat.iter_succ.
  destruct (next_page_data (Nat.iter n (exec next_page) s)) as (Hd & Hc & Hp & _).
  rewrite Hd, Hc, Hp. unfold next_page_guard. rewrite IHd, T, IHc, IHp. cbn [andb].
  destruct (Z.ltb_spec (Z.max (current_page s)
                          (Z.min (current_page s + Z.of_nat n) (page_count s - 1)))
              (page_count s - 1)); cbn; rewrite ?IHd, ?IHc, ?IHp; repeat split; lia.
Qed.

(** [n] presses of Prev: the index moves [n] pages back and stops at the
    first. *)
Lemma prev_page_iter (n : nat) (s : PDFViewer) :
  doc_truthy (doc s) = true ->
  doc (Nat.iter n (exec prev_page) s) = doc s /\
  page_count (Nat.iter n (exec prev_page) s) = page_count s /\
  current_page (Nat.iter n (exec prev_page) s) =
    Z.min (current_page s) (Z.max (current_page s - Z.of_nat n) 0).
Proof.
  intros T. induction n as [| n (IHd & IHc & IHp)]; [cbn; repeat split; lia |].
  rewrite Nat.iter_succ.
  destruct (prev_page_data (Nat.iter n (exec prev_page) s)) as (Hd & Hc & Hp & _).
  rewrite Hd, Hc, Hp. unfold prev_page_guard. rewrite IHd, T, IHp. cbn [andb].
  destruct (Z.ltb_spec 0 (Z.min (current_page s) (Z.max (current_page s - Z.of_nat n) 0)));
    cbn; rewrite ?IHd, ?IHc, ?IHp; repeat split; lia.
Qed.

(** Every page can be reached.  From a state of the invariant with a
    true document, pressing Prev as many times as the index says and then
    Next [t] times leaves the index at [t], for every page [t] of the
    document, whether or not the renders on the way raised. *)
Lemma every_page_reachable (s : PDFViewer) (t : Z) :
  viewer_inv s -> doc_truthy (doc s) = true -> 0 <= t < page_count s ->
  current_page
    (Nat.iter (Z.to_nat t) (exec next_page)
       (Nat.iter (Z.to_nat (current_page s)) (exec prev_page) s)) = t.
Proof.
  intros [[H1 H2] _] T Ht.
  destruct (prev_page_iter (Z.to_nat (current_page s)) s T) as (Pd & Pc & Pp).
  destruct (next_page_iter (Z.to_nat t)
              (Nat.iter (Z.to_nat (current_page s)) (exec prev_page) s)) as (_ & _ & Np).
  { rewrite Pd. exact T. }
  rewrite Np, Pc, Pp. lia.
Qed.

End Paging.

(** ** The zoom under the methods *)

Section ZoomBehaviour.
Context {F : Fitz}.

Lemma zoom_in_zoom (s : PDFViewer) :
  zoom (exec zoom_in s) = if doc_truthy (doc s) then zoom_mul (zoom s) else zoom s.
Proof.
  destruct (run_slot_same_data "" slot_zoom_in s) as (_ & _ & _ & E).
  cbn [run_slot data_step] in E. rewrite E. unfold zoom_in_guard.
  destruct (doc_truthy (doc s)); reflexivity.
Qed.

Lemma zoom_out_zoom (s : PDFViewer) :
  zoom (exec zoom_out s) =
    if doc_truthy (doc s) && zoom_gt_floor (zoom s) then zoom_div (zoom s) else zoom s.
Proof.
  destruct (run_slot_same_data "" slot_zoom_out s) as (_ & _ & _ & E).
  cbn [run_slot data_step] in E. rewrite E. unfold zoom_out_guard.
  destruct (doc_truthy (doc s) && zoom_gt_floor (zoom s)); reflexivity.
Qed.

Lemma zoom_in_doc (s : PDFViewer) : doc (exec zoom_in s) = doc s.
Proof. apply (navigation_doc "" slot_zoom_in). discriminate. Qed.

Lemma zoom_out_doc (s : PDFViewer) : doc (exec zoom_out s) = doc s.
Proof. apply (navigation_doc "" slot_zoom_out). discriminate. Qed.

(** The level after [zoom_out] from level [k]. *)
Definition level_down (k : Z) : Z := if -3 <=? k then k - 1 else k.

Lemma zoom_out_level (s : PDFViewer) (k : Z) :
  doc_truthy (doc s) = true -> zoom s = zoom_at k -> -4 <= k <= 24 ->
  zoom (exec zoom_out s) = zoom_at (level_down k).
Proof.
  intros T E H. rewrite zoom_out_zoom, T, E, (zoom_gt_floor_level k H).
  unfold level_down. cbn. destruct (Z.leb_spec (-3) k); [| reflexivity].
  apply zoom_div_level. lia.
Qed.

(** [n] zoom-outs in a row from level [k] end at level [max (-4) (k - n)]. *)
Lemma zoom_out_iter (n : nat) (s : PDFViewer) (k : Z) :
  doc_truthy (doc s) = true -> zoom s = zoom_at k -> -4 <= k <= 24 ->
  doc (Nat.iter n (exec zoom_out) s) = doc s /\
  zoom (Nat.iter n (exec zoom_out) s) = zoom_at (Z.max (-4) (k - Z.of_nat n)).
Proof.
  intros T E H. induction n as [| n [IHd IHz]].
  - cbn. split; [reflexivity |]. rewrite E. f_equal. lia.
  - rewrite Nat.iter_succ. split.
    + rewrite zoom_out_doc. exact IHd.
    + rewrite (zoom_out_level _ (Z.max (-4) (k - Z.of_nat n))); [| congruence | exact IHz | lia].
      f_equal. unfold level_down.
      destruct (Z.leb_spec (-3) (Z.max (-4) (k - Z.of_nat n))); lia.
Qed.

(** C12: on a true document whose zoom is at a level of the window,
    enough zoom-outs in a row bring the zoom to level -4, which is the
    binary64 number Python prints as 0.4096 and is below the floor 0.5 that
    the guard compares with: the guard tests the zoom before the division,
    not after. *)
Theorem zoom_out_settles_below_floor (n : nat) (s : PDFViewer) (k : Z) :
  doc_truthy (doc s) = true -> zoom s = zoom_at k -> -4 <= k <= 24 ->
  k + 4 <= Z.of_nat n ->
  zoom (Nat.iter n (exec zoom_out) s) = zoom_at (-4) /\
  (zoom_at (-4) <? zoom_floor)%float = true /\
  zoom_at (-4) = 0x1.a36e2eb1c432dp-2%float.
Proof.
  intros T E H Hn. split; [| split; reflexivity].
  destruct (zoom_out_iter n s k T E H) as [_ ->]. f_equal. lia.
Qed.

(** [zoom_out] with the zoom at or below 0.5 (or not a number) does
    nothing at all. *)
Lemma zoom_out_at_floor (s : PDFViewer) :
  zoom_gt_floor (zoom s) = false -> zoom_out s = (Ok tt, s).
Proof.
  intros H. rewrite (zoom_out_guarded s). apply guarded_false.
  unfold zoom_out_guard. rewrite H. apply andb_false_r.
Qed.

(** Below level 24, zooming in and then out restores the four data
    attributes exactly: the binary64 product and quotient by 1.25 are
    inverse there. *)
Lemma zoom_in_then_out_same_data (s : PDFViewer) (k : Z) :
  doc_truthy (doc s) = true -> zoom s = zoom_at k -> -4 <= k < 24 ->
  same_data (exec zoom_out (exec zoom_in s)) s.
Proof.
  intros T E H. rewrite zoom_out_guarded, zoom_in_guarded.
  pose proof (guarded_same_data_true zoom_in_guard zoom_in_upd s T) as E1.
  rewrite guarded_same_data_true; rewrite E1.
  - unfold same_data, zoom_out_upd, zoom_in_upd.
    cbn [doc page_count current_page zoom set_zoom]. repeat split.
    rewrite E, (zoom_mul_level k H). replace k with (k + 1 - 1) at 2 by lia.
    apply zoom_div_level. lia.
  - unfold zoom_out_guard, zoom_in_upd. cbn [doc zoom set_zoom].
    rewrite T, E, (zoom_mul_level k H).
    rewrite zoom_gt_floor_level by lia. apply Z.leb_le. lia.
Qed.

(** From level 24 the same two steps do not restore the zoom. *)
Lemma zoom_in_then_out_drifts (s : PDFViewer) :
  doc_truthy (doc s) = true -> zoom s = zoom_at 24 ->
  zoom_eqb (zoom (exec zoom_out (exec zoom_in s))) (zoom s) = false.
Proof.
  intros T E. rewrite zoom_out_zoom, zoom_in_zoom.
  rewrite zoom_in_doc, T, E. reflexivity.
Qed.

(** C38: zooming in and then out, from a zoom of the window.  On levels
    -4 .. 23 the four data attributes come back exactly, renders that
    failed in between or not: the binary64 product and quotient by 1.25
    are inverse there.  At level 24 they are not, and the zoom that comes
    back is another number. *)
Theorem zoom_in_then_out (s : PDFViewer) (k : Z) :
  doc_truthy (doc s) = true -> zoom s = zoom_at k -> -4 <= k <= 24 ->
  if k <? 24 then same_data (exec zoom_out (exec zoom_in s)) s
  else zoom_eqb (zoom (exec zoom_out (exec zoom_in s))) (zoom s) = false.
Proof.
  intros T E H. destruct (k <? 24) eqn:K; bool_hyps.
  - apply (zoom_in_then_out_same_data s k T E). lia.
  - apply zoom_in_then_out_drifts; [exact T | rewrite E; f_equal; lia].
Qed.

(** ** Runs of zoom-ins and zoom-outs *)

(** [n] zoom-ins in a row from a level at or above 1.0. *)
Lemma zoom_in_iter (n : nat) (s : PDFViewer) (k : Z) :
  doc_truthy (doc s) = true -> zoom s = zoom_at k -> 0 <= k ->
  doc (Nat.iter n (exec zoom_in) s) = doc s /\
  zoom (Nat.iter n (exec zoom_in) s) = zoom_at (k + Z.of_nat n).
Proof.
  intros T E H. induction n as [| n [IHd IHz]].
  - cbn. split; [reflexivity |]. rewrite E. f_equal. lia.
  - rewrite Nat.iter_succ, zoom_in_doc, zoom_in_zoom, IHd, T, IHz.
    split; [reflexivity |]. rewrite <- zoom_at_succ by lia. f_equal. lia.
Qed.

(** A refused zoom-out stays refused. *)
Lemma zoom_out_refused_iter (n : nat) (s : PDFViewer) :
  zoom_gt_floor (zoom s) = false -> zoom (Nat.iter n (exec zoom_out) s) = zoom s.
Proof.
  intros G. induction n as [| n IH]; [reflexivity |].
  rewrite Nat.iter_succ, zoom_out_zoom, IH, G, andb_false_r. reflexivity.
Qed.

(** Zoom-outs in a row follow [settle]. *)
Lemma zoom_out_iter_settle (n : nat) (s : PDFViewer) (z : float) :
  doc_truthy (doc s) = true -> settle n (zoom s) = Some z ->
  zoom (Nat.iter n (exec zoom_out) s) = z /\ zoom_gt_floor z = false.
Proof.
  revert s. induction n as [| n IH]; intros s T S; cbn [settle] in S;
    destruct (zoom_gt_floor (zoom s)) eqn:G; try discriminate;
    try (injection S as <-; split; [apply zoom_out_refused_iter, G | exact G]).
  rewrite Nat.iter_succ_r. apply IH.
  - rewrite zoom_out_doc. exact T.
  - rewrite zoom_out_zoom, T, G. exact S.
Qed.

(** The state after [k] zoom-ins and then [k + 4] zoom-outs. *)
Definition zoomed_in_and_out (k : Z) (s : PDFViewer) : PDFViewer :=
  Nat.iter (Z.to_nat (k + 4)) (exec zoom_out) (Nat.iter (Z.to_nat k) (exec zoom_in) s).

(** C32: the zoom overflows.  On a true document at zoom 1.0, 3181 or more
    presses of Zoom In leave the zoom infinite, whether or not the renders
    on the way raised, and Zoom Out no longer lowers it. *)
Theorem zoom_in_overflows (s : PDFViewer) (n : nat) :
  doc_truthy (doc s) = true -> zoom s = zoom_initial -> (3181 <= n)%nat ->
  zoom (Nat.iter n (exec zoom_in) s) = infinity /\
  zoom (exec zoom_out (Nat.iter n (exec zoom_in) s)) = infinity.
Proof.
  intros T E H. destruct (zoom_in_iter n s 0 T E) as [Hd Hz]; [lia |].
  rewrite zoom_out_zoom, Hd, T, Hz, zoom_at_infinite by lia.
  split; reflexivity.
Qed.

(** Below the overflow the zoom can always be brought back.  On a
    true document at zoom 1.0, after [k] presses of Zoom In, for every [k]
    up to 3180, [k + 4] presses of Zoom Out leave the zoom between 0.4 and
    0.5, and one more is refused. *)
Lemma zoom_out_recovers (s : PDFViewer) (k : Z) :
  doc_truthy (doc s) = true -> zoom s = zoom_initial -> 0 <= k <= 3180 ->
  (0x1.999999999999ap-2 <=? zoom (zoomed_in_and_out k s))%float = true /\
  (zoom (zoomed_in_and_out k s) <=? zoom_floor)%float = true /\
  zoom (exec zoom_out (zoomed_in_and_out k s)) = zoom (zoomed_in_and_out k s).
Proof.
  intros T E H. destruct (zoom_in_iter (Z.to_nat k) s 0 T E) as [Hd Hz]; [lia |].
  pose proof (settles_in_band_upto_3180 k H) as S. unfold settles_in_band in S.
  destruct (settle (Z.to_nat (k + 4)) (zoom_at k)) as [z |] eqn:Sz; [| discriminate].
  destruct (zoom_out_iter_settle (Z.to_nat (k + 4)) (Nat.iter (Z.to_nat k) (exec zoom_in) s) z)
    as [Hs Hg].
  { rewrite Hd. exact T. }
  { rewrite Hz. replace (0 + Z.of_nat (Z.to_nat k)) with k by lia. exact Sz. }
  unfold zoomed_in_and_out. apply andb_true_iff in S.
  rewrite zoom_out_zoom, Hs, Hg, andb_false_r. repeat split; apply S.
Qed.

(** ** The zoom on every path *)

(** Every slot keeps the zoom above the least value: [open_pdf] resets it
    to 1.0, the zoom methods multiply and divide it, the others leave it. *)
Lemma run_slot_zoom_above_min (path : string) (sl : Slot) :
  preserves (fun s => zoom_above_min (zoom s) = true) (run_slot path sl).
Proof.
  intros s H. destruct (run_slot_same_data path sl s) as (_ & _ & _ & ->).
  destruct sl; cbn [data_step];
    repeat match goal with |- context [match ?g with _ => _ end] => destruct g eqn:? end;
    try exact H; [reflexivity | apply zoom_mul_above_min, H | apply zoom_div_above_min].
  unfold zoom_out_guard in *. bool_hyps. assumption.
Qed.

(** Zoom-ins in a row multiply the zoom. *)
Lemma zoom_in_iter_mul (n : nat) (s : PDFViewer) :
  doc_truthy (doc s) = true ->
  doc (Nat.iter n (exec zoom_in) s) = doc s /\
  zoom (Nat.iter n (exec zoom_in) s) = Nat.iter n zoom_mul (zoom s).
Proof.
  intros T. induction n as [| n [IHd IHz]]; [split; reflexivity |].
  rewrite !Nat.iter_succ, zoom_in_doc, zoom_in_zoom, IHd, T, IHz. split; reflexivity.
Qed.

(** From any zoom above the least value, 4102 zoom-ins in a row make the
    zoom infinite. *)
Lemma zoom_in_overflows_eventually (s : PDFViewer) :
  doc_truthy (doc s) = true -> zoom_above_min (zoom s) = true ->
  zoom (Nat.iter zoom_ins_to_overflow (exec zoom_in) s) = infinity.
Proof.
  intros T Ha. destruct (zoom_in_iter_mul zoom_ins_to_overflow s T) as [_ ->].
  apply zoom_mul_overflows, Ha.
Qed.

(** From any finite zoom above the least value, 4101 zoom-outs in a row
    bring the widget to rest: the guard refuses, and the zoom is above the
    least value. *)
Lemma zoom_out_settles (s : PDFViewer) :
  doc_truthy (doc s) = true -> zoom_above_min (zoom s) = true ->
  (zoom s <? infinity)%float = true ->
  zoom_above_min (zoom (Nat.iter zoom_outs_to_rest (exec zoom_out) s)) = true /\
  zoom_gt_floor (zoom (Nat.iter zoom_outs_to_rest (exec zoom_out) s)) = false /\
  zoom (exec zoom_out (Nat.iter zoom_outs_to_rest (exec zoom_out) s)) =
    zoom (Nat.iter zoom_outs_to_rest (exec zoom_out) s).
Proof.
  intros T Ha Hf. destruct (settle_terminates (zoom s) Ha Hf) as (z & Hs & Hz & Hg).
  destruct (zoom_out_iter_settle _ s z T Hs) as [E _].
  rewrite zoom_out_zoom, E, Hg, andb_false_r. repeat split; assumption.
Qed.

End ZoomBehaviour.

(** ** What the display shows *)

Section Display.
Context {F : Fitz}.

(** The image and the indicator are those of the current page at the
    current zoom, whenever the document is true. *)
Definition display_current (s : PDFViewer) : Prop :=
  doc_truthy (doc s) = true ->
  (exists img, render s = Ok img /\ label s = Some img) /\
  page_label s = page_label_text (current_page s) (page_count s).

Lemma shown_display_current (img : QImage) (s : PDFViewer) :
  render s = Ok img -> display_current (shown img s).
Proof.
  intros R _. destruct (shown_same_data img s) as (_ & -> & -> & _).
  destruct (shown_display img s) as (-> & -> & _).
  split; [exists img; split; [| reflexivity] | reflexivity].
  rewrite <- R. apply render_same_data, shown_same_data.
Qed.

(** After [show_page] returned, the display is current. *)
Lemma show_page_display_current (s : PDFViewer) :
  outcome show_page s = Ok tt -> display_current (exec show_page s).
Proof.
  unfold outcome, exec. rewrite show_page_spec.
  destruct (doc_truthy (doc s)) eqn:T.
  - destruct (render s) as [img | e] eqn:R; cbn [fst snd]; [| discriminate].
    intros _. apply shown_display_current, R.
  - intros _ T'. cbn [fst snd] in T'. congruence.
Qed.

Lemma guarded_display_current (g : PDFViewer -> bool) (u : PDFViewer -> PDFViewer)
  (s : PDFViewer) :
  outcome (guarded g u) s = Ok tt -> display_current s ->
  display_current (exec (guarded g u) s).
Proof.
  unfold outcome, exec. destruct (g s) eqn:G.
  - rewrite (guarded_true g u s G). intros H _. apply show_page_display_current, H.
  - rewrite (guarded_false g u s G). intros _ H. exact H.
Qed.

Lemma open_pdf_display_current (path : string) (s : PDFViewer) :
  outcome (open_pdf path) s = Ok tt ->
  message_boxes (exec (open_pdf path) s) = message_boxes s ->
  display_current s -> display_current (exec (open_pdf path) s).
Proof.
  unfold outcome, exec. destruct (String.eqb_spec path "") as [-> | Hp].
  { rewrite open_pdf_cancel. intros _ _ H. exact H. }
  destruct (fitz_open path) as [d | [msg | msg]] eqn:Ho.
  - rewrite (open_pdf_fitz_Ok path d s Hp Ho). unfold try_except.
    pose proof (show_page_display_current (opened d (opening path s))) as D.
    pose proof (show_page_message_boxes (opened d (opening path s))) as B.
    unfold outcome, exec in D, B.
    destruct (show_page (opened d (opening path s))) as [[[] | [msg | msg]] s']; cbn [fst snd] in *.
    + auto.
    + intros _ Hb. unfold open_handler, modify in Hb. cbn [snd] in Hb.
      rewrite message_boxes_add, B in Hb.
      change (message_boxes (opened d (opening path s))) with (message_boxes (asked s)) in Hb.
      rewrite message_boxes_asked in Hb. destruct (app_neq_self _ _ Hb).
    + discriminate.
  - rewrite (open_pdf_fitz_Exception path msg s Hp Ho). cbn [fst snd].
    intros _ Hb. rewrite message_boxes_add, message_boxes_opening in Hb.
    destruct (app_neq_self _ _ Hb).
  - rewrite (open_pdf_fitz_BaseException path msg s Hp Ho). discriminate.
Qed.

(** What is on screen is the current page.  On any engine, a slot
    that returns without showing a dialog leaves the image the render of
    the current page at the current zoom and the indicator the text of the
    current index and page count. *)
Lemma run_slot_display_current (path : string) (sl : Slot) (s : PDFViewer) :
  outcome (run_slot path sl) s = Ok tt ->
  message_boxes (exec (run_slot path sl) s) = message_boxes s ->
  display_current s -> display_current (exec (run_slot path sl) s).
Proof.
  destruct sl; cbn [run_slot]; [apply open_pdf_display_current | | | |]; intros H _.
  - rewrite prev_page_guarded in *. apply guarded_display_current, H.
  - rewrite next_page_guarded in *. apply guarded_display_current, H.
  - rewrite zoom_in_guarded in *. apply guarded_display_current, H.
  - rewrite zoom_out_guarded in *. apply guarded_display_current, H.
Qed.

(** Rendering again ends as before.  How [show_page] ends is a function
    of the four data attributes, which it does not change, so a second
    [show_page] ends as the first did and leaves the same data. *)
Lemma show_page_idempotent (s : PDFViewer) :
  outcome show_page (exec show_page s) = outcome show_page s /\
  same_data (exec show_page (exec show_page s)) s.
Proof.
  pose proof (show_page_same_data s) as D.
  split; [apply show_page_outcome, D | rewrite show_page_same_data; exact D].
Qed.

End Display.

(** ** With the laws of the engine *)

Section WithLaws.
Context {F : Fitz} {L : FitzLaws F}.

(** Under a true document the page index is a page of it. *)
Lemma truthy_in_range (s : PDFViewer) (d : Document) :
  viewer_inv s -> doc s = Some d -> doc_bool d = true ->
  0 <= current_page s < doc_page_count d.
Proof.
  intros [[H1 H2] H3] Hd T. unfold count_cached in H3. rewrite Hd in H3.
  apply doc_bool_pos in T. lia.
Qed.

(** [show_page] asks the engine for a page the document has. *)
Lemma render_loads (s : PDFViewer) :
  viewer_inv s -> doc_truthy (doc s) = true ->
  exists d p, doc s = Some d /\ load_page d (current_page s) = Ok p.
Proof.
  intros Hs T. unfold doc_truthy in T. destruct (doc s) as [d |] eqn:Hd; [| discriminate].
  destruct (load_page_returns d (current_page s) (truthy_in_range s d Hs Hd T)) as [p Hp].
  eauto.
Qed.

Section Total.
Context {T : RenderTotal F}.

Lemma render_ok (s : PDFViewer) :
  viewer_inv s -> doc_truthy (doc s) = true -> is_ok (render s) = true.
Proof.
  intros Hs Ht. destruct (render_loads s Hs Ht) as (d & p & Hd & Hp).
  unfold render. rewrite Hd, Hp.
  pose proof (get_pixmap_ok p (Matrix_scale (zoom s) (zoom s))) as Hg.
  destruct (get_pixmap p _); [reflexivity | discriminate].
Qed.

Lemma show_page_returns (s : PDFViewer) :
  viewer_inv s -> outcome show_page s = Ok tt.
Proof. intros Hs. apply show_page_returns_if, render_ok, Hs. Qed.

Lemma guarded_returns (g : PDFViewer -> bool) (u : PDFViewer -> PDFViewer) (s : PDFViewer) :
  (forall s, viewer_inv s -> g s = true -> viewer_inv (u s)) ->
  viewer_inv s -> outcome (guarded g u) s = Ok tt.
Proof.
  intros Hu Hs. apply guarded_returns_if. intros G. apply render_ok, Hu; assumption.
Qed.

Lemma open_pdf_returns (path : string) (s : PDFViewer) :
  raises_base (fitz_open path) = false -> outcome (open_pdf path) s = Ok tt.
Proof.
  intros Hb. apply open_pdf_returns_if; [exact Hb |]. intros d _ _ Ht.
  apply render_ok; [apply opened_inv | exact Ht].
Qed.

(** On an engine that keeps the laws and renders every page, no slot
    raises from a state of the invariant, unless [fitz.open] itself raises
    what [except Exception] lets through. *)
Lemma run_slot_returns (path : string) (sl : Slot) (s : PDFViewer) :
  viewer_inv s -> raises_base (fitz_open path) = false ->
  outcome (run_slot path sl) s = Ok tt.
Proof.
  intros Hs Hb. destruct sl; cbn [run_slot].
  - apply open_pdf_returns, Hb.
  - rewrite prev_page_guarded. apply guarded_returns; [exact prev_page_upd_inv | exact Hs].
  - rewrite next_page_guarded. apply guarded_returns; [exact next_page_upd_inv | exact Hs].
  - rewrite zoom_in_guarded. apply guarded_returns; [exact zoom_in_upd_inv | exact Hs].
  - rewrite zoom_out_guarded. apply guarded_returns; [exact zoom_out_upd_inv | exact Hs].
Qed.

(** On such an engine every slot keeps the display current. *)
Lemma guarded_display_total (g : PDFViewer -> bool) (u : PDFViewer -> PDFViewer)
  (s : PDFViewer) :
  (forall s, viewer_inv s -> g s = true -> viewer_inv (u s)) ->
  viewer_inv s -> display_current s -> display_current (exec (guarded g u) s).
Proof.
  intros Hu Hs Hd. apply guarded_display_current; [| exact Hd].
  apply guarded_returns; assumption.
Qed.

Lemma open_pdf_display_total (path : string) (s : PDFViewer) :
  display_current s -> display_current (exec (open_pdf path) s).
Proof.
  intros Hd. unfold exec. destruct (String.eqb_spec path "") as [-> | Hp]; [exact Hd |].
  destruct (fitz_open path) as [d | [msg | msg]] eqn:Ho.
  - rewrite (open_pdf_fitz_Ok path d s Hp Ho).
    pose proof (show_page_returns (opened d (opening path s)) (opened_inv d s)) as R.
    rewrite (try_except_ok show_page open_handler (opened d (opening path s)) R).
    apply show_page_display_current, R.
  - rewrite (open_pdf_fitz_Exception path msg s Hp Ho). exact Hd.
  - rewrite (open_pdf_fitz_BaseException path msg s Hp Ho). exact Hd.
Qed.

Lemma run_slot_display_total (path : string) (sl : Slot) (s : PDFViewer) :
  viewer_inv s -> display_current s -> display_current (exec (run_slot path sl) s).
Proof.
  intros Hs Hd. destruct sl; cbn [run_slot].
  - apply open_pdf_display_total, Hd.
  - rewrite prev_page_guarded. apply guarded_display_total; auto using prev_page_upd_inv.
  - rewrite next_page_guarded. apply guarded_display_total; auto using next_page_upd_inv.
  - rewrite zoom_in_guarded. apply guarded_display_total; auto using zoom_in_upd_inv.
  - rewrite zoom_out_guarded. apply guarded_display_total; auto using zoom_out_upd_inv.
Qed.

End Total.
End WithLaws.

(** ** Instances of the claims, on the small engine *)

Section ToyWitnesses.
#[local] Existing Instance toy_fitz.

Definition toy_opened : PDFViewer := opened toy_three (opening "three.pdf" init).

Lemma next_page_at_last_witness : next_page (F := toy_fitz) init = (Ok tt, init).
Proof. apply next_page_at_last. cbn. lia. Defined.

Lemma prev_page_at_first_witness : prev_page (F := toy_fitz) init = (Ok tt, init).
Proof. apply prev_page_at_first. cbn. lia. Defined.

Lemma next_page_advances_witness :
  next_page toy_opened =
    match render (next_page_upd toy_opened) with
    | Ok img => (Ok tt, shown img (next_page_upd toy_opened))
    | Raise e => (Raise e, requested (next_page_upd toy_opened))
    end.
Proof. apply next_page_advances; [reflexivity | cbn; lia]. Defined.

Lemma prev_page_retreats_witness :
  prev_page (set_current_page 1 toy_opened) =
    match render (prev_page_upd (set_current_page 1 toy_opened)) with
    | Ok img => (Ok tt, shown img (prev_page_upd (set_current_page 1 toy_opened)))
    | Raise e => (Raise e, requested (prev_page_upd (set_current_page 1 toy_opened)))
    end.
Proof. apply prev_page_retreats; [reflexivity | cbn; lia]. Defined.

Lemma next_then_prev_same_data_witness :
  same_data (exec prev_page (exec next_page toy_opened)) toy_opened.
Proof. apply next_then_prev_same_data; [apply opened_inv | reflexivity]. Defined.

Definition toy_first_image : QImage :=
  mkQImage (repeat Byte.x00 72) 4 6 12 Format_RGB888.

Lemma open_pdf_success_witness :
  open_pdf (F := toy_fitz) "three.pdf" init = (Ok tt, shown toy_first_image toy_opened) /\
  doc (shown toy_first_image toy_opened) = Some toy_three /\
  page_count (shown toy_first_image toy_opened) = 3 /\
  current_page (shown toy_first_image toy_opened) = 0 /\
  zoom (shown toy_first_image toy_opened) = zoom_initial /\
  label (shown toy_first_image toy_opened) = Some toy_first_image /\
  page_label (shown toy_first_image toy_opened) = page_label_text 0 3 /\
  dialogs (shown toy_first_image toy_opened) = [] ++ [OpenFileName open_file_dialog] /\
  fitz_calls (shown toy_first_image toy_opened) =
    [] ++ Fitz_open "three.pdf" :: render_calls (opened toy_three init).
Proof.
  apply (open_pdf_success (F := toy_fitz) "three.pdf" toy_three toy_first_image init);
    [discriminate | reflexivity | reflexivity | vm_compute; reflexivity].
Defined.

Lemma open_pdf_failure_witness :
  outcome (open_pdf (F := toy_fitz) "nope.pdf") init = Ok tt /\
  same_data (exec (open_pdf "nope.pdf") init) init /\
  label (exec (open_pdf (F := toy_fitz) "nope.pdf") init) = None /\
  page_label (exec (open_pdf (F := toy_fitz) "nope.pdf") init) = initial_page_label /\
  dialogs (exec (open_pdf (F := toy_fitz) "nope.pdf") init) =
    [] ++ [OpenFileName open_file_dialog;
           Critical (mkMessageBox "Error" (open_error_text "no such file: 'nope.pdf'"))] /\
  fitz_calls (exec (open_pdf (F := toy_fitz) "nope.pdf") init) = [] ++ [Fitz_open "nope.pdf"].
Proof.
  apply (open_pdf_failure (F := toy_fitz) "nope.pdf" "no such file: 'nope.pdf'" init);
    [discriminate | reflexivity].
Defined.

Lemma open_pdf_render_failure_witness :
  open_pdf (F := toy_fitz) "torn.pdf" toy_opened =
    (Ok tt, add_message_box (open_error_box "cannot load page")
              (requested (opened toy_torn (opening "torn.pdf" toy_opened)))) /\
  doc (exec (open_pdf "torn.pdf") toy_opened) = Some toy_torn /\
  page_count (exec (open_pdf "torn.pdf") toy_opened) = 2 /\
  current_page (exec (open_pdf "torn.pdf") toy_opened) = 0 /\
  zoom (exec (open_pdf "torn.pdf") toy_opened) = zoom_initial /\
  label (exec (open_pdf "torn.pdf") toy_opened) = None /\
  page_label (exec (open_pdf "torn.pdf") toy_opened) = initial_page_label /\
  fitz_calls (exec (open_pdf "torn.pdf") toy_opened) =
    [Fitz_open "three.pdf"] ++ Fitz_open "torn.pdf" :: render_calls (opened toy_torn toy_opened).
Proof.
  apply (open_pdf_render_failure (F := toy_fitz) "torn.pdf" "cannot load page" toy_torn toy_opened);
    [discriminate | reflexivity | reflexivity | reflexivity].
Defined.

Lemma open_pdf_no_page_witness :
  open_pdf (F := toy_fitz) "empty.pdf" toy_opened =
    (Ok tt, opened toy_empty (opening "empty.pdf" toy_opened)) /\
  label (opened toy_empty (opening "empty.pdf" toy_opened)) = None /\
  page_label (opened toy_empty (opening "empty.pdf" toy_opened)) = initial_page_label /\
  dialogs (opened toy_empty (opening "empty.pdf" toy_opened)) =
    [OpenFileName open_file_dialog] ++ [OpenFileName open_file_dialog] /\
  fitz_calls (opened toy_empty (opening "empty.pdf" toy_opened)) =
    [Fitz_open "three.pdf"] ++ [Fitz_open "empty.pdf"].
Proof.
  apply (open_pdf_no_page (F := toy_fitz) "empty.pdf" toy_empty toy_opened);
    [discriminate | reflexivity | reflexivity].
Defined.

Lemma zoom_out_settles_below_floor_witness :
  zoom (Nat.iter 4 (exec zoom_out) toy_opened) = zoom_at (-4) /\
  (zoom_at (-4) <? zoom_floor)%float = true /\
  zoom_at (-4) = 0x1.a36e2eb1c432dp-2%float.
Proof.
  apply (zoom_out_settles_below_floor 4 toy_opened 0); [reflexivity | reflexivity | lia | lia].
Defined.

Lemma zoom_out_at_floor_witness :
  zoom_out (set_zoom (zoom_at (-4)) toy_opened) = (Ok tt, set_zoom (zoom_at (-4)) toy_opened).
Proof. apply zoom_out_at_floor. reflexivity. Defined.

Lemma zoom_in_then_out_same_data_witness :
  same_data (exec zoom_out (exec zoom_in toy_opened)) toy_opened.
Proof.
  apply (zoom_in_then_out_same_data toy_opened 0); [reflexivity | reflexivity | lia].
Defined.

Lemma zoom_in_then_out_witness :
  same_data (exec zoom_out (exec zoom_in toy_opened)) toy_opened.
Proof.
  apply (zoom_in_then_out toy_opened 0); [reflexivity | reflexivity | lia].
Defined.

Lemma zoom_in_then_out_drifts_witness :
  zoom_eqb (zoom (exec zoom_out (exec zoom_in (set_zoom (zoom_at 24) toy_opened))))
    (zoom (set_zoom (zoom_at 24) toy_opened)) = false.
Proof. apply zoom_in_then_out_drifts; reflexivity. Defined.

Lemma every_page_reachable_witness :
  current_page
    (Nat.iter (Z.to_nat 2) (exec next_page)
       (Nat.iter (Z.to_nat (current_page toy_opened)) (exec prev_page) toy_opened)) = 2.
Proof.
  apply (every_page_reachable toy_opened 2); [apply opened_inv | reflexivity | cbn; lia].
Defined.

Lemma zoom_in_overflows_witness :
  zoom (Nat.iter 3181 (exec zoom_in) toy_opened) = infinity /\
  zoom (exec zoom_out (Nat.iter 3181 (exec zoom_in) toy_opened)) = infinity.
Proof. apply zoom_in_overflows; [reflexivity | reflexivity | lia]. Defined.

Lemma zoom_out_recovers_witness :
  (0x1.999999999999ap-2 <=? zoom (zoomed_in_and_out 30 toy_opened))%float = true /\
  (zoom (zoomed_in_and_out 30 toy_opened) <=? zoom_floor)%float = true /\
  zoom (exec zoom_out (zoomed_in_and_out 30 toy_opened)) =
    zoom (zoomed_in_and_out 30 toy_opened).
Proof. apply zoom_out_recovers; [reflexivity | reflexivity | lia]. Defined.

Lemma navigation_without_doc_witness :
  run_slot (F := toy_fitz) "" slot_zoom_in init = (Ok tt, init).
Proof. apply navigation_without_doc; [reflexivity | discriminate]. Defined.

Definition toy_second_page : PDFViewer :=
  exec (run_slot "" slot_next_page) (shown toy_first_image toy_opened).

Lemma run_slot_display_current_witness :
  (exists img, render toy_second_page = Ok img /\ label toy_second_page = Some img) /\
  page_label toy_second_page =
    page_label_text (current_page toy_second_page) (page_count toy_second_page).
Proof.
  apply (run_slot_display_current "" slot_next_page (shown toy_first_image toy_opened));
    [vm_compute; reflexivity | vm_compute; reflexivity | | vm_compute; reflexivity].
  apply shown_display_current. vm_compute. reflexivity.
Defined.

End ToyWitnesses.
