(* ===== verification/Wiring.v ===== *)
(** * Signals, slots and reachable states

    [__init__] connects the [clicked] signal of each button and the
    [activated] signal of each shortcut to a method.  When the user clicks
    or presses a key, Qt emits the signal and calls the connected slots in
    the order of connection.  This file models the emission ([emit]) through
    the connection table the object holds and the reachable states of the
    widget as a step relation, with what holds in every one of them: the
    invariant of the data, the bounds of the zoom, the tree of widgets, the
    image on screen, the pages the keyboard reaches and the order of the
    dialogs. *)

From Stdlib Require Import Floats ZArith String Bool Lia Morphisms Setoid.
From S2P Require Import Prelude Zoom Fitz PageLabel Viewer.
From stdpp Require Import base decidable list strings.

Local Open Scope Z_scope.
Local Open Scope slot_scope.

(** ** Decidable equality of the Qt values *)

#[export] Instance button_eq_dec : EqDecision Button.
Proof. solve_decision. Defined.

#[export] Instance slot_eq_dec : EqDecision Slot.
Proof. solve_decision. Defined.

#[export] Instance signal_eq_dec : EqDecision Signal.
Proof. solve_decision. Defined.

(** ** Emission *)

(** What the user does: the signal, and the path the file dialog will
    return if the slot opens it (empty: cancelled). *)
Record Event : Type := mkEvent {
  ev_signal : Signal;
  ev_dialog : string
}.

(** The slots connected to a signal, in the order of connection. *)
Definition slots_of (sig : Signal) (c : list (Signal * Slot)) : list Slot :=
  (filter (fun p => p.1 = sig) c).*2.

(** The button whose slot a shortcut shares. *)
Definition shortcut_button (keys : string) : option Button :=
  if decide (keys = "Right"%string) then Some next_btn
  else if decide (keys = "Left"%string) then Some prev_btn
  else if decide (keys = "Ctrl++"%string) then Some zoom_in_btn
  else if decide (keys = "Ctrl+-"%string) then Some zoom_out_btn
  else None.

(** The slot of a button. *)
Definition button_slot (b : Button) : Slot :=
  match b with
  | open_btn => slot_open_pdf
  | prev_btn => slot_prev_page
  | next_btn => slot_next_page
  | zoom_in_btn => slot_zoom_in
  | zoom_out_btn => slot_zoom_out
  end.

Section Emit.
Context {F : Fitz}.

(** Emit a signal: run the connected slots in order.  An exception that
    leaves a slot ends the emission here.  Without a hook PyQt5 ends the
    process at that point; with one Qt would go on to the slots connected
    after it, and there are none: in every reachable state a signal has at
    most one slot ([reachable_one_slot]), so the two readings agree. *)
Definition emit (ev : Event) : M PDFViewer unit :=
  self <- get ;;
  for_each (run_slot (ev_dialog ev)) (slots_of (ev_signal ev) (connections self)).

(** ** Reachable states *)

(** One user event. *)
Inductive step : PDFViewer -> Event -> PDFViewer -> Prop :=
| step_emit (s : PDFViewer) (ev : Event) : step s ev (exec (emit ev) s).

(** The states the widget can be in. *)
Inductive reachable : PDFViewer -> Prop :=
| reachable_init : reachable init
| reachable_step (s s' : PDFViewer) (ev : Event) :
    reachable s -> step s ev s' -> reachable s'.

(** The state after a list of events, each run whether or not the one
    before raised (the exception of a slot does not unwind the loop). *)
Definition after (evs : list Event) (s : PDFViewer) : PDFViewer :=
  fold_left (fun s ev => exec (emit ev) s) evs s.

End Emit.

(** A click on a button, with what the user chooses if a file dialog
    opens, and a key press. *)
Definition click (b : Button) (path : string) : Event := mkEvent (clicked b) path.
Definition press (keys : string) : Event := mkEvent (activated keys) "".

(** ** The connection table *)

(** Every button has exactly its slot. *)
Lemma slots_of_clicked (b : Button) :
  slots_of (clicked b) init_connections = [button_slot b].
Proof. destruct b; reflexivity. Qed.

(** A key sequence has the slot of its button, or none. *)
Lemma slots_of_activated (keys : string) :
  slots_of (activated keys) init_connections =
    match shortcut_button keys with
    | Some b => [button_slot b]
    | None => []
    end.
Proof.
  unfold shortcut_button, slots_of, init_connections.
  repeat (rewrite ?filter_cons, ?filter_nil; cbn [fst]).
  repeat match goal with
         | |- context [decide (clicked ?b = activated ?k)] =>
             destruct (decide (clicked b = activated k)) as [E | _]; [discriminate E |]
         end.
  repeat match goal with
         | |- context [decide (activated ?a = activated keys)] =>
             destruct (decide (activated a = activated keys)) as [E | E];
             [ injection E as <- | assert (keys <> a) by congruence ]
         end;
  repeat match goal with
         | |- context [decide (?a = ?b)] =>
             destruct (decide (a = b)); try congruence; try discriminate
         end; reflexivity.
Qed.

(** The slot a signal reaches through the table of [__init__]. *)
Definition signal_slot (sig : Signal) : option Slot :=
  match sig with
  | clicked b => Some (button_slot b)
  | activated keys => button_slot <$> shortcut_button keys
  end.

Lemma slots_of_init (sig : Signal) :
  slots_of sig init_connections =
    match signal_slot sig with
    | Some sl => [sl]
    | None => []
    end.
Proof.
  destruct sig as [b | keys]; cbn [signal_slot].
  - apply slots_of_clicked.
  - rewrite slots_of_activated. destruct (shortcut_button keys); reflexivity.
Qed.

(** ** Emission through the table of [__init__] *)

(** A signal of the table has at most one slot. *)
Lemma init_one_slot (sig : Signal) : (length (slots_of sig init_connections) <= 1)%nat.
Proof. rewrite slots_of_init. destruct (signal_slot sig); cbn; lia. Qed.

Section Reach.
Context {F : Fitz}.

(** The slot an event runs, or nothing. *)
Definition handle (ev : Event) : M PDFViewer unit :=
  match signal_slot (ev_signal ev) with
  | Some sl => run_slot (ev_dialog ev) sl
  | None => ret tt
  end.

Lemma emit_handle (ev : Event) (s : PDFViewer) :
  connections s = init_connections -> emit ev s = handle ev s.
Proof.
  intros Hc. unfold emit, handle. slot_simp. rewrite Hc, slots_of_init.
  destruct (signal_slot (ev_signal ev)) as [sl |]; cbn [for_each]; [| reflexivity].
  slot_simp. destruct (run_slot (ev_dialog ev) sl s) as [[[] | e] s']; reflexivity.
Qed.

(** No method assigns the connections. *)
Lemma run_slot_connections (path : string) (sl : Slot) (s : PDFViewer) :
  connections (exec (run_slot path sl) s) = connections s.
Proof.
  apply (run_slot_frame (fun s' => connections s' = connections s)); frame_exact.
Qed.

(** What every slot keeps, every emission keeps, whatever the wiring. *)
Lemma emit_preserves (I : PDFViewer -> Prop) (ev : Event) :
  (forall path sl, preserves I (run_slot path sl)) -> preserves I (emit ev).
Proof.
  intros H. unfold emit. preserves_auto. apply preserves_for_each. intros sl. apply H.
Qed.

(** The invariant of the reachable states: the data invariant, and the
    wiring of [__init__]. *)
Definition wired_inv (s : PDFViewer) : Prop :=
  viewer_inv s /\ connections s = init_connections.

Lemma run_slot_wired_inv (path : string) (sl : Slot) :
  preserves wired_inv (run_slot path sl).
Proof.
  intros s [Hs Hc].
  split; [apply run_slot_inv, Hs | rewrite run_slot_connections; exact Hc].
Qed.

Lemma emit_wired_inv (ev : Event) : preserves wired_inv (emit ev).
Proof. apply emit_preserves. intros path sl. apply run_slot_wired_inv. Qed.

Lemma reachable_wired_inv (s : PDFViewer) : reachable s -> wired_inv s.
Proof.
  induction 1 as [| s s' ev _ IH Hstep].
  - split; [apply init_inv | reflexivity].
  - destruct Hstep. apply emit_wired_inv, IH.
Qed.

(** No reachable state has two slots on a signal: an emission calls one
    method at most. *)
Lemma reachable_one_slot (s : PDFViewer) (sig : Signal) :
  reachable s -> (length (slots_of sig (connections s)) <= 1)%nat.
Proof.
  intros Hr. rewrite (proj2 (reachable_wired_inv s Hr)). apply init_one_slot.
Qed.

Lemma after_reachable (evs : list Event) (s : PDFViewer) :
  reachable s -> reachable (after evs s).
Proof.
  revert s. induction evs as [| ev evs IH]; intros s Hs; cbn; [exact Hs |].
  apply IH. eapply reachable_step; [exact Hs | constructor].
Qed.

(** C1: in every state the widget can reach from [__init__] by any
    sequence of clicks and key presses, with any answers of the file dialog
    and on any engine, slots that raised included, the page index is not
    negative and is below the page count (or is 0 when the count is 0),
    [page_count] is the page count of the document held, and the signals
    are wired as [__init__] wired them. *)
Theorem reachable_inv (s : PDFViewer) :
  reachable s ->
  0 <= current_page s /\
  (current_page s < page_count s \/ current_page s = 0 /\ page_count s <= 0) /\
  page_count s = match doc s with Some d => doc_page_count d | None => 0 end /\
  connections s = init_connections.
Proof.
  intros H. destruct (reachable_wired_inv s H) as [[[H1 H2] H3] H4].
  repeat split; [exact H1 | lia | exact H3 | exact H4].
Qed.

End Reach.

(** ** Shortcuts *)

Section Shortcuts.
Context {F : Fitz}.

(** C36: a key sequence with a shortcut does exactly what a click on its
    button does, result and state, in every state wired by [__init__]; a
    key sequence without one does nothing. *)
Theorem shortcut_same_as_button (keys path : string) (s : PDFViewer) :
  connections s = init_connections ->
  emit (mkEvent (activated keys) path) s =
    match shortcut_button keys with
    | Some b => emit (mkEvent (clicked b) path) s
    | None => (Ok tt, s)
    end.
Proof.
  intros Hc. destruct (shortcut_button keys) as [b |] eqn:Hk;
    rewrite !(emit_handle _ s Hc); unfold handle; cbn [ev_signal ev_dialog signal_slot];
    rewrite Hk; reflexivity.
Qed.

End Shortcuts.

(** ** Reachable states of a well-behaved engine *)

Section ReachLaws.
Context {F : Fitz} {L : FitzLaws F} {T : RenderTotal F}.

Lemma handle_display_current (ev : Event) (s : PDFViewer) :
  viewer_inv s -> display_current s -> display_current (exec (handle ev) s).
Proof.
  intros Hs Hd. unfold handle.
  destruct (signal_slot (ev_signal ev)); [apply run_slot_display_total; assumption | exact Hd].
Qed.

Lemma reachable_display (s : PDFViewer) :
  reachable s -> display_current s.
Proof.
  induction 1 as [| s s' ev Hr IH Hstep].
  - intros Ht. discriminate Ht.
  - destruct Hstep. destruct (reachable_wired_inv s Hr) as [Hs Hc].
    unfold exec. rewrite (emit_handle ev s Hc). apply handle_display_current; assumption.
Qed.

(** C34: on an engine that keeps the laws of PyMuPDF and renders every
    page, in every reachable state with a true document the image on
    screen is the render of the current page at the current zoom and the
    indicator reads the current index plus one and the page count. *)
Theorem reachable_display_current (s : PDFViewer) (d : Document) :
  reachable s -> doc s = Some d -> doc_bool d = true ->
  (exists img, render s = Ok img /\ label s = Some img) /\
  page_label s = page_label_text (current_page s) (doc_page_count d).
Proof.
  intros Hr Hd Ht.
  destruct (reachable_display s Hr) as [Himg Hl]; [unfold doc_truthy; rewrite Hd; exact Ht |].
  split; [exact Himg |]. rewrite Hl.
  destruct (reachable_wired_inv s Hr) as [[_ Hc] _]. unfold count_cached in Hc.
  rewrite Hd in Hc. rewrite Hc. reflexivity.
Qed.

(** On such an engine no event makes a slot raise, from any reachable
    state, unless [fitz.open] raises what [except Exception] does not
    catch. *)
Lemma reachable_event_returns_lemma (s : PDFViewer) (ev : Event) :
  reachable s -> raises_base (fitz_open (ev_dialog ev)) = false ->
  outcome (emit ev) s = Ok tt.
Proof.
  intros Hr Hb. destruct (reachable_wired_inv s Hr) as [Hs Hc].
  unfold outcome. rewrite (emit_handle ev s Hc). unfold handle.
  destruct (signal_slot (ev_signal ev)); [| reflexivity].
  apply run_slot_returns; assumption.
Qed.

(** Under a true document, in every reachable state, the page index
    is a page of the document: what [show_page] passes to [load_page] is in
    range. *)
Lemma reachable_page_in_document (s : PDFViewer) (d : Document) :
  reachable s -> doc s = Some d -> doc_bool d = true ->
  0 <= current_page s < doc_page_count d /\
  is_ok (load_page d (current_page s)) = true.
Proof.
  intros Hr Hd Ht. destruct (reachable_wired_inv s Hr) as [Hs _].
  pose proof (truthy_in_range s d Hs Hd Ht) as H.
  split; [exact H | apply load_page_in_range, H].
Qed.

End ReachLaws.

(** ** The zoom *)

Section ReachZoom.
Context {F : Fitz}.

Lemma reachable_zoom (s : PDFViewer) : reachable s -> zoom_above_min (zoom s) = true.
Proof.
  induction 1 as [| s s' ev _ IH Hstep]; [reflexivity |]. destruct Hstep.
  apply (emit_preserves (fun s => zoom_above_min (zoom s) = true)); [| exact IH].
  apply run_slot_zoom_above_min.
Qed.

(** C8: the floor of the zoom, on every path.  In every state the widget
    can reach, by any number of zoom-ins and zoom-outs in any order, on any
    engine, the zoom is above the number Python prints as 0.4: it is never
    zero, negative or not a number, and the scale handed to the engine is
    positive.  (The bound 0.5 of the specification does not hold.) *)
Theorem reachable_zoom_above_min (s : PDFViewer) :
  reachable s ->
  (zoom_min <? zoom s)%float = true /\ (0 <? zoom s)%float = true /\
  (zoom s =? zoom s)%float = true.
Proof.
  intros Hr. pose proof (reachable_zoom s Hr) as H.
  split; [exact H | apply zoom_above_min_positive, H].
Qed.

(** C21: the two limits of the zoom, from every reachable state with a
    document, whatever the path that led there, with the number of presses
    that reach them.  4102 zoom-ins in a row make the zoom infinite:
    nothing bounds it above.  And if the zoom has not overflowed, 4101
    zoom-outs in a row bring the widget to a zoom above 0.4 at which the
    guard refuses, and further zoom-outs change nothing.  (A step moves the
    zoom by a quarter of a binade at least, rounding included, and there
    are 1026 binades between 0.4 and the greatest number.) *)
Theorem reachable_zoom_limits (s : PDFViewer) :
  reachable s -> doc_truthy (doc s) = true ->
  zoom (Nat.iter 4102 (exec zoom_in) s) = infinity /\
  ((zoom s <? infinity)%float = true ->
   zoom_above_min (zoom (Nat.iter 4101 (exec zoom_out) s)) = true /\
   zoom_gt_floor (zoom (Nat.iter 4101 (exec zoom_out) s)) = false /\
   zoom (exec zoom_out (Nat.iter 4101 (exec zoom_out) s)) =
     zoom (Nat.iter 4101 (exec zoom_out) s)).
Proof.
  intros Hr T. pose proof (reachable_zoom s Hr) as Ha. split.
  - apply zoom_in_overflows_eventually; assumption.
  - intros Hf. apply zoom_out_settles; assumption.
Qed.

(** C22: the zoom buttons move the zoom the right way, in every reachable
    state with a document and a zoom that has not overflowed: Zoom In
    leaves a zoom strictly greater than before (possibly infinite), Zoom
    Out a zoom strictly smaller when the guard accepts it and the same
    zoom when it refuses.  Rounding never makes a step vanish. *)
Theorem reachable_zoom_moves (s : PDFViewer) :
  reachable s -> doc_truthy (doc s) = true -> (zoom s <? infinity)%float = true ->
  (zoom s <? zoom (exec zoom_in s))%float = true /\
  (if zoom_gt_floor (zoom s) then (zoom (exec zoom_out s) <? zoom s)%float
   else zoom_eqb (zoom (exec zoom_out s)) (zoom s)) = true.
Proof.
  intros Hr T Hf. rewrite zoom_in_zoom, zoom_out_zoom, T. cbn [andb]. split.
  - apply zoom_mul_grows; [apply reachable_zoom, Hr | exact Hf].
  - destruct (zoom_gt_floor (zoom s)) eqn:G; [apply zoom_div_shrinks; assumption |].
    apply zoom_eqb_eq. reflexivity.
Qed.

End ReachZoom.

(** ** The widgets *)

Section ReachWidgets.
Context {F : Fitz}.

Lemma reachable_widgets (s : PDFViewer) : reachable s -> widgets_of s = widgets_of init.
Proof.
  induction 1 as [| s s' ev _ IH Hstep]; [reflexivity |]. destruct Hstep.
  apply (emit_preserves (fun s => widgets_of s = widgets_of init)); [| exact IH].
  intros path sl. destruct (widgets_frame (widgets_of init)) as (H1 & H2 & H3 & H4).
  apply run_slot_frame; assumption.
Qed.

(** C33: in every reachable state the window is as [__init__] built it (no
    slot moves, adds or removes a widget or a connection), and its tree of
    widgets is well formed: the toolbar is in the layout of the window and
    each of the eight child widgets is placed exactly once. *)
Theorem reachable_widget_tree (s : PDFViewer) :
  reachable s -> widgets_of s = widgets_of init /\ widget_tree_wf s.
Proof.
  intros Hr. pose proof (reachable_widgets s Hr) as E. split; [exact E |].
  injection E as _ _ _ E1 E2 _ E3 _ _.
  apply (widget_tree_wf_widgets init s); auto using init_widget_tree.
Qed.

End ReachWidgets.

(** ** The image on screen *)

Section ReachImage.
Context {F : Fitz} {X : PixmapLaws F}.

Lemma reachable_label_wf (s : PDFViewer) : reachable s -> label_wf s.
Proof.
  induction 1 as [| s s' ev _ IH Hstep]; [apply init_label_wf |].
  destruct Hstep. apply (emit_preserves label_wf); [apply run_slot_label_wf | exact IH].
Qed.

(** C16: on an engine whose pixmaps are well formed (RGB rows of
    [3 * width] bytes, [stride * height] samples), the image on screen in
    any reachable state is a well-formed [QImage]: its sizes are not
    negative, a row of [Format_RGB888] pixels fits in [bytesPerLine], and
    the buffer [QImage] was given holds [bytesPerLine * height] bytes, so
    painting never reads past the samples of the pixmap. *)
Theorem reachable_image_wf (s : PDFViewer) (img : QImage) :
  reachable s -> label s = Some img -> QImage_wf img.
Proof. intros Hr. apply (reachable_label_wf s Hr). Qed.

End ReachImage.

(** ** Paging with the keyboard *)

Section ReachPages.
Context {F : Fitz}.

(** A key with a shortcut, pressed [n] times, runs the slot of its button
    [n] times. *)
Lemma after_presses (keys : string) (b : Button) (n : nat) (s : PDFViewer) :
  shortcut_button keys = Some b -> reachable s ->
  after (replicate n (press keys)) s = Nat.iter n (exec (run_slot "" (button_slot b))) s.
Proof.
  intros Hk. revert s. induction n as [| n IH]; intros s Hr; [reflexivity |].
  rewrite Nat.iter_succ_r. cbn [replicate after fold_left].
  fold (after (replicate n (press keys)) (exec (emit (press keys)) s)).
  rewrite IH by (eapply reachable_step; [exact Hr | constructor]). f_equal.
  unfold exec. rewrite (emit_handle _ s (proj2 (reachable_wired_inv s Hr))).
  unfold handle. cbn [press ev_signal ev_dialog signal_slot]. rewrite Hk. reflexivity.
Qed.

(** C31: every page can be reached from the keyboard.  In every reachable
    state with a true document, on any engine, pressing Left as many times
    as the index says and then Right [t] times leaves the index at [t], for
    every page [t] of the document, whether or not renders on the way
    raised. *)
Theorem reachable_every_page (s : PDFViewer) (t : Z) :
  reachable s -> doc_truthy (doc s) = true -> 0 <= t < page_count s ->
  current_page
    (after (replicate (Z.to_nat (current_page s)) (press "Left") ++
            replicate (Z.to_nat t) (press "Right")) s) = t.
Proof.
  intros Hr T Ht. unfold after at 1. rewrite fold_left_app.
  fold (after (replicate (Z.to_nat (current_page s)) (press "Left")) s).
  fold (after (replicate (Z.to_nat t) (press "Right"))
          (after (replicate (Z.to_nat (current_page s)) (press "Left")) s)).
  rewrite (after_presses "Right" next_btn) by (reflexivity || apply after_reachable, Hr).
  rewrite (after_presses "Left" prev_btn) by (reflexivity || exact Hr).
  apply every_page_reachable; [apply (reachable_wired_inv s Hr) | exact T | exact Ht].
Qed.

End ReachPages.

(** ** The dialogs *)

#[export] Instance file_dialog_eq_dec : EqDecision FileDialog.
Proof. solve_decision. Defined.

#[export] Instance message_box_eq_dec : EqDecision MessageBox.
Proof. solve_decision. Defined.

#[export] Instance dialog_eq_dec : EqDecision Dialog.
Proof. solve_decision. Defined.

(** An error box of [open_pdf]: titled Error, its text the fixed line, a
    line feed and a message. *)
Definition is_open_error (b : MessageBox) : bool :=
  bool_decide (box_title b = "Error"%string) &&
  String.prefix (open_error_text "") (box_text b).

(** The dialogs come in rounds: a file dialog with the arguments of
    [open_pdf], then at most one error box.  [box_allowed] says that the
    dialog before was a file dialog. *)
Fixpoint dialog_rounds_from (box_allowed : bool) (l : list Dialog) : bool :=
  match l with
  | [] => true
  | OpenFileName f :: l' =>
      bool_decide (f = open_file_dialog) && dialog_rounds_from true l'
  | Critical b :: l' =>
      box_allowed && is_open_error b && dialog_rounds_from false l'
  end.

Definition dialog_rounds (l : list Dialog) : bool := dialog_rounds_from false l.

(** The events that open the file dialog: the clicks on Open PDF, which has
    no shortcut. *)
Definition open_clicks (evs : list Event) : nat :=
  length (filter (fun ev => ev_signal ev = clicked open_btn) evs).

Lemma dialog_rounds_from_mono (q : bool) (l : list Dialog) :
  dialog_rounds l = true -> dialog_rounds_from q l = true.
Proof. destruct l as [| [f | b] l]; [reflexivity | exact (fun H => H) | discriminate]. Qed.

Lemma dialog_rounds_app (q : bool) (l1 l2 : list Dialog) :
  dialog_rounds_from q l1 = true -> dialog_rounds l2 = true ->
  dialog_rounds_from q (l1 ++ l2) = true.
Proof.
  revert q. induction l1 as [| [f | b] l1 IH]; intros q H1 H2; cbn in *.
  - apply dialog_rounds_from_mono, H2.
  - apply andb_true_iff in H1 as [-> H1]. apply IH; assumption.
  - apply andb_true_iff in H1 as [-> H1]. apply IH; assumption.
Qed.

(** In a log made of rounds there is a file dialog for every error box. *)
Lemma dialog_rounds_boxes (q : bool) (l : list Dialog) :
  dialog_rounds_from q l = true ->
  (length (critical_boxes l) <= length (file_dialogs l) + (if q then 1 else 0))%nat.
Proof.
  unfold critical_boxes, file_dialogs.
  revert q. induction l as [| [f | b] l IH]; intros q H; cbn in *; [destruct q; lia | |].
  - apply andb_true_iff in H as [_ H]. specialize (IH true H). cbn in IH. destruct q; lia.
  - apply andb_true_iff in H as [Hq H]. apply andb_true_iff in Hq as [-> _].
    specialize (IH false H). cbn in IH. lia.
Qed.

Lemma signal_slot_open (sig : Signal) :
  signal_slot sig = Some slot_open_pdf <-> sig = clicked open_btn.
Proof.
  split; [| intros ->; reflexivity].
  destruct sig as [[] | keys]; cbn; try discriminate; [reflexivity |].
  unfold shortcut_button. repeat case_decide; discriminate.
Qed.

Section ReachDialogs.
Context {F : Fitz}.

Lemma slot_dialogs_rounds (path : string) (sl : Slot) (s : PDFViewer) :
  dialog_rounds (slot_dialogs path sl s) = true.
Proof.
  destruct sl; try reflexivity. unfold slot_dialogs, open_dialogs.
  destruct (open_report path s) as [msg |]; [| reflexivity].
  cbn [dialog_rounds dialog_rounds_from]. unfold is_open_error, open_error_box.
  cbn [box_title box_text]. rewrite !bool_decide_eq_true_2 by reflexivity.
  rewrite andb_true_r. exact (prefix_append (open_error_text "") msg).
Qed.

Lemma run_slot_dialog_rounds (path : string) (sl : Slot) :
  preserves (fun s => dialog_rounds (dialogs s) = true) (run_slot path sl).
Proof.
  intros s H. rewrite run_slot_adds_dialogs.
  apply dialog_rounds_app; [exact H | apply slot_dialogs_rounds].
Qed.

Lemma reachable_rounds (s : PDFViewer) : reachable s -> dialog_rounds (dialogs s) = true.
Proof.
  induction 1 as [| s s' ev _ IH Hstep]; [reflexivity |]. destruct Hstep.
  apply (emit_preserves (fun s => dialog_rounds (dialogs s) = true)); [| exact IH].
  apply run_slot_dialog_rounds.
Qed.

(** C23: the dialogs of the widget, in every reachable state, in the order
    they were shown: rounds of one file dialog, always with the caption,
    the directory and the filter of [open_pdf], followed by at most one
    error box, titled Error, whose text starts with the fixed line.  No
    error box comes first or follows another, so there are at least as
    many file dialogs as error boxes. *)
Theorem reachable_dialog_rounds (s : PDFViewer) :
  reachable s ->
  dialog_rounds (dialogs s) = true /\
  (length (message_boxes s) <= length (file_dialogs (dialogs s)))%nat.
Proof.
  intros Hr. pose proof (reachable_rounds s Hr) as H. split; [exact H |].
  pose proof (dialog_rounds_boxes false (dialogs s) H) as B. cbv iota in B.
  unfold message_boxes. lia.
Qed.

(** The file dialogs an event adds, in a state wired by [__init__]. *)
Lemma emit_file_dialogs (ev : Event) (s : PDFViewer) :
  connections s = init_connections ->
  file_dialogs (dialogs (exec (emit ev) s)) =
    file_dialogs (dialogs s) ++
    if bool_decide (ev_signal ev = clicked open_btn) then [open_file_dialog] else [].
Proof.
  intros Hc. unfold exec. rewrite (emit_handle ev s Hc). unfold handle.
  case_bool_decide as E.
  - rewrite (proj2 (signal_slot_open _) E). fold (exec (run_slot (ev_dialog ev) slot_open_pdf) s).
    rewrite run_slot_adds_dialogs, file_dialogs_app. cbn.
    destruct (open_report (ev_dialog ev) s); reflexivity.
  - destruct (signal_slot (ev_signal ev)) as [sl |] eqn:Hs; [| symmetry; apply app_nil_r].
    fold (exec (run_slot (ev_dialog ev) sl) s).
    rewrite run_slot_adds_dialogs, file_dialogs_app.
    destruct sl; try reflexivity. destruct E. apply signal_slot_open, Hs.
Qed.

Lemma after_file_dialogs (evs : list Event) (s : PDFViewer) :
  reachable s ->
  file_dialogs (dialogs (after evs s)) =
    file_dialogs (dialogs s) ++ replicate (open_clicks evs) open_file_dialog.
Proof.
  revert s. induction evs as [| ev evs IH]; intros s Hr; [symmetry; apply app_nil_r |].
  cbn [after fold_left]. fold (after evs (exec (emit ev) s)).
  rewrite IH by (eapply reachable_step; [exact Hr | constructor]).
  rewrite emit_file_dialogs by apply (reachable_wired_inv s Hr).
  unfold open_clicks. rewrite filter_cons. rewrite <- app_assoc. f_equal.
  case_bool_decide as E; case_decide; try contradiction; reflexivity.
Qed.

(** C30: the file dialog opens once for every click on Open PDF and never
    otherwise: after any events from [__init__], whatever the user answers
    and whatever the engine does with the answers, the file dialogs shown
    are as many as the clicks on Open PDF, each with the arguments of
    [open_pdf].  No key press and no other button opens it. *)
Theorem after_open_clicks (evs : list Event) :
  file_dialogs (dialogs (after evs init)) =
    replicate (open_clicks evs) (mkFileDialog "Open PDF" "" "PDF Files (*.pdf)").
Proof. apply (after_file_dialogs evs init), reachable_init. Qed.

End ReachDialogs.

(** ** The scenario of the specification, run on the small engine *)

(** The data attributes of a state, for display. *)
Definition data_of {F : Fitz} (s : PDFViewer) : Z * Z * float :=
  (page_count s, current_page s, zoom s).

(** What is on screen: the indicator, the size of the image and the
    number of dialogs shown so far. *)
Definition display_of {F : Fitz} (s : PDFViewer) : string * option (Z * Z) * nat :=
  (page_label s, (fun i => (img_width i, img_height i)) <$> label s,
   length (message_boxes s)).

(** The scenario of the specification on a document of three pages.
    After the open: 3 pages, index 0, zoom 1.0.  Two [Right] presses: index
    2, the indicator reads 3 of 3.  A third: returns, nothing changes.
    [Ctrl++]: zoom 1.25.  Two [Ctrl+-]: the zoom Python prints as 0.8.
    Three more: all three are accepted and the zoom is the number Python
    prints as 0.4096, below 0.5; only a fourth is refused. *)
Lemma spec_scenario :
  let s1 := after (F := toy_fitz) [click open_btn "three.pdf"] init in
  let s2 := after [press "Right"; press "Right"] s1 in
  let s3 := after [press "Ctrl++"] s2 in
  let s4 := after [press "Ctrl+-"; press "Ctrl+-"] s3 in
  let s5 := after [press "Ctrl+-"; press "Ctrl+-"; press "Ctrl+-"] s4 in
  data_of s1 = (3, 0, 1%float) /\
  data_of s2 = (3, 2, 1%float) /\
  display_of s2 = ("Page: 3 / 3"%string, Some (6, 4), 0%nat) /\
  outcome (emit (press "Right")) s2 = Ok tt /\
  data_of (exec (emit (press "Right")) s2) = data_of s2 /\
  data_of s3 = (3, 2, 1.25%float) /\
  data_of s4 = (3, 2, 0x1.999999999999ap-1%float) /\
  data_of s5 = (3, 2, 0x1.a36e2eb1c432dp-2%float) /\
  outcome (emit (press "Ctrl+-")) s5 = Ok tt /\
  data_of (exec (emit (press "Ctrl+-")) s5) = data_of s5.
Proof. vm_compute. repeat split; reflexivity. Qed.

(** ** Instances of the claims *)

Section ToyRuns.
#[local] Existing Instance toy_fitz.

Definition toy_run : PDFViewer := after [click open_btn "three.pdf"; press "Right"] init.

Lemma toy_run_reachable : reachable toy_run.
Proof. apply after_reachable, reachable_init. Defined.

Lemma reachable_inv_witness :
  0 <= current_page toy_run /\
  (current_page toy_run < page_count toy_run \/
   current_page toy_run = 0 /\ page_count toy_run <= 0) /\
  page_count toy_run = match doc toy_run with
                       | Some d => doc_page_count d
                       | None => 0
                       end /\
  connections toy_run = init_connections.
Proof. apply reachable_inv, toy_run_reachable. Defined.

Lemma shortcut_same_as_button_witness :
  emit (mkEvent (activated "Right") "") toy_run =
    match shortcut_button "Right" with
    | Some b => emit (mkEvent (clicked b) "") toy_run
    | None => (Ok tt, toy_run)
    end.
Proof. apply shortcut_same_as_button. reflexivity. Defined.

Lemma reachable_zoom_above_min_witness :
  (zoom_min <? zoom toy_run)%float = true /\ (0 <? zoom toy_run)%float = true /\
  (zoom toy_run =? zoom toy_run)%float = true.
Proof. apply reachable_zoom_above_min, toy_run_reachable. Defined.

Lemma reachable_zoom_moves_witness :
  (zoom toy_run <? zoom (exec zoom_in toy_run))%float = true /\
  (if zoom_gt_floor (zoom toy_run) then (zoom (exec zoom_out toy_run) <? zoom toy_run)%float
   else zoom_eqb (zoom (exec zoom_out toy_run)) (zoom toy_run)) = true.
Proof.
  apply reachable_zoom_moves; [apply toy_run_reachable | reflexivity | reflexivity].
Defined.

Lemma reachable_zoom_limits_witness :
  zoom (Nat.iter 4102 (exec zoom_in) toy_run) = infinity /\
  ((zoom toy_run <? infinity)%float = true ->
   zoom_above_min (zoom (Nat.iter 4101 (exec zoom_out) toy_run)) = true /\
   zoom_gt_floor (zoom (Nat.iter 4101 (exec zoom_out) toy_run)) = false /\
   zoom (exec zoom_out (Nat.iter 4101 (exec zoom_out) toy_run)) =
     zoom (Nat.iter 4101 (exec zoom_out) toy_run)).
Proof. apply reachable_zoom_limits; [apply toy_run_reachable | reflexivity]. Defined.

(** A run with a failed open and then a successful one. *)
Definition toy_failed_run : PDFViewer :=
  after [click open_btn "nope.pdf"; click open_btn "three.pdf"] init.

Lemma reachable_dialog_rounds_witness :
  dialog_rounds (dialogs toy_failed_run) = true /\
  (length (message_boxes toy_failed_run) <= length (file_dialogs (dialogs toy_failed_run)))%nat.
Proof. apply reachable_dialog_rounds, after_reachable, reachable_init. Defined.

(** The log of that run: the file dialog, the error box, the file dialog. *)
Lemma toy_failed_run_dialogs :
  dialogs toy_failed_run =
    [OpenFileName open_file_dialog;
     Critical (mkMessageBox "Error" (open_error_text "no such file: 'nope.pdf'"));
     OpenFileName open_file_dialog].
Proof. vm_compute. reflexivity. Qed.

Lemma reachable_every_page_witness :
  current_page
    (after (replicate (Z.to_nat (current_page toy_run)) (press "Left") ++
            replicate (Z.to_nat 2) (press "Right")) toy_run) = 2.
Proof.
  apply (reachable_every_page toy_run 2);
    [apply toy_run_reachable | reflexivity | split; [lia | reflexivity]].
Defined.

Lemma reachable_widget_tree_witness :
  widgets_of toy_run = widgets_of init /\ widget_tree_wf toy_run.
Proof. apply reachable_widget_tree, toy_run_reachable. Defined.

Lemma reachable_image_wf_witness :
  exists img, label toy_run = Some img /\ QImage_wf img.
Proof.
  eexists. split; [reflexivity |].
  apply (reachable_image_wf (X := toy_fitz_pixmaps) toy_run);
    [apply toy_run_reachable | reflexivity].
Defined.

End ToyRuns.

Section CleanRuns.
#[local] Existing Instance clean_fitz.
#[local] Existing Instance clean_fitz_laws.
#[local] Existing Instance clean_fitz_total.

Definition clean_run : PDFViewer :=
  after [click open_btn "three.pdf"; press "Right"; press "Ctrl++"] init.

Lemma clean_run_reachable : reachable clean_run.
Proof. apply after_reachable, reachable_init. Defined.

Lemma reachable_display_current_witness :
  (exists img, render clean_run = Ok img /\ label clean_run = Some img) /\
  page_label clean_run = page_label_text (current_page clean_run) (doc_page_count clean_three).
Proof.
  apply (reachable_display_current clean_run clean_three);
    [apply clean_run_reachable | reflexivity | reflexivity].
Defined.

Lemma reachable_page_in_document_witness :
  0 <= current_page clean_run < doc_page_count clean_three /\
  is_ok (load_page clean_three (current_page clean_run)) = true.
Proof.
  apply (reachable_page_in_document clean_run clean_three);
    [apply clean_run_reachable | reflexivity | reflexivity].
Defined.

End CleanRuns.
