(* ===== verification/Protocol.v ===== *)
(** * The calls of PyMuPDF, as a protocol

    The widget calls three things of the engine: [fitz.open] in
    [open_pdf], and [load_page] and [get_pixmap] in [show_page].  [Viewer]
    records them in the order they are made.  This file states how an
    engine may expect to be called, as an inductive predicate on the record
    of the calls ([conforms]): a page is loaded from the document the last
    successful [fitz.open] returned, at an index the document has; an image
    is asked of the page the call just before loaded, scaled by the same
    positive number in both directions.  Every record the widget can
    produce conforms, and the document the protocol holds at the end is the
    one in [self.doc]: a document that was replaced is never called
    again. *)

From Stdlib Require Import Floats ZArith String List Bool Lia.
From S2P Require Import Prelude Zoom Fitz Viewer Wiring.
Import ListNotations.

Local Open Scope Z_scope.
Local Open Scope slot_scope.

Section Protocol.
Context {F : Fitz}.

(** ** The protocol *)

(** [conforms cs held]: the calls [cs], in order, are calls the engine
    expects, and [held] is the document the last successful [fitz.open]
    returned, if any. *)
Inductive conforms : list FitzCall -> option Document -> Prop :=
| conforms_start : conforms [] None
| conforms_open (cs : list FitzCall) (held : option Document) (path : string) :
    conforms cs held ->
    conforms (cs ++ [Fitz_open path])
      (match fitz_open path with
       | Ok d => Some d
       | Raise _ => held
       end)
| conforms_load (cs : list FitzCall) (d : Document) (n : Z) :
    conforms cs (Some d) -> 0 <= n < doc_page_count d ->
    conforms (cs ++ [Document_load_page d n]) (Some d)
| conforms_pixmap (cs : list FitzCall) (d : Document) (n : Z) (p : Page) (z : float) :
    conforms (cs ++ [Document_load_page d n]) (Some d) ->
    load_page d n = Ok p -> zoom_above_min z = true ->
    conforms ((cs ++ [Document_load_page d n]) ++ [Page_get_pixmap p (Matrix_scale z z)])
      (Some d).

(** A call the engine can answer, taken alone: an index of the document,
    and a scaling by a number above the least zoom. *)
Definition call_legal (c : FitzCall) : Prop :=
  match c with
  | Fitz_open _ => True
  | Document_load_page d n => 0 <= n < doc_page_count d
  | Page_get_pixmap p m => exists z, m = Matrix_scale z z /\ zoom_above_min z = true
  end.

(** The documents the calls of a record opened. *)
Definition opened_by (cs : list FitzCall) (d : Document) : Prop :=
  exists path, In (Fitz_open path) cs /\ fitz_open path = Ok d.

(** ** What a conforming record contains *)

Lemma conforms_legal (cs : list FitzCall) (held : option Document) :
  conforms cs held -> Forall call_legal cs.
Proof.
  induction 1 as [| cs held path _ IH | cs d n _ IH Hn | cs d n p z _ IH Hp Hz].
  - constructor.
  - apply Forall_app. split; [exact IH | constructor; [exact I | constructor]].
  - apply Forall_app. split; [exact IH | constructor; [exact Hn | constructor]].
  - apply Forall_app. split; [exact IH | constructor; [| constructor]]. exists z. auto.
Qed.

(** The document held was opened by a call of the record. *)
Lemma conforms_held (cs : list FitzCall) (held : option Document) (d : Document) :
  conforms cs held -> held = Some d -> opened_by cs d.
Proof.
  intros H. revert d.
  induction H as [| cs held path _ IH | cs d' n _ IH Hn | cs d' n p z _ IH Hp Hz];
    intros d E.
  - discriminate.
  - destruct (fitz_open path) as [d' | e] eqn:Ho.
    + injection E as <-. exists path. split; [apply in_or_app; right; left; reflexivity | exact Ho].
    + destruct (IH d E) as (path' & Hin & Ho'). exists path'.
      split; [apply in_or_app; left; exact Hin | exact Ho'].
  - destruct (IH d E) as (path' & Hin & Ho'). exists path'.
    split; [apply in_or_app; left; exact Hin | exact Ho'].
  - destruct (IH d E) as (path' & Hin & Ho'). exists path'.
    split; [apply in_or_app; left; exact Hin | exact Ho'].
Qed.

(** The last call of a conforming record, and the record before it. *)
Lemma conforms_last (cs : list FitzCall) (c : FitzCall) (held : option Document) :
  conforms (cs ++ [c]) held ->
  match c with
  | Fitz_open path =>
      exists held', conforms cs held' /\
                    held = match fitz_open path with Ok d => Some d | Raise _ => held' end
  | Document_load_page d n =>
      held = Some d /\ conforms cs (Some d) /\ 0 <= n < doc_page_count d
  | Page_get_pixmap p m =>
      exists cs' d n z,
        cs = cs' ++ [Document_load_page d n] /\ held = Some d /\ conforms cs (Some d) /\
        load_page d n = Ok p /\ m = Matrix_scale z z /\ zoom_above_min z = true
  end.
Proof.
  intros H. remember (cs ++ [c]) as l eqn:El.
  destruct H as [| cs0 held0 path H | cs0 d n H Hn | cs0 d n p z H Hp Hz].
  - destruct (app_cons_not_nil _ _ _ El).
  - apply app_inj_tail in El. destruct El as [<- <-].
    exists held0. split; [exact H | reflexivity].
  - apply app_inj_tail in El. destruct El as [<- <-]. repeat split; (assumption || lia).
  - apply app_inj_tail in El. destruct El as [<- <-].
    exists cs0, d, n, z. repeat split; assumption.
Qed.

(** A conforming record conformed all along. *)
Lemma conforms_prefix (cs1 cs2 : list FitzCall) (held : option Document) :
  conforms (cs1 ++ cs2) held -> exists held1, conforms cs1 held1.
Proof.
  revert held. induction cs2 as [| c cs2 IH] using rev_ind; intros held H.
  - rewrite app_nil_r in H. eauto.
  - rewrite app_assoc in H. apply conforms_last in H.
    destruct c as [path | d n | p m].
    + destruct H as (held' & H & _). eauto.
    + destruct H as (_ & H & _). eauto.
    + destruct H as (cs' & d & n & z & _ & _ & H & _). eauto.
Qed.

(** When a page was loaded, its document was the one held. *)
Lemma conforms_load_held (cs1 cs2 : list FitzCall) (d : Document) (n : Z)
  (held : option Document) :
  conforms (cs1 ++ Document_load_page d n :: cs2) held ->
  conforms cs1 (Some d) /\ 0 <= n < doc_page_count d.
Proof.
  intros H. change (cs1 ++ Document_load_page d n :: cs2)
              with (cs1 ++ [Document_load_page d n] ++ cs2) in H.
  rewrite app_assoc in H. apply conforms_prefix in H. destruct H as [held1 H].
  apply conforms_last in H. tauto.
Qed.

(** ** The widget conforms *)

(** What every slot keeps: the invariant of the data, the bound of the
    zoom, and a record that conforms and holds the document of the
    widget. *)
Definition protocol_inv (s : PDFViewer) : Prop :=
  viewer_inv s /\ zoom_above_min (zoom s) = true /\ conforms (fitz_calls s) (doc s).

Lemma init_protocol : protocol_inv init.
Proof. split; [apply init_inv | split; [reflexivity | constructor]]. Qed.

(** A dialog is no call. *)
Lemma add_dialog_protocol (d : Dialog) (s : PDFViewer) :
  protocol_inv s -> protocol_inv (add_dialog d s).
Proof. exact (fun H => H). Qed.

(** A guarded method keeps what its assignment keeps under the guard and
    [show_page] keeps. *)
Lemma guarded_keeps (I : PDFViewer -> Prop) (g : PDFViewer -> bool)
  (u : PDFViewer -> PDFViewer) :
  (forall s, I s -> g s = true -> I (u s)) -> preserves I show_page ->
  preserves I (guarded g u).
Proof.
  intros Hu Hs s H. unfold exec. destruct (g s) eqn:G.
  - rewrite (guarded_true g u s G). apply Hs, Hu; assumption.
  - rewrite (guarded_false g u s G). exact H.
Qed.

Section Laws.
Context {L : FitzLaws F}.

(** The calls of a render extend a conforming record. *)
Lemma render_calls_conform (s : PDFViewer) :
  protocol_inv s -> doc_truthy (doc s) = true ->
  conforms (fitz_calls s ++ render_calls s) (doc s).
Proof.
  intros (Hi & Hz & Hc) T. unfold render_calls, doc_truthy in *.
  destruct (doc s) as [d |] eqn:Hd; [| discriminate].
  pose proof (truthy_in_range s d Hi Hd T) as Hn.
  pose proof (conforms_load _ d _ Hc Hn) as Hl.
  destruct (load_page d (current_page s)) as [p | e] eqn:Hp; [| exact Hl].
  change (fitz_calls s ++ [Document_load_page d (current_page s);
                           Page_get_pixmap p (Matrix_scale (zoom s) (zoom s))])
    with (fitz_calls s ++ [Document_load_page d (current_page s)] ++
          [Page_get_pixmap p (Matrix_scale (zoom s) (zoom s))]).
  rewrite app_assoc. apply (conforms_pixmap _ d _ p (zoom s) Hl Hp Hz).
Qed.

Lemma show_page_protocol : preserves protocol_inv show_page.
Proof.
  intros s H. pose proof H as (Hi & Hz & Hc).
  destruct (show_page_same_data s) as (Ed & Ep & Ec & Ez).
  split; [rewrite (show_page_same_data s); exact Hi |].
  split; [rewrite Ez; exact Hz |].
  rewrite Ed, show_page_calls. destruct (doc_truthy (doc s)) eqn:T.
  - apply render_calls_conform; assumption.
  - rewrite app_nil_r. exact Hc.
Qed.

Lemma opened_protocol (path : string) (d : Document) (s : PDFViewer) :
  fitz_open path = Ok d -> protocol_inv s -> protocol_inv (opened d (opening path s)).
Proof.
  intros Ho (_ & _ & Hc). split; [apply opened_inv | split; [reflexivity |]].
  pose proof (conforms_open _ _ path Hc) as H. rewrite Ho in H. exact H.
Qed.

Lemma failed_open_protocol (path : string) (e : exn) (s : PDFViewer) :
  fitz_open path = Raise e -> protocol_inv s -> protocol_inv (opening path s).
Proof.
  intros Ho (Hi & Hz & Hc). split; [exact Hi | split; [exact Hz |]].
  pose proof (conforms_open _ _ path Hc) as H. rewrite Ho in H. exact H.
Qed.

Lemma open_pdf_protocol (path : string) : preserves protocol_inv (open_pdf path).
Proof.
  intros s H. unfold exec. destruct (String.eqb_spec path "") as [-> | Hp].
  { rewrite open_pdf_cancel. exact H. }
  destruct (fitz_open path) as [d | [msg | msg]] eqn:Ho.
  - rewrite (open_pdf_fitz_Ok path d s Hp Ho). unfold try_except.
    pose proof (show_page_protocol _ (opened_protocol path d s Ho H)) as S.
    unfold exec in S.
    destruct (show_page (opened d (opening path s))) as [[[] | [msg | msg]] s']; exact S.
  - rewrite (open_pdf_fitz_Exception path msg s Hp Ho).
    apply (failed_open_protocol path _ s Ho H).
  - rewrite (open_pdf_fitz_BaseException path msg s Hp Ho).
    apply (failed_open_protocol path _ s Ho H).
Qed.

(** An assignment of a navigation method keeps the invariant under its
    guard: it makes no call and keeps the document. *)
Lemma upd_protocol (g : PDFViewer -> bool) (u : PDFViewer -> PDFViewer) :
  (forall s, viewer_inv s -> g s = true -> viewer_inv (u s)) ->
  (forall s, zoom_above_min (zoom s) = true -> g s = true ->
             zoom_above_min (zoom (u s)) = true) ->
  (forall s, fitz_calls (u s) = fitz_calls s /\ doc (u s) = doc s) ->
  forall s, protocol_inv s -> g s = true -> protocol_inv (u s).
Proof.
  intros Hi Hz He s (H1 & H2 & H3) G. destruct (He s) as [E1 E2].
  unfold protocol_inv. rewrite E1, E2. auto.
Qed.

Lemma run_slot_protocol (path : string) (sl : Slot) :
  preserves protocol_inv (run_slot path sl).
Proof.
  destruct sl; cbn [run_slot]; [apply open_pdf_protocol | | | |];
    (eapply preserves_meq;
     [ symmetry; first [ apply prev_page_guarded | apply next_page_guarded
                       | apply zoom_in_guarded | apply zoom_out_guarded ]
     | apply guarded_keeps; [apply upd_protocol | exact show_page_protocol] ]);
    eauto using prev_page_upd_inv, next_page_upd_inv, zoom_in_upd_inv, zoom_out_upd_inv.
  - intros s H _. apply zoom_mul_above_min, H.
  - intros s _ G. apply zoom_div_above_min.
    unfold zoom_out_guard in G. bool_hyps. assumption.
Qed.

Lemma reachable_protocol (s : PDFViewer) : reachable s -> protocol_inv s.
Proof.
  induction 1 as [| s s' ev _ IH Hstep]; [apply init_protocol |]. destruct Hstep.
  apply (emit_preserves protocol_inv); [apply run_slot_protocol | exact IH].
Qed.

(** C7: the widget calls the engine as the engine expects.  On an engine
    that keeps the laws of PyMuPDF, after any clicks, key presses and file
    choices, the record of all the calls made conforms to the protocol:
    every [load_page] was asked of the document the last successful
    [fitz.open] had returned, at an index that document has; every
    [get_pixmap] was asked of the page the call just before had loaded,
    with [Matrix(z, z)] for a number [z] above 0.4.  The document the
    protocol holds at the end is [self.doc]: a document that was replaced
    is never called again, and no index is ever stale. *)
Theorem reachable_calls_conform (s : PDFViewer) :
  reachable s ->
  conforms (fitz_calls s) (doc s) /\ Forall call_legal (fitz_calls s) /\
  (forall d, doc s = Some d -> opened_by (fitz_calls s) d) /\
  (forall cs1 cs2 d n, fitz_calls s = cs1 ++ Document_load_page d n :: cs2 ->
                       conforms cs1 (Some d) /\ 0 <= n < doc_page_count d).
Proof.
  intros Hr. destruct (reachable_protocol s Hr) as (_ & _ & Hc).
  split; [exact Hc |]. split; [apply (conforms_legal _ _ Hc) |]. split.
  - intros d Hd. apply (conforms_held _ _ d Hc Hd).
  - intros cs1 cs2 d n E. rewrite E in Hc. apply (conforms_load_held _ _ _ _ _ Hc).
Qed.

End Laws.
End Protocol.

(** ** An instance, on the well-behaved engine *)

Section CleanProtocol.
#[local] Existing Instance clean_fitz.
#[local] Existing Instance clean_fitz_laws.

Lemma reachable_calls_conform_witness :
  conforms (fitz_calls clean_run) (doc clean_run) /\
  Forall call_legal (fitz_calls clean_run) /\
  (forall d, doc clean_run = Some d -> opened_by (fitz_calls clean_run) d) /\
  (forall cs1 cs2 d n, fitz_calls clean_run = cs1 ++ Document_load_page d n :: cs2 ->
                       conforms cs1 (Some d) /\ 0 <= n < doc_page_count d).
Proof. apply reachable_calls_conform, clean_run_reachable. Defined.

End CleanProtocol.
