(* ===== verification/Launcher.v ===== *)
(** * The launcher

    [launch_viewer] and the script entry of src/PDFViewer1/pdf_viewer.py.
    The launcher is a sequence of calls into Qt on the state of the process:
    the [QApplication] singleton, the window, the log of the calls made.
    [Process] is that state, [L] the monad of the launcher (a call may
    return, raise, or end the process), [launch_viewer] the body of the
    function, [call] its return and [main] the guard under [__name__].
    What Qt does at each call is the contract Qt documents: one application
    object at most, an application before any widget, and PyQt5's abort
    when an exception leaves a slot and no hook is installed.  What the
    return does is PyQt5's ownership rule: [app] and [viewer] are names of
    the frame, and an object built from Python without a parent is
    destroyed with its last reference, so the window never outlives the
    call, and neither does an application the call built. *)

From Stdlib Require Import ZArith String List Bool Lia.
From S2P Require Import Prelude Fitz Viewer Wiring.
Import ListNotations.

(** ** Calls, endings and the environment *)

(** [app.exec()] or [app.exec_()]. *)
Inductive ExecMethod : Type :=
| call_exec
| call_exec_.

(** The calls [launch_viewer] makes, as the log records them. *)
Inductive QtCall : Type :=
| QApplication_instance
| QApplication_new (argv : list string)
| PDFViewer_new
| QWidget_show
| hasattr_exec
| app_exec (m : ExecMethod).

(** How the loop call ends once the events are handled. *)
Inductive ExecResult : Type :=
| exec_returns
| exec_raises_SystemExit
| exec_raises (e : exn).

(** Ways in which Qt ends the process. *)
Inductive Fatal : Type :=
| widget_before_application
| second_application
| unhandled_in_slot (e : exn).

(** What stops a computation of the launcher: [SystemExit], another
    exception, or the end of the process. *)
Inductive Stop : Type :=
| SystemExit
| Raised (e : exn)
| Aborted (f : Fatal).

Inductive Ending (A : Type) : Type :=
| Returns (a : A)
| Stops (st : Stop).

Arguments Returns {A} a.
Arguments Stops {A} st.

(** What [launch_viewer] reads of its environment: [sys.argv], whether the
    binding has [exec], whether an exception hook is installed, what the
    user does while the loop runs and how the loop call ends. *)
Record Env : Type := mkEnv {
  env_argv : list string;
  env_has_exec : bool;
  env_hooked : bool;
  env_events : list Event;
  env_exec_result : ExecResult
}.

(** The application object, with the arguments it was built from. *)
Record QApplication : Type := mkQApplication {
  app_argv : list string
}.

Definition is_construction (c : QtCall) : bool :=
  match c with
  | QApplication_new _ => true
  | _ => false
  end.

(** The number of [QApplication]s a log constructs. *)
Definition constructions (cs : list QtCall) : nat :=
  length (filter is_construction cs).

(** The ending is an end of the process. *)
Definition aborted {A : Type} (r : Ending A) : bool :=
  match r with
  | Stops (Aborted _) => true
  | _ => false
  end.

Section Launch.
Context {F : Fitz}.

(** ** The process *)

(** [qapp] is the application that is alive, what
    [QApplication.instance()] answers; [window] is the widget the name
    [viewer] was last bound to, in the state the loop left it; [visible]
    says whether it is on screen; [calls] is the log. *)
Record Process : Type := mkProcess {
  qapp : option QApplication;
  window : option PDFViewer;
  visible : bool;
  calls : list QtCall
}.

Definition L (A : Type) : Type := Process -> Ending A * Process.

Definition lret {A : Type} (a : A) : L A := fun p => (Returns a, p).

Definition lbind {A B : Type} (m : L A) (k : A -> L B) : L B :=
  fun p =>
    match m p with
    | (Returns a, p') => k a p'
    | (Stops st, p') => (Stops st, p')
    end.

Definition lget : L Process := fun p => (Returns p, p).

Definition stop {A : Type} (st : Stop) : L A := fun p => (Stops st, p).

(** [try: m except SystemExit: pass] *)
Definition except_SystemExit (m : L unit) : L unit :=
  fun p =>
    match m p with
    | (Stops SystemExit, p') => (Returns tt, p')
    | r => r
    end.

Definition called (c : QtCall) : L unit :=
  fun p => (Returns tt, mkProcess (qapp p) (window p) (visible p) (calls p ++ [c])).

Definition set_qapp (a : QApplication) : L unit :=
  fun p => (Returns tt, mkProcess (Some a) (window p) (visible p) (calls p)).

Definition set_window (v : PDFViewer) (shown : bool) : L unit :=
  fun p => (Returns tt, mkProcess (qapp p) (Some v) shown (calls p)).

(** The return of a call: the names of its frame are released.  The
    window is destroyed, [viewer] being its only reference; the application
    is destroyed when the call built it, and stays when [instance()]
    answered it, the host that built it holding it.  [before] is the
    process at the call, [after] the process at the end of the body. *)
Definition released (before after : Process) : Process :=
  mkProcess (qapp before) (window after) false (calls after).

(** [f()] as a statement: the body, then the return.  A body that raises
    or ends the process releases nothing: the traceback holds the frame. *)
Definition call (body : L unit) : L unit :=
  fun p =>
    match body p with
    | (Returns _, p') => (Returns tt, released p p')
    | r => r
    end.

Definition lexec {A : Type} (m : L A) (p : Process) : Process := snd (m p).
Definition ending {A : Type} (m : L A) (p : Process) : Ending A := fst (m p).

End Launch.

Arguments Process : clear implicits.
Arguments Process {F}.

Declare Scope launch_scope.
Delimit Scope launch_scope with launch.
Notation "x <- c1 ;; c2" := (lbind c1 (fun x => c2))
  (at level 100, c1 at next level, right associativity) : launch_scope.
Notation "c1 ;; c2" := (lbind c1 (fun _ => c2))
  (at level 100, right associativity) : launch_scope.

Local Open Scope launch_scope.

(** ** Qt, as the launcher calls it *)

Section Qt.
Context {F : Fitz}.

(** The event loop: the events in order; an exception that leaves a slot
    ends the process unless a hook is installed. *)
Fixpoint event_loop (hooked : bool) (evs : list Event) (s : PDFViewer) :
  option exn * PDFViewer :=
  match evs with
  | [] => (None, s)
  | ev :: evs' =>
      match emit ev s with
      | (Ok _, s') => event_loop hooked evs' s'
      | (Raise e, s') => if hooked then event_loop hooked evs' s' else (Some e, s')
      end
  end.

(** [QtWidgets.QApplication.instance()] *)
Definition instance : L (option QApplication) :=
  called QApplication_instance ;; p <- lget ;; lret (qapp p).

(** [QtWidgets.QApplication(argv)]: Qt allows one application object. *)
Definition new_QApplication (argv : list string) : L QApplication :=
  called (QApplication_new argv) ;;
  p <- lget ;;
  match qapp p with
  | Some _ => stop (Aborted second_application)
  | None => set_qapp (mkQApplication argv) ;; lret (mkQApplication argv)
  end.

(** [PDFViewer()]: Qt refuses a widget before the application; with one,
    [__init__] runs on the new widget. *)
Definition new_PDFViewer : L PDFViewer :=
  called PDFViewer_new ;;
  p <- lget ;;
  match qapp p with
  | None => stop (Aborted widget_before_application)
  | Some _ =>
      match __init__ QWidget_init with
      | (Ok _, v) => set_window v false ;; lret v
      | (Raise e, _) => stop (Raised e)
      end
  end.

(** [viewer.show()] *)
Definition show (v : PDFViewer) : L unit :=
  called QWidget_show ;; set_window v true.

(** [app.exec()] and [app.exec_()]: the events reach the window that is
    shown; then the call ends as the environment says. *)
Definition run_exec (env : Env) (m : ExecMethod) : L unit :=
  called (app_exec m) ;;
  fun p =>
    match window p with
    | Some v =>
        let loop := event_loop (env_hooked env) (env_events env) v in
        let p' := mkProcess (qapp p) (Some (snd loop)) (visible p) (calls p) in
        match fst loop, env_exec_result env with
        | Some e, _ => (Stops (Aborted (unhandled_in_slot e)), p')
        | None, exec_returns => (Returns tt, p')
        | None, exec_raises_SystemExit => (Stops SystemExit, p')
        | None, exec_raises e => (Stops (Raised e), p')
        end
    | None =>
        match env_exec_result env with
        | exec_returns => (Returns tt, p)
        | exec_raises_SystemExit => (Stops SystemExit, p)
        | exec_raises e => (Stops (Raised e), p)
        end
    end.

(** [hasattr(app, "exec")] *)
Definition has_exec (env : Env) (a : QApplication) : L bool :=
  called hasattr_exec ;; lret (env_has_exec env).

(** ** [launch_viewer] and the script entry *)

(** The body of [launch_viewer], up to the end of the [try] statement. *)
Definition launch_viewer (env : Env) : L unit :=
  app <- instance ;;
  app <- match app with
         | None => new_QApplication (env_argv env)
         | Some a => lret a
         end ;;
  viewer <- new_PDFViewer ;;
  show viewer ;;
  except_SystemExit
    (has <- has_exec env app ;;
     if has then run_exec env call_exec else run_exec env call_exec_).

(** [if __name__ == "__main__": launch_viewer()] *)
Definition main (env : Env) (name : string) : L unit :=
  if String.eqb name "__main__" then call (launch_viewer env) else lret tt.

(** A process that launches once for each environment of a list, as a
    notebook that runs the cell again does. *)
Fixpoint launches (envs : list Env) : L unit :=
  match envs with
  | [] => lret tt
  | env :: envs' => call (launch_viewer env) ;; launches envs'
  end.

(** A fresh interpreter. *)
Definition boot : Process := mkProcess None None false [].

(** A host that already runs an application. *)
Definition hosted (argv : list string) : Process :=
  mkProcess (Some (mkQApplication argv)) None false [].

End Qt.

(** ** The event loop *)

Section Loop.
Context {F : Fitz}.

(** The events the loop handles: all of them, or those up to the first
    whose slot raises when no hook is installed. *)
Fixpoint handled (hooked : bool) (evs : list Event) (s : PDFViewer) : list Event :=
  match evs with
  | [] => []
  | ev :: evs' =>
      match emit ev s with
      | (Ok _, s') => ev :: handled hooked evs' s'
      | (Raise _, s') => if hooked then ev :: handled hooked evs' s' else [ev]
      end
  end.

(** The loop leaves the state after the events it handled. *)
Lemma event_loop_after (hooked : bool) (evs : list Event) (s : PDFViewer) :
  snd (event_loop hooked evs s) = after (handled hooked evs s) s.
Proof.
  revert s. induction evs as [| ev evs IH]; intros s; cbn [event_loop handled]; [reflexivity |].
  pose proof (IH (exec (emit ev) s)) as IH'. unfold exec in IH'.
  destruct (emit ev s) as [[[] | e] s'] eqn:E; cbn [snd] in IH';
    [| destruct hooked]; cbn [after fold_left]; unfold exec; rewrite E; cbn [snd];
    first [exact IH' | reflexivity].
Qed.

(** They are a prefix of the events, and all of them unless the loop was
    aborted. *)
Lemma handled_prefix (hooked : bool) (evs : list Event) (s : PDFViewer) :
  exists rest, evs = handled hooked evs s ++ rest /\
    (fst (event_loop hooked evs s) = None -> rest = []).
Proof.
  revert s. induction evs as [| ev evs IH]; intros s; cbn [event_loop handled];
    [exists []; split; reflexivity |].
  destruct (emit ev s) as [[[] | e] s']; [| destruct hooked];
    try (destruct (IH s') as (rest & E & Hn); exists rest; cbn [app];
         split; [f_equal; exact E | exact Hn]).
  exists evs. split; [reflexivity | discriminate].
Qed.

(** The state in which the loop stops is reachable from where it started. *)
Lemma event_loop_reachable (hooked : bool) (evs : list Event) (s : PDFViewer) :
  reachable s -> reachable (snd (event_loop hooked evs s)).
Proof. rewrite event_loop_after. apply after_reachable. Qed.

End Loop.

(** ** What a launch does *)

Section LaunchSpec.
Context {F : Fitz}.

(** The calls of one launch, given what [instance] answered. *)
Definition launch_calls (env : Env) (app : option QApplication) : list QtCall :=
  [QApplication_instance] ++
  match app with
  | None => [QApplication_new (env_argv env)]
  | Some _ => []
  end ++
  [PDFViewer_new; QWidget_show; hasattr_exec;
   app_exec (if env_has_exec env then call_exec else call_exec_)].

(** The process a launch leaves. *)
Definition launched (env : Env) (p : Process) : Process :=
  mkProcess
    (Some match qapp p with
          | Some a => a
          | None => mkQApplication (env_argv env)
          end)
    (Some (snd (event_loop (env_hooked env) (env_events env) init)))
    true
    (calls p ++ launch_calls env (qapp p)).

(** How a launch ends. *)
Definition launch_ending (env : Env) : Ending unit :=
  match fst (event_loop (env_hooked env) (env_events env) init), env_exec_result env with
  | Some e, _ => Stops (Aborted (unhandled_in_slot e))
  | None, exec_raises e => Stops (Raised e)
  | None, _ => Returns tt
  end.

(** The calls of a launch construct an application when there was none. *)
Lemma constructions_launch_calls (env : Env) (app : option QApplication) :
  constructions (launch_calls env app) = match app with None => 1 | Some _ => 0 end%nat.
Proof. destruct app; reflexivity. Qed.

Lemma launch_viewer_spec (env : Env) (p : Process) :
  launch_viewer env p = (launch_ending env, launched env p).
Proof.
  unfold launch_viewer, launch_ending, launched, launch_calls, instance, new_QApplication,
    new_PDFViewer, show, has_exec, run_exec, except_SystemExit, lbind, called, lget, lret,
    stop, set_qapp, set_window.
  rewrite init_QWidget.
  destruct p as [[a |] w v cs]; cbn [qapp window visible calls];
    destruct (env_has_exec env); cbn [window];
    destruct (event_loop (env_hooked env) (env_events env) init) as [[e |] s];
    destruct (env_exec_result env); cbn [fst snd qapp window visible calls];
    rewrite <- ?app_assoc; reflexivity.
Qed.

(** The call: the ending of the body, and the process the return leaves. *)
Lemma call_launch_viewer (env : Env) (p : Process) :
  call (launch_viewer env) p =
    (launch_ending env,
     match launch_ending env with
     | Returns _ => released p (launched env p)
     | Stops _ => launched env p
     end).
Proof.
  unfold call. rewrite launch_viewer_spec. destruct (launch_ending env) as [[] | st]; reflexivity.
Qed.

End LaunchSpec.

(** ** The claims about one launch *)

Section LaunchClaims.
Context {F : Fitz}.

(** C29: run as a script the module makes these calls, in this order and
    whatever the user then does: [QApplication.instance()]; the
    constructor with [sys.argv], only when there was no application; the
    widget's constructor; [show]; [hasattr(app, "exec")]; and [exec] when
    the binding has it, [exec_] otherwise.  Imported under another name it
    calls nothing. *)
Theorem main_calls (env : Env) (name : string) (p : Process) :
  calls (lexec (main env name) p) =
    calls p ++
    if String.eqb name "__main__" then
      [QApplication_instance] ++
      match qapp p with
      | None => [QApplication_new (env_argv env)]
      | Some _ => []
      end ++
      [PDFViewer_new; QWidget_show; hasattr_exec;
       app_exec (if env_has_exec env then call_exec else call_exec_)]
    else [].
Proof.
  unfold main, lexec. destruct (String.eqb name "__main__").
  - rewrite call_launch_viewer. destruct (launch_ending env); reflexivity.
  - cbn. symmetry. apply app_nil_r.
Qed.

(** C9: how the body of [launch_viewer] ends and what it leaves when it
    ends, in every process and environment.  It never stops on a misuse of Qt (the application exists
    before the widget, and is not built twice) and [SystemExit] never
    leaves it.  It ends the process when an exception leaves a slot and no
    hook is installed; it raises what the loop call raises other than
    [SystemExit]; otherwise it returns.  Whatever the ending, it leaves an
    application and a window that was shown, in the state the loop left it,
    which is a state reachable from [__init__]. *)
Theorem launch_viewer_ending (env : Env) (p : Process) :
  let loop := event_loop (env_hooked env) (env_events env) init in
  ending (launch_viewer env) p =
    match fst loop, env_exec_result env with
    | Some e, _ => Stops (Aborted (unhandled_in_slot e))
    | None, exec_raises e => Stops (Raised e)
    | None, _ => Returns tt
    end /\
  qapp (lexec (launch_viewer env) p) =
    Some match qapp p with
         | Some a => a
         | None => mkQApplication (env_argv env)
         end /\
  window (lexec (launch_viewer env) p) = Some (snd loop) /\
  visible (lexec (launch_viewer env) p) = true /\
  reachable (snd loop).
Proof.
  unfold ending, lexec. rewrite launch_viewer_spec.
  repeat split. apply event_loop_reachable, reachable_init.
Qed.

End LaunchClaims.

(** ** Launching again *)

(** Endings on a misuse of Qt. *)
Definition qt_misuse {A : Type} (r : Ending A) : bool :=
  match r with
  | Stops (Aborted widget_before_application) => true
  | Stops (Aborted second_application) => true
  | _ => false
  end.

Section Relaunch.
Context {F : Fitz}.

(** The launches of a list that start: each one up to the first that does
    not return. *)
Fixpoint started (envs : list Env) : nat :=
  match envs with
  | [] => 0
  | env :: envs' =>
      S (match launch_ending env with
         | Returns _ => started envs'
         | Stops _ => 0
         end)
  end.

Lemma constructions_app (cs1 cs2 : list QtCall) :
  constructions (cs1 ++ cs2) = (constructions cs1 + constructions cs2)%nat.
Proof. unfold constructions. rewrite filter_app. apply length_app. Qed.

Lemma launch_ending_no_misuse (env : Env) : qt_misuse (launch_ending env) = false.
Proof.
  unfold launch_ending.
  destruct (fst (event_loop _ _ _)), (env_exec_result env); reflexivity.
Qed.

(** C28: a process may launch any number of times (a notebook that runs
    the cell again).  No launch stops on a misuse of Qt.  In a host that
    holds an application no launch constructs one.  In a process without
    one every launch that starts constructs its own, because the return of
    the launch before destroyed the application with the last name bound to
    it; and after a launch that returned the application is the one there
    was before the first launch, and no window is on screen. *)
Theorem launches_construct_anew (envs : list Env) (p : Process) :
  qt_misuse (ending (launches envs) p) = false /\
  constructions (calls (lexec (launches envs) p)) =
    (constructions (calls p) +
     match qapp p with
     | None => started envs
     | Some _ => 0
     end)%nat /\
  match ending (launches envs) p, envs with
  | Returns _, _ :: _ =>
      qapp (lexec (launches envs) p) = qapp p /\ visible (lexec (launches envs) p) = false
  | _, _ => True
  end.
Proof.
  revert p. induction envs as [| env envs IH]; intros p.
  - cbn. repeat split. destruct (qapp p); lia.
  - unfold lexec, ending in *. cbn [launches]. unfold lbind. rewrite call_launch_viewer.
    pose proof (launch_ending_no_misuse env) as Hm. cbn [started].
    destruct (launch_ending env) as [[] | st].
    + destruct (IH (released p (launched env p))) as (H1 & H2 & H3).
      split; [exact H1 |]. split.
      * rewrite H2. cbn [released launched qapp calls].
        rewrite constructions_app, constructions_launch_calls. destruct (qapp p); lia.
      * destruct (fst (launches envs (released p (launched env p)))); [| exact I].
        destruct envs; [cbn; auto | exact H3].
    + split; [exact Hm |]. split; [| exact I]. cbn [snd launched calls].
      rewrite constructions_app, constructions_launch_calls. destruct (qapp p); lia.
Qed.

End Relaunch.

(** ** Launching on a well-behaved engine *)

Section LaunchLaws.
Context {F : Fitz} {L : FitzLaws F} {T : RenderTotal F}.

(** On a well-behaved engine the loop is never aborted, hook or not, and
    ends in the state after all the events. *)
Lemma event_loop_never_aborts (hooked : bool) (evs : list Event) (s : PDFViewer) :
  reachable s ->
  Forall (fun ev => raises_base (fitz_open (ev_dialog ev)) = false) evs ->
  event_loop hooked evs s = (None, after evs s).
Proof.
  revert s. induction evs as [| ev evs IH]; intros s Hs Hev; [reflexivity |].
  apply Forall_cons_iff in Hev. destruct Hev as [Hb Hev].
  cbn [event_loop after fold_left]. fold (after evs (exec (emit ev) s)).
  pose proof (reachable_event_returns_lemma s ev Hs Hb) as R.
  assert (Hs' : reachable (exec (emit ev) s)) by (eapply reachable_step; [exact Hs | constructor]).
  unfold outcome in R. unfold exec in *. destruct (emit ev s) as [r s']. cbn in R. subst r.
  apply IH; assumption.
Qed.

(** C10: on an engine that keeps the laws of PyMuPDF and renders every
    page, whatever the user does, no exception leaves a slot (unless
    [fitz.open] raises what [except Exception] does not catch): the process
    is not ended, hook or no hook, every event is handled, and when the
    loop call returns, [launch_viewer] returns with the window in the state
    after all of them. *)
Theorem launch_never_aborts (env : Env) (p : Process) :
  Forall (fun ev => raises_base (fitz_open (ev_dialog ev)) = false) (env_events env) ->
  env_exec_result env = exec_returns ->
  ending (launch_viewer env) p = Returns tt /\
  window (lexec (launch_viewer env) p) = Some (after (env_events env) init).
Proof.
  intros Hev Hr. unfold ending, lexec. rewrite launch_viewer_spec.
  unfold launch_ending, launched.
  rewrite (event_loop_never_aborts _ _ _ reachable_init Hev), Hr. split; reflexivity.
Qed.

End LaunchLaws.

(** ** Instances of the claims *)

Section ToyLaunches.
#[local] Existing Instance toy_fitz.

(** A script on a binding with [exec], no hook; the loop call raises
    [SystemExit]. *)
Definition toy_env : Env :=
  mkEnv ["pdf_viewer.py"%string] true false
    [click open_btn "three.pdf"; press "Right"; press "Left"] exec_raises_SystemExit.

(** The same user in a notebook, the cell run a second time. *)
Definition toy_cell : Env :=
  mkEnv ["ipykernel_launcher.py"%string] false true
    [click open_btn "torn.pdf"; press "Ctrl++"] exec_returns.

(** Three launches from a fresh interpreter: each constructs an
    application, and none is left. *)
Example toy_relaunch :
  let run := launches [toy_env; toy_cell; toy_cell] boot in
  fst run = Returns tt /\
  constructions (calls (snd run)) = 3%nat /\
  qapp (snd run) = None.
Proof. vm_compute. repeat split; reflexivity. Qed.

End ToyLaunches.

Section CleanLaunches.
#[local] Existing Instance clean_fitz.
#[local] Existing Instance clean_fitz_laws.
#[local] Existing Instance clean_fitz_total.

Definition clean_env : Env :=
  mkEnv ["pdf_viewer.py"%string] false false
    [click open_btn "three.pdf"; press "Right"; click open_btn "nope.pdf"; press "Ctrl+-"]
    exec_returns.

Lemma launch_never_aborts_witness :
  ending (launch_viewer clean_env) (hosted []) = Returns tt /\
  window (lexec (launch_viewer clean_env) (hosted [])) = Some (after (env_events clean_env) init).
Proof.
  apply launch_never_aborts; [repeat constructor | reflexivity].
Defined.

End CleanLaunches.
