(* ===== verification/Script.v ===== *)
(** * The file as a script: imports, bindings and the entry

    Before anything of [Launcher] runs, the interpreter executes the module
    body of src/PDFViewer1/pdf_viewer.py from the top: four import
    statements, the [class] statement, the [def] of [launch_viewer] and the
    guard under [__name__].  This file models the module body over the
    global namespace, a finite map from names to values, for any
    installation of Python modules.  An import that fails raises at module
    level, before a single call of Qt.

    The names each function of the file reads from the global namespace are
    listed from the source ([global_reads]).  The theorems: on an
    installation that provides PyQt5 and PyMuPDF the file, imported as a
    module, binds exactly nine names and touches nothing of the process;
    every global name a function reads is bound there and every
    attribute it reads off a module exists; a missing module ends the
    script with the error of the first import that fails and the process
    untouched. *)

From Stdlib Require Import ZArith String List Bool Lia.
From S2P Require Import Prelude Fitz Viewer Wiring Launcher.
From stdpp Require Import base decidable list strings gmap.

Local Open Scope slot_scope.

(** ** Installations and values *)

(** What is installed: the modules, by dotted name ([PyQt5.QtWidgets] is
    [["PyQt5"; "QtWidgets"]]), and the objects reachable from a module by a
    chain of attributes ([sys.argv] is [["sys"; "argv"]]). *)
Record Installed : Type := mkInstalled {
  modules : gset (list string);
  attributes : gset (list string)
}.

(** The values of the global names of the file: an object of the
    installation, by its path; the class the file defines, with its base
    and the names its body binds; the function the file defines. *)
Inductive Value : Type :=
| Object (path : list string)
| Class (name : string) (base : Value) (body : list string)
| Function (name : string).

#[export] Instance value_eq_dec : EqDecision Value.
Proof. solve_decision. Defined.

(** The global namespace of the module. *)
Definition Globals : Type := gmap string Value.

(** [PyQt5.QtWidgets] *)
Definition dotted (m : list string) : string := String.concat "." m.

(** [ModuleNotFoundError], [ImportError], [AttributeError] and
    [NameError], all of them under [Exception].  Python appends the
    location of the package to the second message and words the third by
    the kind of object. *)
Definition ModuleNotFoundError (m : list string) : exn :=
  Exception ("No module named '" ++ dotted m ++ "'").
Definition ImportError (m : list string) (n : string) : exn :=
  Exception ("cannot import name '" ++ n ++ "' from '" ++ dotted m ++ "'").
Definition AttributeError (n : string) : exn :=
  Exception ("object has no attribute '" ++ n ++ "'").
Definition NameError (n : string) : exn :=
  Exception ("name '" ++ n ++ "' is not defined").

(** ** The import statements *)

(** The modules the import of a dotted name goes through, the outermost
    package first. *)
Fixpoint prefixes (m : list string) : list (list string) :=
  match m with
  | [] => []
  | x :: m' => [x] :: map (cons x) (prefixes m')
  end.

(** The import of a module: every package on the way is found, or the
    first that is not is reported. *)
Definition find_module (py : Installed) (m : list string) : res unit :=
  match List.find (fun p => bool_decide (p ∉ modules py)) (prefixes m) with
  | Some p => Raise (ModuleNotFoundError p)
  | None => Ok tt
  end.

(** [import m], for a name without a dot. *)
Definition import_ (py : Installed) (m : string) : M Globals unit :=
  lift (find_module py [m]) ;;
  modify (<[m := Object [m]]>).

(** One name of a [from m import ...]: an attribute of the module, or a
    submodule of the package; the name is bound before the next one is
    looked up. *)
Definition import_from (py : Installed) (m : list string) (n : string) : M Globals unit :=
  if decide (m ++ [n] ∈ attributes py ∪ modules py)
  then modify (<[n := Object (m ++ [n])]>)
  else raise (ImportError m n).

(** [from m import n1, n2, ...] *)
Definition from_import (py : Installed) (m : list string) (names : list string) :
  M Globals unit :=
  lift (find_module py m) ;;
  for_each (import_from py m) names.

(** The four import statements of the file. *)
Definition imports (py : Installed) : M Globals unit :=
  import_ py "sys" ;;
  import_ py "fitz" ;;
  from_import py ["PyQt5"] ["QtWidgets"; "QtGui"; "QtCore"] ;;
  from_import py ["PyQt5"; "QtWidgets"] ["QFileDialog"; "QMessageBox"].

(** ** Names and attributes *)

(** [v.n]: an attribute of an object of the installation; a name the class
    body binds, or else an attribute of the base; a function has none of
    the names the file reads. *)
Fixpoint getattr (py : Installed) (v : Value) (n : string) : res Value :=
  match v with
  | Object p =>
      if decide (p ++ [n] ∈ attributes py) then Ok (Object (p ++ [n]))
      else Raise (AttributeError n)
  | Class c base body =>
      if decide (n ∈ body) then Ok (Function n) else getattr py base n
  | Function _ => Raise (AttributeError n)
  end.

(** A global name followed by attributes, as in [QtCore.Qt.AlignCenter]. *)
Definition resolve (py : Installed) (g : Globals) (r : list string) : res Value :=
  match r with
  | [] => Raise (NameError "")
  | x :: attrs =>
      match g !! x with
      | None => Raise (NameError x)
      | Some v =>
          fold_left (fun acc n => match acc with
                                  | Ok v => getattr py v n
                                  | Raise e => Raise e
                                  end) attrs (Ok v)
      end
  end.

(** ** The class and the function *)

(** The names the body of the class binds, in order. *)
Definition PDFViewer_body : list string :=
  ["__init__"; "open_pdf"; "show_page"; "next_page"; "prev_page"; "zoom_in"; "zoom_out"].

(** [class PDFViewer(QtWidgets.QWidget): ...]: the base is evaluated, the
    body binds the methods, the name is bound. *)
Definition class_PDFViewer (py : Installed) : M Globals unit :=
  g <- get ;;
  base <- lift (resolve py g ["QtWidgets"; "QWidget"]) ;;
  modify (<["PDFViewer" := Class "PDFViewer" base PDFViewer_body]>).

(** [def launch_viewer(): ...] *)
Definition def_launch_viewer : M Globals unit :=
  modify (<["launch_viewer" := Function "launch_viewer"]>).

(** The statements of the module before the guard. *)
Definition module_statements (py : Installed) : M Globals unit :=
  imports py ;;
  class_PDFViewer py ;;
  def_launch_viewer.

(** ** The module body *)

Section Run.
Context {F : Fitz}.

(** The file executed with [__name__] set to [name], as a script or by an
    import: the statements, then the guard.  An exception at module level
    ends the execution; the launcher is looked up by its name and
    called. *)
Definition run_module (py : Installed) (env : Env) (name : string) (p : Process) :
  Ending unit * (Globals * Process) :=
  match module_statements py ∅ with
  | (Raise e, g) => (Stops (Raised e), (g, p))
  | (Ok _, g) =>
      if String.eqb name "__main__" then
        match g !! "launch_viewer" with
        | Some _ => let (r, p') := call (launch_viewer env) p in (r, (g, p'))
        | None => (Stops (Raised (NameError "launch_viewer")), (g, p))
        end
      else (Returns tt, (g, p))
  end.

End Run.

(** ** What the functions read *)

(** The blocks of code of the file. *)
Inductive Block : Type :=
| at_module
| in_init
| in_open_pdf
| in_show_page
| in_next_page
| in_prev_page
| in_zoom_in
| in_zoom_out
| in_launch_viewer.

(** The global names a block reads, each with the attributes read off it,
    in the order of the source.  Names of the builtins ([super],
    [Exception], [hasattr], [SystemExit]) and [__name__], which the
    interpreter sets, are not globals the file binds. *)
Definition global_reads (b : Block) : list (list string) :=
  match b with
  | at_module => [["QtWidgets"; "QWidget"]; ["launch_viewer"]]
  | in_init =>
      [["QtWidgets"; "QVBoxLayout"]; ["QtWidgets"; "QHBoxLayout"];
       ["QtWidgets"; "QPushButton"]; ["QtWidgets"; "QLabel"];
       ["QtWidgets"; "QScrollArea"]; ["QtCore"; "Qt"; "AlignCenter"];
       ["QtWidgets"; "QShortcut"]; ["QtGui"; "QKeySequence"]]
  | in_open_pdf =>
      [["QFileDialog"; "getOpenFileName"]; ["fitz"; "open"]; ["QMessageBox"; "critical"]]
  | in_show_page =>
      [["fitz"; "Matrix"]; ["QtGui"; "QImage"]; ["QtGui"; "QImage"; "Format_RGB888"];
       ["QtGui"; "QPixmap"; "fromImage"]]
  | in_next_page | in_prev_page | in_zoom_in | in_zoom_out => []
  | in_launch_viewer =>
      [["QtWidgets"; "QApplication"; "instance"]; ["QtWidgets"; "QApplication"];
       ["sys"; "argv"]; ["PDFViewer"]]
  end.

Definition blocks : list Block :=
  [at_module; in_init; in_open_pdf; in_show_page; in_next_page; in_prev_page;
   in_zoom_in; in_zoom_out; in_launch_viewer].

(** The global names the file reads. *)
Definition names_read : gset string :=
  list_to_set (flat_map (fun b => omap head (global_reads b)) blocks).

(** ** The installation the file needs *)

(** The modules the imports name. *)
Definition needed_modules : list (list string) :=
  [["sys"]; ["fitz"]; ["PyQt5"]; ["PyQt5"; "QtWidgets"]; ["PyQt5"; "QtGui"];
   ["PyQt5"; "QtCore"]].

(** The objects the file reads, as PyQt5 and PyMuPDF provide them. *)
Definition needed_attributes : list (list string) :=
  ["sys"; "argv"] :: ["fitz"; "open"] :: ["fitz"; "Matrix"] ::
  map (fun n => ["PyQt5"; "QtWidgets"; n])
    ["QWidget"; "QVBoxLayout"; "QHBoxLayout"; "QPushButton"; "QLabel"; "QScrollArea";
     "QShortcut"; "QApplication"; "QFileDialog"; "QMessageBox"] ++
  [["PyQt5"; "QtWidgets"; "QApplication"; "instance"];
   ["PyQt5"; "QtWidgets"; "QFileDialog"; "getOpenFileName"];
   ["PyQt5"; "QtWidgets"; "QMessageBox"; "critical"];
   ["PyQt5"; "QtGui"; "QKeySequence"]; ["PyQt5"; "QtGui"; "QImage"];
   ["PyQt5"; "QtGui"; "QImage"; "Format_RGB888"]; ["PyQt5"; "QtGui"; "QPixmap"];
   ["PyQt5"; "QtGui"; "QPixmap"; "fromImage"];
   ["PyQt5"; "QtCore"; "Qt"]; ["PyQt5"; "QtCore"; "Qt"; "AlignCenter"]].

Definition needed : Installed :=
  mkInstalled (list_to_set needed_modules) (list_to_set needed_attributes).

(** An installation with at least that. *)
Definition provides (py : Installed) : Prop :=
  modules needed ⊆ modules py /\ attributes needed ⊆ attributes py.

(** The namespace the module body builds. *)
Definition imported_globals : Globals :=
  <["QMessageBox" := Object ["PyQt5"; "QtWidgets"; "QMessageBox"]]>
    (<["QFileDialog" := Object ["PyQt5"; "QtWidgets"; "QFileDialog"]]>
       (<["QtCore" := Object ["PyQt5"; "QtCore"]]>
          (<["QtGui" := Object ["PyQt5"; "QtGui"]]>
             (<["QtWidgets" := Object ["PyQt5"; "QtWidgets"]]>
                (<["fitz" := Object ["fitz"]]> (<["sys" := Object ["sys"]]> ∅)))))).

Definition module_globals : Globals :=
  <["launch_viewer" := Function "launch_viewer"]>
    (<["PDFViewer" :=
         Class "PDFViewer" (Object ["PyQt5"; "QtWidgets"; "QWidget"]) PDFViewer_body]>
       imported_globals).

(** The modules of the import statements, in the order of the first
    statement that needs each. *)
Definition import_order : list (list string) :=
  [["sys"]; ["fitz"]; ["PyQt5"]].

(** Membership in the sets of [needed], by evaluation on the lists. *)
Ltac in_needed :=
  unfold needed; cbn [attributes modules];
  rewrite ?elem_of_union, !elem_of_list_to_set;
  match goal with |- ?P => apply (bool_decide_unpack P) end; vm_compute; exact I.

(** ** The imports on every installation *)

Section Imports.
Context (py : Installed).

Lemma find_module_found (m : list string) :
  Forall (fun p => p ∈ modules py) (prefixes m) -> find_module py m = Ok tt.
Proof.
  unfold find_module. intros H.
  destruct (List.find _ (prefixes m)) as [p |] eqn:E; [| reflexivity].
  apply find_some in E. destruct E as [Hin Hp].
  apply bool_decide_eq_true in Hp. rewrite Forall_forall in H.
  exfalso. apply Hp, H. apply list_elem_of_In, Hin.
Qed.

Lemma find_module_missing (m : string) :
  [m] ∉ modules py -> find_module py [m] = Raise (ModuleNotFoundError [m]).
Proof.
  intros H. unfold find_module. cbn [prefixes map List.find].
  rewrite bool_decide_eq_true_2 by exact H. reflexivity.
Qed.

Lemma import_found (m : string) (g : Globals) :
  [m] ∈ modules py -> import_ py m g = (Ok tt, <[m := Object [m]]> g).
Proof.
  intros H. unfold import_. slot_simp.
  rewrite find_module_found by (repeat constructor; exact H). reflexivity.
Qed.

Lemma import_missing (m : string) (g : Globals) :
  [m] ∉ modules py -> import_ py m g = (Raise (ModuleNotFoundError [m]), g).
Proof.
  intros H. unfold import_. slot_simp. rewrite find_module_missing by exact H. reflexivity.
Qed.

Lemma import_from_found (m : list string) (n : string) (g : Globals) :
  m ++ [n] ∈ attributes py ∪ modules py ->
  import_from py m n g = (Ok tt, <[n := Object (m ++ [n])]> g).
Proof. intros H. unfold import_from. rewrite decide_True by exact H. reflexivity. Qed.

Lemma from_import_missing (m : string) (names : list string) (g : Globals) :
  [m] ∉ modules py ->
  from_import py [m] names g = (Raise (ModuleNotFoundError [m]), g).
Proof.
  intros H. unfold from_import. slot_simp. rewrite find_module_missing by exact H.
  reflexivity.
Qed.

End Imports.

(** ** On an installation that provides the modules *)

Section Provided.
Context (py : Installed) (Hpy : provides py).

Lemma provides_module (m : list string) : m ∈ modules needed -> m ∈ modules py.
Proof. intros H. apply Hpy, H. Qed.

Lemma provides_attribute (p : list string) : p ∈ attributes needed -> p ∈ attributes py.
Proof. intros H. apply Hpy, H. Qed.

Lemma provides_import_from (m : list string) (n : string) :
  m ++ [n] ∈ attributes needed ∪ modules needed -> m ++ [n] ∈ attributes py ∪ modules py.
Proof.
  rewrite !elem_of_union. destruct Hpy as [Hm Ha].
  intros [H | H]; [left; apply Ha, H | right; apply Hm, H].
Qed.

Lemma getattr_needed (p : list string) (n : string) :
  p ++ [n] ∈ attributes needed -> getattr py (Object p) n = Ok (Object (p ++ [n])).
Proof.
  intros H. cbn [getattr]. rewrite decide_True by (apply provides_attribute, H). reflexivity.
Qed.

Lemma imports_provided : imports py ∅ = (Ok tt, imported_globals).
Proof.
  unfold imports, from_import.
  unfold bind at 1. rewrite import_found by (apply provides_module; in_needed).
  unfold bind at 1. rewrite import_found by (apply provides_module; in_needed).
  unfold bind at 1 2. unfold lift at 1.
  rewrite find_module_found by (repeat constructor; apply provides_module; in_needed).
  cbn [for_each]. unfold bind at 1.
  rewrite import_from_found by (apply provides_import_from; in_needed).
  unfold bind at 1.
  rewrite import_from_found by (apply provides_import_from; in_needed).
  unfold bind at 1.
  rewrite import_from_found by (apply provides_import_from; in_needed).
  unfold ret at 1. unfold bind at 1. unfold lift at 1.
  rewrite find_module_found by (repeat constructor; apply provides_module; in_needed).
  unfold bind at 1.
  rewrite import_from_found by (apply provides_import_from; in_needed).
  unfold bind at 1.
  rewrite import_from_found by (apply provides_import_from; in_needed).
  reflexivity.
Qed.

End Provided.

(** The value of a global name in a namespace that is given in full, and
    the attributes read off it. *)
Ltac resolve_read Hpy :=
  unfold resolve;
  match goal with
  | |- context [?g !! ?x] =>
      let v := eval vm_compute in (g !! x) in
      replace (g !! x) with v by (vm_compute; reflexivity)
  end;
  cbv beta iota delta [fold_left];
  repeat (rewrite (getattr_needed _ Hpy) by in_needed; cbn [app]).

Section ProvidedModule.
Context (py : Installed) (Hpy : provides py).

Lemma class_PDFViewer_provided :
  class_PDFViewer py imported_globals =
    (Ok tt,
     <["PDFViewer" :=
         Class "PDFViewer" (Object ["PyQt5"; "QtWidgets"; "QWidget"]) PDFViewer_body]>
       imported_globals).
Proof.
  unfold class_PDFViewer. slot_simp.
  replace (resolve py imported_globals ["QtWidgets"; "QWidget"])
    with (Ok (Object ["PyQt5"; "QtWidgets"; "QWidget"])); [reflexivity |].
  symmetry. resolve_read Hpy. reflexivity.
Qed.

Lemma module_statements_provided : module_statements py ∅ = (Ok tt, module_globals).
Proof.
  unfold module_statements. unfold bind at 1. rewrite (imports_provided py Hpy).
  unfold bind at 1. rewrite class_PDFViewer_provided. reflexivity.
Qed.

(** Every read of a block resolves in the namespace of the module. *)
Lemma reads_resolve (b : Block) :
  Forall (fun r => is_ok (resolve py module_globals r) = true) (global_reads b).
Proof.
  destruct b; cbn [global_reads]; repeat constructor; resolve_read Hpy; reflexivity.
Qed.

End ProvidedModule.

(** The names the imports bind are the names the file reads, apart from
    the two it defines itself: no import is missing and none is unused. *)
Lemma imported_names_are_read :
  dom imported_globals = names_read ∖ {[ "PDFViewer"; "launch_viewer" ]}.
Proof.
  match goal with |- ?P => apply (bool_decide_unpack P) end. vm_compute. exact I.
Qed.

(** ** The module body, run *)

Ltac done_missing := split; [reflexivity | split; vm_compute; reflexivity].

Section RunModule.
Context {F : Fitz}.

(** The statements on an installation where a module of the first three
    imports is missing. *)
Lemma module_statements_missing (py : Installed) (m : list string) :
  List.find (fun m => bool_decide (m ∉ modules py)) import_order = Some m ->
  exists g, module_statements py ∅ = (Raise (ModuleNotFoundError m), g) /\
            g !! "PDFViewer" = None /\ g !! "launch_viewer" = None.
Proof.
  unfold import_order, module_statements, imports. cbn [List.find].
  repeat case_bool_decide; intros [= <-]; eexists; unfold bind at 1 2.
  - rewrite import_missing by assumption. done_missing.
  - rewrite import_found by assumption.
    unfold bind at 1. rewrite import_missing by assumption.
    done_missing.
  - rewrite import_found by assumption.
    unfold bind at 1. rewrite import_found by assumption.
    unfold bind at 1. rewrite from_import_missing by assumption.
    done_missing.
Qed.

(** Run as a script on an installation that provides PyQt5 and PyMuPDF,
    the file binds its names and calls the launcher. *)
Lemma run_module_script (py : Installed) (env : Env) (p : Process) :
  provides py ->
  run_module py env "__main__" p =
    (fst (call (launch_viewer env) p), (module_globals, snd (call (launch_viewer env) p))).
Proof.
  intros Hpy. unfold run_module. rewrite (module_statements_provided py Hpy).
  replace (module_globals !! "launch_viewer") with (Some (Function "launch_viewer"))
    by (vm_compute; reflexivity).
  cbn [String.eqb Ascii.eqb Bool.eqb]. destruct (call (launch_viewer env) p). reflexivity.
Qed.

(** C24: the file imported as a module.  On an installation that provides
    PyQt5 and PyMuPDF, whatever else is installed, the file executed under
    a name other than [__main__] returns; it binds nine names and no other:
    the five modules of the imports, the two dialog classes, the class
    [PDFViewer] with [QtWidgets.QWidget] as its base and its seven methods,
    and the function [launch_viewer]; and the process is as it was: no
    application is built, no window is shown, no call of Qt is made. *)
Theorem run_module_imported (py : Installed) (env : Env) (name : string) (p : Process) :
  provides py -> String.eqb name "__main__" = false ->
  run_module py env name p =
    (Returns tt,
     (list_to_map
        [("sys", Object ["sys"]); ("fitz", Object ["fitz"]);
         ("QtWidgets", Object ["PyQt5"; "QtWidgets"]);
         ("QtGui", Object ["PyQt5"; "QtGui"]);
         ("QtCore", Object ["PyQt5"; "QtCore"]);
         ("QFileDialog", Object ["PyQt5"; "QtWidgets"; "QFileDialog"]);
         ("QMessageBox", Object ["PyQt5"; "QtWidgets"; "QMessageBox"]);
         ("PDFViewer",
          Class "PDFViewer" (Object ["PyQt5"; "QtWidgets"; "QWidget"])
            ["__init__"; "open_pdf"; "show_page"; "next_page"; "prev_page";
             "zoom_in"; "zoom_out"]);
         ("launch_viewer", Function "launch_viewer")],
      p)).
Proof.
  intros Hpy Hn. unfold run_module. rewrite (module_statements_provided py Hpy), Hn.
  apply (f_equal (fun g : Globals => (Returns tt, (g, p)))). vm_compute. reflexivity.
Qed.

(** C25: a missing module ends the file at its import.  When [sys],
    PyMuPDF or PyQt5 is not installed, the file ends with
    [ModuleNotFoundError] for the first of them in the order of the import
    statements, whether it runs as a script or is imported; the class and
    the launcher are not defined, and the process is as it was: no call of
    Qt was made. *)
Theorem run_module_missing (py : Installed) (env : Env) (name : string) (p : Process)
  (m : list string) :
  List.find (fun m => bool_decide (m ∉ modules py)) import_order = Some m ->
  fst (run_module py env name p) = Stops (Raised (ModuleNotFoundError m)) /\
  snd (snd (run_module py env name p)) = p /\
  fst (snd (run_module py env name p)) !! "PDFViewer" = None /\
  fst (snd (run_module py env name p)) !! "launch_viewer" = None.
Proof.
  intros H. destruct (module_statements_missing py m H) as (g & E & Hc & Hf).
  unfold run_module. rewrite E. cbn [fst snd]. auto.
Qed.

End RunModule.

(** C26: the names of the file are bound.  On an installation that
    provides PyQt5 and PyMuPDF the statements of the module return, and in
    the namespace they leave every global name a block of the file reads is
    bound and every attribute read off it exists: no [NameError] and no
    [AttributeError] on a name of the imports, in any method, in the
    launcher or at module level. *)
Theorem global_reads_resolve (py : Installed) (b : Block) :
  provides py ->
  outcome (module_statements py) ∅ = Ok tt /\
  Forall (fun r => is_ok (resolve py (exec (module_statements py) ∅) r) = true)
    (global_reads b).
Proof.
  intros Hpy. unfold outcome, exec. rewrite (module_statements_provided py Hpy).
  split; [reflexivity | apply reads_resolve, Hpy].
Qed.

(** ** Instances of the claims *)

Lemma provides_needed : provides needed.
Proof. split; reflexivity. Qed.

(** An installation without PyMuPDF. *)
Definition no_fitz : Installed := mkInstalled {[ ["sys"] ]} ∅.

Section ToyScript.
#[local] Existing Instance toy_fitz.

Lemma run_module_imported_witness :
  run_module needed toy_env "pdf_viewer" boot =
    (Returns tt,
     (list_to_map
        [("sys", Object ["sys"]); ("fitz", Object ["fitz"]);
         ("QtWidgets", Object ["PyQt5"; "QtWidgets"]);
         ("QtGui", Object ["PyQt5"; "QtGui"]);
         ("QtCore", Object ["PyQt5"; "QtCore"]);
         ("QFileDialog", Object ["PyQt5"; "QtWidgets"; "QFileDialog"]);
         ("QMessageBox", Object ["PyQt5"; "QtWidgets"; "QMessageBox"]);
         ("PDFViewer",
          Class "PDFViewer" (Object ["PyQt5"; "QtWidgets"; "QWidget"])
            ["__init__"; "open_pdf"; "show_page"; "next_page"; "prev_page";
             "zoom_in"; "zoom_out"]);
         ("launch_viewer", Function "launch_viewer")],
      boot)).
Proof. apply run_module_imported; [apply provides_needed | reflexivity]. Defined.

Lemma run_module_missing_witness :
  fst (run_module no_fitz toy_env "__main__" boot) =
    Stops (Raised (ModuleNotFoundError ["fitz"])) /\
  snd (snd (run_module no_fitz toy_env "__main__" boot)) = boot /\
  fst (snd (run_module no_fitz toy_env "__main__" boot)) !! "PDFViewer" = None /\
  fst (snd (run_module no_fitz toy_env "__main__" boot)) !! "launch_viewer" = None.
Proof. apply run_module_missing. vm_compute. reflexivity. Defined.

End ToyScript.

Lemma global_reads_resolve_witness :
  outcome (module_statements needed) ∅ = Ok tt /\
  Forall (fun r => is_ok (resolve needed (exec (module_statements needed) ∅) r) = true)
    (global_reads in_show_page).
Proof. apply global_reads_resolve, provides_needed. Defined.
