(* ===== verification/EventLoop.v ===== *)
(** * The event loop as an interactive program

    [app.exec()] does not take a list of events: it asks the windowing
    system for the next one, dispatches it and asks again, for as long as
    the user keeps the window open.  This file models the loop as an
    interaction tree over one event, [NextEvent], whose answer is what the
    user does next, or nothing when the user quits.  The tree may be
    infinite; nothing bounds the number of events.

    Two readings of the tree are proved.  Run against a script (a finite
    list of events, then quit) it returns what [event_loop] of [Launcher]
    computes, so the theorems about lists of events are theorems about the
    loop.  And whatever the user answers, for ever if the user so wishes,
    only reachable states of the widget are passed from one iteration to
    the next, and on a well-behaved engine the loop is never aborted. *)

From Stdlib Require Import ZArith String List Bool Lia.
From S2P Require Import Prelude Fitz Viewer Wiring Launcher.
From ITree Require Import ITree ITreeFacts Events.State Events.StateFacts Props.HasPost.
Import ListNotations.

(** ** The loop *)

(** What the loop asks of the windowing system: the next click or key
    press, or [None] when the last window is closed. *)
Variant LoopE : Type -> Type :=
| NextEvent : LoopE (option Event).

(** The user as a script: the events of a list in order, then quit. *)
Definition script : LoopE ~> Monads.stateT (list Event) (itree void1) :=
  fun _ e evs =>
    match e with
    | NextEvent =>
        match evs with
        | [] => Ret ([], None)
        | ev :: evs' => Ret (evs', Some ev)
        end
    end.

Section Loop.
Context {F : Fitz}.

(** What the dispatch of one event leaves: the state for the next
    iteration, or the end of the loop, with the exception that left a slot
    when no hook is installed. *)
Definition next (hooked : bool) (ev : Event) (s : PDFViewer) :
  PDFViewer + (option exn * PDFViewer) :=
  match emit ev s with
  | (Ok _, s') => inl s'
  | (Raise e, s') => if hooked then inl s' else inr (Some e, s')
  end.

(** One iteration: wait for an event and dispatch it. *)
Definition loop_body (hooked : bool) (s : PDFViewer) :
  itree LoopE (PDFViewer + (option exn * PDFViewer)) :=
  ITree.bind (ITree.trigger NextEvent) (fun o =>
    Ret match o with
        | None => inr (None, s)
        | Some ev => next hooked ev s
        end).

(** [app.exec()] on the window [s]. *)
Definition exec_loop (hooked : bool) : PDFViewer -> itree LoopE (option exn * PDFViewer) :=
  ITree.iter (loop_body hooked).

(** The events of a script the loop never asked for. *)
Fixpoint undelivered (hooked : bool) (evs : list Event) (s : PDFViewer) : list Event :=
  match evs with
  | [] => []
  | ev :: evs' =>
      match next hooked ev s with
      | inl s' => undelivered hooked evs' s'
      | inr _ => evs'
      end
  end.

(** ** One iteration *)

Lemma loop_body_script (hooked : bool) (evs : list Event) (s : PDFViewer) :
  interp_state script (loop_body hooked s) evs ≈
    Ret match evs with
        | [] => ([], inr (None, s))
        | ev :: evs' => (evs', next hooked ev s)
        end.
Proof.
  unfold loop_body. rewrite interp_state_bind, interp_state_trigger.
  unfold script. destruct evs as [| ev evs']; rewrite bind_ret_l; cbn [fst snd];
    rewrite interp_state_ret; reflexivity.
Qed.

Lemma event_loop_next (hooked : bool) (ev : Event) (evs : list Event) (s : PDFViewer) :
  event_loop hooked (ev :: evs) s =
    match next hooked ev s with
    | inl s' => event_loop hooked evs s'
    | inr r => r
    end.
Proof.
  unfold next. cbn [event_loop].
  destruct (emit ev s) as [[[] | e] s']; [| destruct hooked]; reflexivity.
Qed.

(** What was handled and what was not make up the script. *)
Lemma handled_undelivered (hooked : bool) (evs : list Event) (s : PDFViewer) :
  evs = handled hooked evs s ++ undelivered hooked evs s.
Proof.
  revert s. induction evs as [| ev evs IH]; intros s; [reflexivity |].
  cbn [handled undelivered]. unfold next.
  destruct (emit ev s) as [[[] | e] s']; [| destruct hooked]; cbn [app]; f_equal; apply IH.
Qed.

(** Every state the dispatch of an event leaves is reachable. *)
Lemma next_reachable (hooked : bool) (ev : Event) (s : PDFViewer) :
  reachable s ->
  match next hooked ev s with
  | inl s' => reachable s'
  | inr r => reachable (snd r) /\ hooked = false
  end.
Proof.
  intros Hr. pose proof (reachable_step s _ ev Hr (step_emit s ev)) as H.
  unfold exec in H. unfold next.
  destruct (emit ev s) as [[[] | e] s']; [| destruct hooked]; cbn [snd] in *; auto.
Qed.

(** ** The loop on a script *)

(** The loop run by a user who clicks and presses the events of a
    list and then quits returns exactly what [event_loop] computes from the
    list: the same final window, the same exception if a slot raised with
    no hook installed, and the events after the abort never asked for.  So
    the loop returns on every finite script, and what is proved of lists of
    events is proved of the loop. *)
Lemma exec_loop_script (hooked : bool) (evs : list Event) (s : PDFViewer) :
  interp_state script (exec_loop hooked s) evs ≈
    Ret (undelivered hooked evs s, event_loop hooked evs s).
Proof.
  revert s. induction evs as [| ev evs IH]; intros s; unfold exec_loop;
    rewrite unfold_iter, interp_state_bind, loop_body_script, bind_ret_l; cbn [fst snd].
  - rewrite interp_state_ret. reflexivity.
  - rewrite event_loop_next. cbn [undelivered]. destruct (next hooked ev s) as [s' | r].
    + rewrite interp_state_tau, tau_eutt. apply IH.
    + rewrite interp_state_ret. reflexivity.
Qed.

(** ** The loop with any user *)

(** Whatever the user does and for however long, on any engine, the
    loop hands only reachable states of the widget from one iteration to
    the next; if it ends, the window it leaves is in a reachable state, and
    it ends with an exception only when no hook is installed. *)
Lemma exec_loop_reachable (hooked : bool) (s : PDFViewer) :
  reachable s ->
  has_post (exec_loop hooked s)
    (fun r => reachable (snd r) /\ (hooked = true -> fst r = None)).
Proof.
  intros Hr. unfold exec_loop.
  apply has_post_iter_strong with (Inv := reachable); [| exact Hr].
  intros i Hi. unfold loop_body. apply has_post_bind_weak. intros [ev |]; apply eutt_Ret.
  - pose proof (next_reachable hooked ev i Hi) as H.
    destruct (next hooked ev i) as [s' | r]; cbn; [exact H |].
    destruct H as [H ->]. split; [exact H | discriminate].
  - cbn. auto.
Qed.

End Loop.

(** ** The loop on a well-behaved engine *)

Section LoopLaws.
Context {F : Fitz} {L : FitzLaws F} {T : RenderTotal F}.

Lemma next_returns (hooked : bool) (ev : Event) (s : PDFViewer) :
  reachable s -> raises_base (fitz_open (ev_dialog ev)) = false ->
  next hooked ev s = inl (exec (emit ev) s).
Proof.
  intros Hr Hb. pose proof (reachable_event_returns_lemma s ev Hr Hb) as H.
  unfold next, outcome, exec in *. destruct (emit ev s) as [r s']. cbn in H. rewrite H.
  reflexivity.
Qed.

(** C17: on an engine that keeps the laws of PyMuPDF, renders every page
    and whose [open] raises nothing beyond [Exception], the loop is never
    aborted, with or without a hook, whatever the user does and for however
    long: no sequence of clicks, key presses and file choices makes an
    exception leave a slot.  It ends only when the user quits. *)
Theorem exec_loop_never_aborts (hooked : bool) (s : PDFViewer) :
  (forall path, raises_base (fitz_open path) = false) -> reachable s ->
  has_post (exec_loop hooked s) (fun r => fst r = None /\ reachable (snd r)).
Proof.
  intros Hb Hr. unfold exec_loop.
  apply has_post_iter_strong with (Inv := reachable); [| exact Hr].
  intros i Hi. unfold loop_body. apply has_post_bind_weak. intros [ev |]; apply eutt_Ret.
  - rewrite (next_returns hooked ev i Hi (Hb _)). cbn.
    eapply reachable_step; [exact Hi | constructor].
  - cbn. auto.
Qed.

End LoopLaws.

(** ** Instances of the claims *)

Lemma exec_loop_reachable_witness :
  has_post (exec_loop (F := toy_fitz) true init)
    (fun r => reachable (snd r) /\ (true = true -> fst r = None)).
Proof. apply exec_loop_reachable, reachable_init. Defined.

Lemma clean_open_catchable (path : string) : raises_base (clean_open path) = false.
Proof. unfold clean_open. destruct (find _ clean_files); reflexivity. Qed.

Lemma exec_loop_never_aborts_witness :
  has_post (exec_loop (F := clean_fitz) false init)
    (fun r => fst r = None /\ reachable (snd r)).
Proof.
  apply (exec_loop_never_aborts (L := clean_fitz_laws) (T := clean_fitz_total));
    [exact clean_open_catchable | apply reachable_init].
Defined.
