(* ===== verification/Session.v ===== *)
(** * The document session of the specification, and the widget as its refinement

    The specification describes the program as a Document Session (a state
    [Empty] or [Loaded], with the operations [open], [advance], [setZoom]
    and [render]) driven by a View Controller with five actions.  This file
    holds that abstract machine, with the zoom factor an exact rational, and
    the simulation between it and the widget of [Viewer]: the abstraction
    [abs] reads a session off the four data attributes, and every slot
    moves the abstraction as the controller moves the session.  The
    zoom-out test is a parameter of the machine, so that the test the code
    makes (the factor is above 0.5) and the rule the specification words
    (the result is not below 0.5) are two instances of it, and the theorems
    say where they agree and where they part.  The simulation is proved for
    one slot, then for every run with at most 24 zoom-ins, the error
    dialogs of the widget are shown to be the errors the controller
    reports, and the calls [show_page] makes of the engine are shown to be
    the request of the session's [render]. *)

From Stdlib Require Import Floats ZArith QArith Qabs Qpower Qfield Lqa String List Bool Lia.
From Stdlib Require Import Morphisms Setoid.
From S2P Require Import Prelude Zoom Fitz PageLabel Viewer Wiring.
Import ListNotations.

Local Open Scope Z_scope.
Local Open Scope slot_scope.

(** ** Exact zoom arithmetic *)

(** The step and the floor as rationals. *)
Definition zoom_step_Q : Q := 5 # 4.
Definition zoom_floor_Q : Q := 1 # 2.

(** The test of the code in exact arithmetic: the factor is above 0.5. *)
Definition above_floor (q : Q) : bool := negb (Qle_bool q zoom_floor_Q).

(** The rule of the specification: the result of the step is not below
    0.5. *)
Definition result_not_below_floor (q : Q) : bool :=
  Qle_bool zoom_floor_Q (q / zoom_step_Q).

(** ** The session *)

Inductive Delta : Type := Minus | Plus.

Definition delta_Z (delta : Delta) : Z :=
  match delta with Minus => -1 | Plus => 1 end.

Inductive Zooming : Type := Magnify | Shrink.

(** The five actions of the View Controller; [OpenFile] carries the path
    the user chose, empty when the dialog was cancelled. *)
Inductive Action : Type :=
| OpenFile (path : string)
| Previous
| Next
| ZoomIn
| ZoomOut.

(** The action a slot stands for. *)
Definition action_of (path : string) (sl : Slot) : Action :=
  match sl with
  | slot_open_pdf => OpenFile path
  | slot_prev_page => Previous
  | slot_next_page => Next
  | slot_zoom_in => ZoomIn
  | slot_zoom_out => ZoomOut
  end.

(** The slot that zooms in. *)
Definition is_zoom_in_slot (sl : Slot) : bool :=
  match sl with
  | slot_zoom_in => true
  | _ => false
  end.

Section Machine.
Context {F : Fitz}.

(** The two states of the session. *)
Inductive Session : Type :=
| Empty
| Loaded (document : Document) (pageCount currentPageIndex : Z) (zoomFactor : Q).

(** Equal sessions, the zoom factor as a rational number and not as a
    fraction. *)
Definition session_eq (a b : Session) : Prop :=
  match a, b with
  | Empty, Empty => True
  | Loaded d pc i q, Loaded d' pc' i' q' => d = d' /\ pc = pc' /\ i = i' /\ (q == q')%Q
  | _, _ => False
  end.

(** [open(path)]: on success the new document, page 0, zoom 1; on failure
    the error, and the state as it was. *)
Definition open (path : string) : M Session unit :=
  d <- lift (fitz_open path) ;;
  modify (fun _ => Loaded d (doc_page_count d) 0 1).

(** [advance(delta)]: move if the result is a page; says whether it
    moved. *)
Definition advance (delta : Delta) : M Session bool :=
  a <- get ;;
  match a with
  | Empty => ret false
  | Loaded d pc i q =>
      let j := i + delta_Z delta in
      if (0 <=? j) && (j <? pc) then
        modify (fun _ => Loaded d pc j q) ;; ret true
      else ret false
  end.

(** [setZoom]: one step up, or one step down if [accept] lets it. *)
Definition setZoom (accept : Q -> bool) (z : Zooming) : M Session unit :=
  a <- get ;;
  match a, z with
  | Empty, _ => ret tt
  | Loaded d pc i q, Magnify => modify (fun _ => Loaded d pc i (q * zoom_step_Q)%Q)
  | Loaded d pc i q, Shrink =>
      if accept q then modify (fun _ => Loaded d pc i (q / zoom_step_Q)%Q)
      else ret tt
  end.

(** Run an operation and report its error, if any, instead of failing. *)
Definition report (m : M Session unit) : M Session (option string) :=
  fun a =>
    match m a with
    | (Ok _, a') => (Ok None, a')
    | (Raise e, a') => (Ok (Some (exn_message e)), a')
    end.

(** The View Controller: the session call of each action, and the error
    it shows, if any.  A cancelled dialog calls nothing; a failed open is
    reported and changes nothing. *)
Definition controller (accept : Q -> bool) (act : Action) : M Session (option string) :=
  match act with
  | OpenFile path => if String.eqb path "" then ret None else report (open path)
  | Previous => _ <- advance Minus ;; ret None
  | Next => _ <- advance Plus ;; ret None
  | ZoomIn => setZoom accept Magnify ;; ret None
  | ZoomOut => setZoom accept Shrink ;; ret None
  end.

(** The failure of [render()]. *)
Definition RenderError (msg : string) : exn := Exception msg.

(** [render()]: the request the session makes of the engine, the page at
    [currentPageIndex] of its document at [zoomFactor].  It fails without
    a document, and when the index is not a page of the document. *)
Definition render_request (a : Session) : res (Document * Z * Q) :=
  match a with
  | Empty => Raise (RenderError "no document")
  | Loaded d pc i q =>
      if (0 <=? i) && (i <? pc) then Ok (d, i, q)
      else Raise (RenderError "stale page index")
  end.

(** The invariant the specification states of a session. *)
Definition session_inv (a : Session) : Prop :=
  match a with
  | Empty => True
  | Loaded d pc i q => pc = doc_page_count d /\ 0 <= i < pc /\ (zoom_floor_Q <= q)%Q
  end.

(** ** The abstraction *)

(** The session a widget state stands for: none when there is no document
    or the document is false, and otherwise the document, the two indices
    and the exact factor of the zoom level; undefined when the zoom is not
    a value of the table. *)
Definition abs (s : PDFViewer) : option Session :=
  match doc s with
  | None => Some Empty
  | Some d =>
      if doc_bool d then
        match zoom_level (zoom s) with
        | Some k => Some (Loaded d (page_count s) (current_page s) (zoom_exact k))
        | None => None
        end
      else Some Empty
  end.

(** The widget state [s] stands for the session [a]. *)
Definition refines (s : PDFViewer) (a : Session) : Prop :=
  exists a', abs s = Some a' /\ session_eq a' a.

(** What the simulation asks of a step: a zoom-in stays in the table, and
    a document that opens has a page. *)
Definition simulable (path : string) (sl : Slot) (a : Session) : bool :=
  match sl, a with
  | slot_zoom_in, Loaded _ _ _ q => Qle_bool q (zoom_exact 23)
  | slot_open_pdf, _ =>
      match fitz_open path with
      | Ok d => String.eqb path "" || doc_bool d
      | Raise _ => true
      end
  | _, _ => true
  end.

End Machine.

(** ** The exact factor on the table *)

Lemma zoom_exact_succ (k : Z) : (zoom_exact (k + 1) == zoom_exact k * zoom_step_Q)%Q.
Proof. unfold zoom_exact. rewrite Qpower_plus by easy. reflexivity. Qed.

Lemma zoom_exact_pred (k : Z) : (zoom_exact (k - 1) == zoom_exact k / zoom_step_Q)%Q.
Proof. unfold zoom_exact, Z.sub. rewrite Qpower_plus by easy. reflexivity. Qed.

(** Both tests as tests on the level. *)
Lemma above_floor_level (k : Z) :
  -4 <= k <= 24 -> above_floor (zoom_exact k) = (-3 <=? k).
Proof.
  intros H. apply eqb_prop.
  by_Zrange (fun k => Bool.eqb (above_floor (zoom_exact k)) (-3 <=? k)) k (-4) 29%nat.
Qed.

Lemma result_not_below_floor_level (k : Z) :
  -4 <= k <= 24 -> result_not_below_floor (zoom_exact k) = (-2 <=? k).
Proof.
  intros H. apply eqb_prop.
  by_Zrange (fun k => Bool.eqb (result_not_below_floor (zoom_exact k)) (-2 <=? k)) k (-4) 29%nat.
Qed.

Lemma zoom_exact_le_23 (k : Z) :
  -4 <= k <= 24 -> Qle_bool (zoom_exact k) (zoom_exact 23) = (k <=? 23).
Proof.
  intros H. apply eqb_prop.
  by_Zrange (fun k => Bool.eqb (Qle_bool (zoom_exact k) (zoom_exact 23)) (k <=? 23)) k (-4) 29%nat.
Qed.

#[export] Instance above_floor_proper : Proper (Qeq ==> eq) above_floor.
Proof. intros q1 q2 E. unfold above_floor. rewrite E. reflexivity. Qed.

#[export] Instance result_not_below_floor_proper :
  Proper (Qeq ==> eq) result_not_below_floor.
Proof. intros q1 q2 E. unfold result_not_below_floor. rewrite E. reflexivity. Qed.

(** The rule of the specification is the test [5/8 <= q]; the test of the
    code is [1/2 < q]. *)
Lemma result_not_below_floor_iff (q : Q) :
  result_not_below_floor q = true <-> (5 # 8 <= q)%Q.
Proof.
  unfold result_not_below_floor, zoom_floor_Q, zoom_step_Q.
  rewrite Qle_bool_iff, <- (Qmult_le_r _ _ (5 # 4)) by reflexivity.
  assert (E : (q / (5 # 4) * (5 # 4) == q)%Q) by (field; easy).
  rewrite E. reflexivity.
Qed.

Lemma above_floor_iff (q : Q) : above_floor q = true <-> (1 # 2 < q)%Q.
Proof.
  unfold above_floor, zoom_floor_Q. rewrite negb_true_iff.
  pose proof (Qle_bool_iff q (1 # 2)) as B. split.
  - intros E. apply Qnot_le_lt. rewrite <- B, E. discriminate.
  - intros H. apply Qlt_not_le in H. rewrite <- B in H.
    destruct (Qle_bool q (1 # 2)); [contradiction H |]; reflexivity.
Qed.

(** The rule of the specification is the test of the code and one more
    condition: the two differ exactly when [1/2 < q < 5/8]. *)
Lemma result_not_below_floor_above (q : Q) :
  result_not_below_floor q = above_floor q && Qle_bool (5 # 8) q.
Proof.
  apply eq_iff_eq_true.
  rewrite andb_true_iff, result_not_below_floor_iff, above_floor_iff, Qle_bool_iff.
  split; [intros H; split; lra | intros [_ H]; exact H].
Qed.

(** ** The session machine *)

Section MachineLaws.
Context {F : Fitz}.

#[export] Instance session_eq_equiv : Equivalence session_eq.
Proof.
  split.
  - intros [| d pc i q]; cbn; intuition reflexivity.
  - intros [| d pc i q] [| d' pc' i' q']; cbn; intuition (symmetry; assumption).
  - intros [| d pc i q] [| d' pc' i' q'] [| d'' pc'' i'' q'']; cbn; try tauto.
    intros (-> & -> & -> & E1) (-> & -> & -> & E2). rewrite E1. auto.
Qed.

(** The state each operation leaves. *)
Lemma report_open (path : string) (a : Session) :
  report (open path) a =
    match fitz_open path with
    | Ok d => (Ok None, Loaded d (doc_page_count d) 0 1)
    | Raise e => (Ok (Some (exn_message e)), a)
    end.
Proof.
  unfold report, open. slot_simp. destruct (fitz_open path) as [d | e]; reflexivity.
Qed.

Definition moved (delta : Delta) (a : Session) : bool :=
  match a with
  | Empty => false
  | Loaded _ pc i _ => (0 <=? i + delta_Z delta) && (i + delta_Z delta <? pc)
  end.

Lemma advance_spec (delta : Delta) (a : Session) :
  advance delta a =
    (Ok (moved delta a),
     match a with
     | Loaded d pc i q => if moved delta a then Loaded d pc (i + delta_Z delta) q else a
     | Empty => Empty
     end).
Proof.
  unfold advance. slot_simp. destruct a as [| d pc i q]; [reflexivity |].
  cbn [moved]. destruct ((0 <=? i + delta_Z delta) && (i + delta_Z delta <? pc)); reflexivity.
Qed.

Lemma setZoom_spec (accept : Q -> bool) (z : Zooming) (a : Session) :
  setZoom accept z a =
    (Ok tt,
     match a, z with
     | Loaded d pc i q, Magnify => Loaded d pc i (q * zoom_step_Q)%Q
     | Loaded d pc i q, Shrink => if accept q then Loaded d pc i (q / zoom_step_Q)%Q else a
     | Empty, _ => Empty
     end).
Proof.
  unfold setZoom. slot_simp. destruct a as [| d pc i q], z; try reflexivity.
  destruct (accept q); reflexivity.
Qed.

(** The state the controller leaves. *)
Definition session_step (accept : Q -> bool) (act : Action) (a : Session) : Session :=
  match act with
  | OpenFile path =>
      match fitz_open path with
      | Ok d => if String.eqb path "" then a else Loaded d (doc_page_count d) 0 1
      | Raise _ => a
      end
  | Previous => exec (advance Minus) a
  | Next => exec (advance Plus) a
  | ZoomIn => exec (setZoom accept Magnify) a
  | ZoomOut => exec (setZoom accept Shrink) a
  end.

Lemma exec_controller (accept : Q -> bool) (act : Action) (a : Session) :
  exec (controller accept act) a = session_step accept act a.
Proof.
  destruct act as [path | | | |]; cbn [controller session_step]; unfold exec.
  - destruct (String.eqb path "").
    + destruct (fitz_open path); reflexivity.
    + rewrite report_open. destruct (fitz_open path); reflexivity.
  - unfold bind. rewrite advance_spec. reflexivity.
  - unfold bind. rewrite advance_spec. reflexivity.
  - unfold bind. rewrite setZoom_spec. reflexivity.
  - unfold bind. rewrite setZoom_spec. reflexivity.
Qed.

(** The error the controller shows. *)
Definition session_report (act : Action) : option string :=
  match act with
  | OpenFile path =>
      if String.eqb path "" then None
      else match fitz_open path with
           | Ok _ => None
           | Raise e => Some (exn_message e)
           end
  | _ => None
  end.

(** The controller never fails: it returns what it reported. *)
Lemma outcome_controller (accept : Q -> bool) (act : Action) (a : Session) :
  outcome (controller accept act) a = Ok (session_report act).
Proof.
  unfold outcome. destruct act as [path | | | |]; cbn [controller session_report].
  - destruct (String.eqb path ""); [reflexivity |].
    rewrite report_open. destruct (fitz_open path); reflexivity.
  - unfold bind. rewrite advance_spec. reflexivity.
  - unfold bind. rewrite advance_spec. reflexivity.
  - unfold bind. rewrite setZoom_spec. reflexivity.
  - unfold bind. rewrite setZoom_spec. reflexivity.
Qed.

Section Accept.
Variable accept : Q -> bool.
Hypothesis accept_proper : Proper (Qeq ==> eq) accept.

(** The controller takes equal sessions to equal sessions. *)
#[export] Instance session_step_proper (act : Action) :
  Proper (session_eq ==> session_eq) (session_step accept act).
Proof.
  intros a b E. destruct act as [path | | | |]; cbn [session_step];
    unfold exec; rewrite ?advance_spec, ?setZoom_spec.
  - destruct (fitz_open path); [destruct (String.eqb path "") |]; (reflexivity || exact E).
  - destruct a as [| d pc i q], b as [| d' pc' i' q']; cbn in E |- *; try tauto.
    destruct E as (-> & -> & -> & E).
    destruct ((0 <=? i' + -1) && (i' + -1 <? pc')); cbn; auto.
  - destruct a as [| d pc i q], b as [| d' pc' i' q']; cbn in E |- *; try tauto.
    destruct E as (-> & -> & -> & E).
    destruct ((0 <=? i' + 1) && (i' + 1 <? pc')); cbn; auto.
  - destruct a as [| d pc i q], b as [| d' pc' i' q']; cbn in E |- *; try tauto.
    destruct E as (-> & -> & -> & E). rewrite E. auto using Qeq_refl.
  - destruct a as [| d pc i q], b as [| d' pc' i' q']; cbn in E |- *; try tauto.
    destruct E as (-> & -> & -> & E). rewrite (accept_proper _ _ E).
    destruct (accept q'); cbn; rewrite ?E; auto using Qeq_refl.
Qed.

#[export] Instance controller_proper (act : Action) :
  Proper (session_eq ==> session_eq) (exec (controller accept act)).
Proof. intros a b E. rewrite !exec_controller. apply session_step_proper, E. Qed.

End Accept.

End MachineLaws.

(** ** The abstraction and the data attributes *)

Section Abstraction.
Context {F : Fitz}.

#[export] Instance abs_proper : Proper (same_data ==> eq) abs.
Proof.
  intros s1 s2 (H1 & H2 & H3 & H4). unfold abs. rewrite H1, H2, H3, H4. reflexivity.
Qed.

#[export] Instance refines_proper : Proper (same_data ==> session_eq ==> iff) refines.
Proof.
  intros s1 s2 Hs a1 a2 Ha. unfold refines. rewrite (abs_proper _ _ Hs).
  split; intros (a' & H & E); exists a'; (split; [exact H |]);
    [rewrite <- Ha | rewrite Ha]; exact E.
Qed.

Lemma refines_empty (s : PDFViewer) : doc_truthy (doc s) = false -> refines s Empty.
Proof.
  intros H. exists Empty. split; [| reflexivity]. unfold abs.
  destruct (doc s) as [d |]; [cbn in H; rewrite H |]; reflexivity.
Qed.

Lemma refines_loaded (s : PDFViewer) (d : Document) (k : Z) (q : Q) :
  doc s = Some d -> doc_bool d = true -> zoom s = zoom_at k -> -4 <= k <= 24 ->
  (q == zoom_exact k)%Q ->
  refines s (Loaded d (page_count s) (current_page s) q).
Proof.
  intros Hd Ht Hz Hk Hq. exists (Loaded d (page_count s) (current_page s) (zoom_exact k)).
  split; [| cbn; auto using Qeq_sym].
  unfold abs. rewrite Hd, Ht, Hz, (zoom_level_at k Hk). reflexivity.
Qed.

(** The two ways a state stands for a session. *)
Inductive refines_cases (s : PDFViewer) : Session -> Prop :=
| refines_case_empty :
    doc_truthy (doc s) = false -> refines_cases s Empty
| refines_case_loaded (d : Document) (k : Z) (q : Q) :
    doc s = Some d -> doc_bool d = true -> zoom s = zoom_at k -> -4 <= k <= 24 ->
    (q == zoom_exact k)%Q ->
    refines_cases s (Loaded d (page_count s) (current_page s) q).

Lemma refines_inv (s : PDFViewer) (a : Session) : refines s a -> refines_cases s a.
Proof.
  intros (a' & H & E). unfold abs in H.
  destruct (doc s) as [d |] eqn:Hd; [destruct (doc_bool d) eqn:Ht |].
  - destruct (zoom_level (zoom s)) as [k |] eqn:Hk; [| discriminate].
    injection H as <-. destruct a as [| d' pc i q]; [contradiction |].
    destruct E as (<- & <- & <- & E). apply zoom_level_sound in Hk. destruct Hk as [Hz Hk].
    apply (refines_case_loaded s d k q); auto using Qeq_sym.
  - injection H as <-. destruct a; [| contradiction].
    constructor. rewrite Hd. exact Ht.
  - injection H as <-. destruct a; [| contradiction].
    constructor. rewrite Hd. reflexivity.
Qed.

(** Under the invariant, [advance] moves exactly when the guard of the
    method holds. *)
Lemma moved_next_page_guard (s : PDFViewer) (d : Document) (q : Q) :
  viewer_inv s -> doc s = Some d -> doc_bool d = true ->
  moved Plus (Loaded d (page_count s) (current_page s) q) = next_page_guard s.
Proof.
  intros [[H1 H2] _] Hd Ht. unfold next_page_guard, doc_truthy, moved. rewrite Hd, Ht.
  cbn [delta_Z andb]. apply eq_iff_eq_true.
  rewrite andb_true_iff, Z.leb_le, !Z.ltb_lt. lia.
Qed.

Lemma moved_prev_page_guard (s : PDFViewer) (d : Document) (q : Q) :
  viewer_inv s -> doc s = Some d -> doc_bool d = true ->
  moved Minus (Loaded d (page_count s) (current_page s) q) = prev_page_guard s.
Proof.
  intros [[H1 H2] _] Hd Ht. unfold prev_page_guard, doc_truthy, moved. rewrite Hd, Ht.
  cbn [delta_Z andb]. apply eq_iff_eq_true.
  rewrite andb_true_iff, Z.leb_le, !Z.ltb_lt. lia.
Qed.

End Abstraction.

(** ** One slot, one action *)

Section Simulation.
Context {F : Fitz}.
Variable accept : Q -> bool.

(** The zoom-out test of the machine answers as the test of the code. *)
Definition agrees (sl : Slot) (a : Session) : bool :=
  match sl, a with
  | slot_zoom_out, Loaded _ _ _ q => Bool.eqb (accept q) (above_floor q)
  | _, _ => true
  end.

Lemma open_pdf_simulates (path : string) (s : PDFViewer) (a : Session) :
  refines s a -> simulable path slot_open_pdf a = true ->
  refines (data_step path slot_open_pdf s) (session_step accept (OpenFile path) a).
Proof.
  intros Hr Hs. cbn [data_step session_step]. cbn in Hs.
  destruct (fitz_open path) as [d | e]; [| exact Hr].
  destruct (String.eqb path ""); [exact Hr |].
  apply (refines_loaded (opened d s) d 0 1); try reflexivity; [exact Hs | lia].
Qed.

Lemma next_page_simulates (s : PDFViewer) (a : Session) :
  viewer_inv s -> refines s a ->
  refines (data_step "" slot_next_page s) (session_step accept Next a).
Proof.
  intros Hi Hr. cbn [data_step session_step]. unfold exec. rewrite advance_spec. cbn [snd].
  destruct (refines_inv s a Hr) as [Hf | d k q Hd Ht Hz Hk Hq].
  - unfold next_page_guard. rewrite Hf. apply refines_empty, Hf.
  - rewrite (moved_next_page_guard s d q Hi Hd Ht).
    destruct (next_page_guard s);
      [apply (refines_loaded (next_page_upd s) d k q) | apply refines_loaded with k]; assumption.
Qed.

Lemma prev_page_simulates (s : PDFViewer) (a : Session) :
  viewer_inv s -> refines s a ->
  refines (data_step "" slot_prev_page s) (session_step accept Previous a).
Proof.
  intros Hi Hr. cbn [data_step session_step]. unfold exec. rewrite advance_spec. cbn [snd].
  destruct (refines_inv s a Hr) as [Hf | d k q Hd Ht Hz Hk Hq].
  - unfold prev_page_guard. rewrite Hf. apply refines_empty, Hf.
  - rewrite (moved_prev_page_guard s d q Hi Hd Ht).
    destruct (prev_page_guard s);
      [apply (refines_loaded (prev_page_upd s) d k q) | apply refines_loaded with k]; assumption.
Qed.

Lemma zoom_in_simulates (s : PDFViewer) (a : Session) :
  refines s a -> simulable "" slot_zoom_in a = true ->
  refines (data_step "" slot_zoom_in s) (session_step accept ZoomIn a).
Proof.
  intros Hr Hs. cbn [data_step session_step]. unfold exec. rewrite setZoom_spec. cbn [snd].
  destruct (refines_inv s a Hr) as [Hf | d k q Hd Ht Hz Hk Hq].
  - unfold zoom_in_guard. rewrite Hf. apply refines_empty, Hf.
  - change (Qle_bool q (zoom_exact 23) = true) in Hs.
    rewrite Hq, (zoom_exact_le_23 k Hk) in Hs. apply Z.leb_le in Hs.
    unfold zoom_in_guard, doc_truthy. rewrite Hd, Ht.
    apply (refines_loaded (zoom_in_upd s) d (k + 1)); try assumption; [| lia |].
    + cbn. rewrite Hz. apply zoom_mul_level. lia.
    + rewrite zoom_exact_succ, Hq. reflexivity.
Qed.

Lemma zoom_out_simulates (s : PDFViewer) (a : Session) :
  refines s a -> agrees slot_zoom_out a = true ->
  refines (data_step "" slot_zoom_out s) (session_step accept ZoomOut a).
Proof.
  intros Hr Ha. cbn [data_step session_step]. unfold exec. rewrite setZoom_spec. cbn [snd].
  destruct (refines_inv s a Hr) as [Hf | d k q Hd Ht Hz Hk Hq].
  - unfold zoom_out_guard. rewrite Hf. apply refines_empty, Hf.
  - change (Bool.eqb (accept q) (above_floor q) = true) in Ha.
    apply eqb_prop in Ha. rewrite Ha, Hq, (above_floor_level k Hk).
    unfold zoom_out_guard, doc_truthy. rewrite Hd, Ht, Hz, (zoom_gt_floor_level k Hk).
    cbn [andb]. destruct (Z.leb_spec (-3) k); [| apply refines_loaded with k; assumption].
    apply (refines_loaded (zoom_out_upd s) d (k - 1)); try assumption; [| lia |].
    + cbn. rewrite Hz. apply zoom_div_level. lia.
    + rewrite zoom_exact_pred, Hq. reflexivity.
Qed.

(** Every slot moves the abstraction as the controller moves the session,
    whether the slot returned or raised. *)
Lemma run_slot_simulates (path : string) (sl : Slot) (s : PDFViewer) (a : Session) :
  viewer_inv s -> refines s a ->
  simulable path sl a = true -> agrees sl a = true ->
  refines (exec (run_slot path sl) s) (exec (controller accept (action_of path sl)) a).
Proof.
  intros Hi Hr Hs Ha. rewrite (run_slot_same_data path sl s), exec_controller.
  destruct sl; cbn [action_of].
  - apply open_pdf_simulates; assumption.
  - apply prev_page_simulates; assumption.
  - apply next_page_simulates; assumption.
  - apply zoom_in_simulates; assumption.
  - apply zoom_out_simulates; assumption.
Qed.

End Simulation.

(** ** Runs *)

Section Runs.
Context {F : Fitz}.

(** The action of a user event, if its signal is connected. *)
Definition event_action (ev : Event) : option Action :=
  option_map (action_of (ev_dialog ev)) (signal_slot (ev_signal ev)).

(** The session after the actions of a list of events. *)
Definition session_after (accept : Q -> bool) (evs : list Event) (a : Session) : Session :=
  fold_left (fun a ev =>
               match event_action ev with
               | Some act => exec (controller accept act) a
               | None => a
               end) evs a.

(** Every step of the run is one the simulation covers. *)
Fixpoint simulable_run (evs : list Event) (a : Session) : bool :=
  match evs with
  | [] => true
  | ev :: evs =>
      match signal_slot (ev_signal ev) with
      | Some sl =>
          simulable (ev_dialog ev) sl a &&
          simulable_run evs (exec (controller above_floor (action_of (ev_dialog ev) sl)) a)
      | None => simulable_run evs a
      end
  end.

Lemma agrees_above_floor (sl : Slot) (a : Session) : agrees above_floor sl a = true.
Proof. destruct sl, a; try reflexivity. apply eqb_reflx. Qed.

(** Off the level -3 the rule of the specification answers as the test of
    the code. *)
Lemma agrees_result_not_below_floor (sl : Slot) (s : PDFViewer) (a : Session) :
  refines s a -> (sl = slot_zoom_out -> zoom s <> zoom_at (-3)) ->
  agrees result_not_below_floor sl a = true.
Proof.
  intros Hr Hz. destruct sl; try (destruct a; reflexivity).
  destruct (refines_inv s a Hr) as [Hf | d k q Hd Ht Hk Hw Hq]; [reflexivity |].
  cbn [agrees]. rewrite Hq, (above_floor_level k Hw), (result_not_below_floor_level k Hw).
  assert (k <> -3) by (intros ->; apply Hz; [reflexivity | exact Hk]).
  destruct (Z.leb_spec (-2) k), (Z.leb_spec (-3) k); try reflexivity; lia.
Qed.

Lemma handle_simulates (ev : Event) (s : PDFViewer) (a : Session) :
  viewer_inv s -> refines s a ->
  match signal_slot (ev_signal ev) with
  | Some sl => simulable (ev_dialog ev) sl a = true
  | None => True
  end ->
  refines (exec (handle ev) s)
    (match event_action ev with
     | Some act => exec (controller above_floor act) a
     | None => a
     end).
Proof.
  intros Hi Hr Hs. unfold handle, event_action.
  destruct (signal_slot (ev_signal ev)) as [sl |]; cbn [option_map]; [| exact Hr].
  apply (run_slot_simulates above_floor); auto using agrees_above_floor.
Qed.

Lemma after_simulates (evs : list Event) (s : PDFViewer) (a : Session) :
  wired_inv s -> refines s a -> simulable_run evs a = true ->
  refines (after evs s) (session_after above_floor evs a).
Proof.
  revert s a. induction evs as [| ev evs IH]; intros s a Hw Hr Hs; [exact Hr |].
  cbn [after session_after fold_left]. apply IH.
  - apply emit_wired_inv, Hw.
  - unfold exec. rewrite (emit_handle ev s (proj2 Hw)).
    apply handle_simulates; [exact (proj1 Hw) | exact Hr |].
    cbn [simulable_run] in Hs. destruct (signal_slot (ev_signal ev)); [| exact I].
    apply andb_true_iff in Hs. apply Hs.
  - cbn [simulable_run] in Hs. unfold event_action.
    destruct (signal_slot (ev_signal ev)); cbn [option_map]; [| exact Hs].
    apply andb_true_iff in Hs. apply Hs.
Qed.

(** ** Runs on which a zoom-out test answers as the code

    The zoom-out test of the machine is run beside the test of the code:
    [agrees_run] says that at every zoom-out of the run the two gave the
    same answer.  On such a run the machine goes through the sessions it
    goes through with the test of the code. *)

Fixpoint agrees_run (accept : Q -> bool) (evs : list Event) (a : Session) : bool :=
  match evs with
  | [] => true
  | ev :: evs =>
      match signal_slot (ev_signal ev) with
      | Some sl =>
          agrees accept sl a &&
          agrees_run accept evs (exec (controller accept (action_of (ev_dialog ev) sl)) a)
      | None => agrees_run accept evs a
      end
  end.

Lemma session_step_agrees (accept : Q -> bool) (path : string) (sl : Slot) (a : Session) :
  agrees accept sl a = true ->
  session_step accept (action_of path sl) a = session_step above_floor (action_of path sl) a.
Proof.
  intros Ha. destruct sl; try reflexivity.
  cbn [action_of session_step]. unfold exec. rewrite !setZoom_spec. cbn [snd].
  destruct a as [| d pc i q]; [reflexivity |].
  apply eqb_prop in Ha. rewrite Ha. reflexivity.
Qed.

Lemma session_after_agrees (accept : Q -> bool) (evs : list Event) (a : Session) :
  agrees_run accept evs a = true ->
  session_after accept evs a = session_after above_floor evs a.
Proof.
  revert a. induction evs as [| ev evs IH]; intros a H; [reflexivity |].
  cbn [agrees_run session_after fold_left] in *. unfold event_action.
  destruct (signal_slot (ev_signal ev)) as [sl |]; cbn [option_map]; [| apply IH, H].
  apply andb_true_iff in H. destruct H as [H1 H2].
  rewrite !exec_controller in *. rewrite <- (session_step_agrees accept _ sl a H1).
  apply IH, H2.
Qed.

(** What holds of a run holds of its beginnings. *)
Lemma agrees_run_app (accept : Q -> bool) (evs1 evs2 : list Event) (a : Session) :
  agrees_run accept (evs1 ++ evs2) a = true -> agrees_run accept evs1 a = true.
Proof.
  revert a. induction evs1 as [| ev evs1 IH]; intros a H; [reflexivity |].
  cbn [agrees_run app] in *. destruct (signal_slot (ev_signal ev)); [| apply IH, H].
  apply andb_true_iff in H. apply andb_true_iff. split; [apply H | apply IH, H].
Qed.

End Runs.

(** ** Runs with few zoom-ins

    A run stays in the table when it zooms in at most 24 times: the level
    is at most the number of zoom-ins so far. *)

Section BoundedRuns.
Context {F : Fitz}.

Definition is_zoom_in (ev : Event) : bool :=
  match signal_slot (ev_signal ev) with
  | Some slot_zoom_in => true
  | _ => false
  end.

(** The number of zoom-ins of a run. *)
Definition zoom_ins (evs : list Event) : nat := length (filter is_zoom_in evs).

(** The event opens no document without a page. *)
Definition opens_pages (ev : Event) : bool :=
  match signal_slot (ev_signal ev) with
  | Some slot_open_pdf => simulable (ev_dialog ev) slot_open_pdf Empty
  | _ => true
  end.

(** The factor of the session is positive and at most that of level [n]. *)
Definition level_le (n : nat) (a : Session) : Prop :=
  match a with
  | Empty => True
  | Loaded _ _ _ q => (0 < q <= zoom_exact (Z.of_nat n))%Q
  end.

Lemma zoom_exact_ge_1 (n : nat) : (1 <= zoom_exact (Z.of_nat n))%Q.
Proof. apply Qpower_1_le; [discriminate | lia]. Qed.

Lemma zoom_exact_S (n : nat) :
  (zoom_exact (Z.of_nat (S n)) == zoom_exact (Z.of_nat n) * zoom_step_Q)%Q.
Proof. rewrite Nat2Z.inj_succ. apply zoom_exact_succ. Qed.

Lemma session_step_level (sl : Slot) (path : string) (a : Session) (n : nat) :
  level_le n a ->
  level_le (if is_zoom_in_slot sl then S n else n)
    (session_step above_floor (action_of path sl) a).
Proof.
  intros Ha. destruct sl; cbn [action_of session_step is_zoom_in_slot];
    unfold exec; rewrite ?advance_spec, ?setZoom_spec; cbn [snd].
  - destruct (fitz_open path); [destruct (String.eqb path "") |]; try exact Ha.
    cbn. split; [reflexivity | apply zoom_exact_ge_1].
  - destruct a as [| d pc i q]; [exact I |]. destruct (moved Minus _); exact Ha.
  - destruct a as [| d pc i q]; [exact I |]. destruct (moved Plus _); exact Ha.
  - destruct a as [| d pc i q]; [exact I |]. cbn [level_le] in *.
    rewrite zoom_exact_S. unfold zoom_step_Q. nra.
  - destruct a as [| d pc i q]; [exact I |]. destruct (above_floor q); [| exact Ha].
    cbn [level_le] in *. unfold zoom_step_Q.
    assert (E : (q / (5 # 4) == q * (4 # 5))%Q) by (field; easy).
    rewrite E. lra.
Qed.

Lemma simulable_level (sl : Slot) (path : string) (a : Session) (n : nat) :
  level_le n a -> (n + (if is_zoom_in_slot sl then 1 else 0) <= 24)%nat ->
  (sl = slot_open_pdf -> simulable path slot_open_pdf Empty = true) ->
  simulable path sl a = true.
Proof.
  intros Ha Hn Ho. destruct sl; try (destruct a; reflexivity).
  - specialize (Ho eq_refl). destruct a; exact Ho.
  - destruct a as [| d pc i q]; [reflexivity |]. cbn [simulable level_le] in *.
    apply Qle_bool_iff. apply Qle_trans with (zoom_exact (Z.of_nat n)); [apply Ha |].
    apply Qpower_le_compat_l; [cbn in Hn; lia | discriminate].
Qed.

Lemma simulable_run_bounded (evs : list Event) (a : Session) (n : nat) :
  level_le n a -> (n + zoom_ins evs <= 24)%nat -> forallb opens_pages evs = true ->
  simulable_run evs a = true.
Proof.
  revert a n. induction evs as [| ev evs IH]; intros a n Ha Hn Ho; [reflexivity |].
  cbn [simulable_run forallb] in *. apply andb_true_iff in Ho. destruct Ho as [Ho Hos].
  assert (Hi : is_zoom_in ev = match signal_slot (ev_signal ev) with
                               | Some sl => is_zoom_in_slot sl
                               | None => false
                               end)
    by (unfold is_zoom_in; destruct (signal_slot (ev_signal ev)) as [[] |]; reflexivity).
  unfold zoom_ins in Hn. cbn [filter] in Hn. rewrite Hi in Hn. unfold opens_pages in Ho.
  destruct (signal_slot (ev_signal ev)) as [sl |]; [| apply (IH a n); assumption].
  assert (Hz : (n + (if is_zoom_in_slot sl then 1 else 0) + zoom_ins evs <= 24)%nat).
  { unfold zoom_ins. destruct (is_zoom_in_slot sl); cbn [length] in Hn; lia. }
  apply andb_true_iff. split.
  - apply (simulable_level sl _ a n Ha); [destruct (is_zoom_in_slot sl); lia |].
    intros ->. exact Ho.
  - rewrite exec_controller.
    apply (IH _ (if is_zoom_in_slot sl then S n else n));
      [apply session_step_level, Ha | destruct (is_zoom_in_slot sl); lia | exact Hos].
Qed.

End BoundedRuns.

(** ** The invariant of the specification *)

Section SessionInvariant.
Context {F : Fitz}.

(** With the rule of the specification every action keeps the invariant of
    the session, the bound [1/2 <= zoomFactor] included, as long as the
    documents that open have a page. *)
Lemma session_step_inv (act : Action) (a : Session) :
  (forall path d, act = OpenFile path -> fitz_open path = Ok d -> 0 < doc_page_count d) ->
  session_inv a -> session_inv (session_step result_not_below_floor act a).
Proof.
  intros Ho Ha. destruct act as [path | | | |]; cbn [session_step];
    unfold exec; rewrite ?advance_spec, ?setZoom_spec; cbn [snd].
  - destruct (fitz_open path) as [d |] eqn:E; [| exact Ha].
    destruct (String.eqb path ""); [exact Ha |].
    cbn. specialize (Ho path d eq_refl E). repeat split; (lia || discriminate).
  - destruct a as [| d pc i q]; [exact I |]. destruct (moved Minus _) eqn:M; [| exact Ha].
    cbn in M |- *. bool_hyps. destruct Ha as (H1 & H2 & H3). repeat split; (lia || exact H3).
  - destruct a as [| d pc i q]; [exact I |]. destruct (moved Plus _) eqn:M; [| exact Ha].
    cbn in M |- *. bool_hyps. destruct Ha as (H1 & H2 & H3). repeat split; (lia || exact H3).
  - destruct a as [| d pc i q]; [exact I |]. destruct Ha as (H1 & H2 & H3).
    cbn. repeat split; try lia. unfold zoom_floor_Q, zoom_step_Q in *. lra.
  - destruct a as [| d pc i q]; [exact I |].
    destruct (result_not_below_floor q) eqn:R; [| exact Ha].
    destruct Ha as (H1 & H2 & H3). cbn. repeat split; try lia.
    apply Qle_bool_iff, R.
Qed.

End SessionInvariant.

Section SessionInvariantRuns.
Context {F : Fitz} {L : FitzLaws F}.

(** Over a run that opens no document without a page, on an engine that
    keeps the laws, the machine with the rule of the specification keeps
    the invariant of the session. *)
Lemma session_after_inv (evs : list Event) (a : Session) :
  forallb opens_pages evs = true -> session_inv a ->
  session_inv (session_after result_not_below_floor evs a).
Proof.
  revert a. induction evs as [| ev evs IH]; intros a Ho Ha; [exact Ha |].
  cbn [forallb session_after fold_left] in *. apply andb_true_iff in Ho.
  destruct Ho as [Ho Hos]. apply IH; [exact Hos |].
  unfold event_action, opens_pages in *.
  destruct (signal_slot (ev_signal ev)) as [sl |]; cbn [option_map]; [| exact Ha].
  rewrite exec_controller.
  destruct sl; cbn [action_of]; try (apply session_step_inv; [discriminate | exact Ha]).
  cbn [session_step simulable] in *.
  destruct (fitz_open (ev_dialog ev)) as [d |]; [| exact Ha].
  destruct (String.eqb (ev_dialog ev) ""); [exact Ha |].
  apply doc_bool_pos in Ho. cbn. repeat split; (lia || discriminate).
Qed.

End SessionInvariantRuns.

(** ** The refinement theorems *)

Section Refinement.
Context {F : Fitz}.

(** C14: every slot refines its action.  From a state of the invariant that
    stands for a session, running a slot (whether it returns or raises)
    leaves a state that stands for the session the controller reaches with
    the test of the code, provided a zoom-in starts at most at level 23
    and a document that opens has a page. *)
Theorem run_slot_refines (path : string) (sl : Slot) (s : PDFViewer) (a : Session) :
  viewer_inv s -> refines s a -> simulable path sl a = true ->
  refines (exec (run_slot path sl) s)
    (exec (controller above_floor (action_of path sl)) a).
Proof.
  intros Hi Hr Hs.
  apply (run_slot_simulates above_floor); auto using agrees_above_floor.
Qed.

(** C5: the widget refines the session over whole runs.  After any list
    of user events from [__init__] with at most 24 zoom-ins, in which no
    document without a page is opened, the state stands for the session
    the controller reaches from [Empty] on the actions of those events,
    whether or not slots raised on the way. *)
Theorem after_refines (evs : list Event) :
  (zoom_ins evs <= 24)%nat -> forallb opens_pages evs = true ->
  refines (after evs init) (session_after above_floor evs Empty).
Proof.
  intros Hz Ho. apply after_simulates.
  - split; [apply init_inv | reflexivity].
  - apply refines_empty. reflexivity.
  - apply (simulable_run_bounded evs Empty 0); [exact I | exact Hz | exact Ho].
Qed.

(** With the rule the specification words, the same simulation holds
    for every slot except a zoom-out at level -3, where the zoom is the
    number Python prints as 0.512. *)
Lemma run_slot_refines_spec_rule (path : string) (sl : Slot) (s : PDFViewer)
  (a : Session) :
  viewer_inv s -> refines s a -> simulable path sl a = true ->
  (sl = slot_zoom_out -> zoom s <> zoom_at (-3)) ->
  refines (exec (run_slot path sl) s)
    (exec (controller result_not_below_floor (action_of path sl)) a).
Proof.
  intros Hi Hr Hs Hz.
  apply (run_slot_simulates result_not_below_floor);
    eauto using agrees_result_not_below_floor.
Qed.

(** C13: at level -3 the widget leaves the specification.  The session
    refuses the zoom-out and stays at (4/5)^3 = 0.512, which keeps its
    invariant; the widget accepts it and stands for a session whose factor
    is (4/5)^4 = 0.4096, below the floor. *)
Theorem zoom_out_departs_from_spec_rule (s : PDFViewer) (a : Session) :
  refines s a -> doc_truthy (doc s) = true -> zoom s = zoom_at (-3) ->
  exists d pc i q,
    a = Loaded d pc i q /\
    session_eq (exec (controller result_not_below_floor ZoomOut) a)
      (Loaded d pc i (zoom_exact (-3))) /\
    refines (exec zoom_out s) (Loaded d pc i (zoom_exact (-4))) /\
    (zoom_exact (-4) < zoom_floor_Q <= zoom_exact (-3))%Q.
Proof.
  intros Hr Ht Hz.
  destruct (refines_inv s a Hr) as [Hf | d k q Hd Hb Hk Hw Hq]; [congruence |].
  assert (k = -3) as ->.
  { pose proof (zoom_level_at k Hw) as E. rewrite <- Hk, Hz, zoom_level_at in E by lia.
    congruence. }
  exists d, (page_count s), (current_page s), q. split; [reflexivity |].
  split; [| split; [| split; [reflexivity | discriminate]]].
  - rewrite exec_controller. cbn [session_step]. unfold exec. rewrite setZoom_spec. cbn [snd].
    rewrite (result_not_below_floor_proper _ _ Hq), result_not_below_floor_level by lia.
    cbn [Z.leb Z.compare]. repeat split. exact Hq.
  - rewrite (run_slot_same_data "" slot_zoom_out s). cbn [data_step].
    unfold zoom_out_guard. rewrite Ht, Hz.
    apply (refines_loaded (zoom_out_upd s) d (-4)); try assumption; [| lia | reflexivity].
    cbn. rewrite Hz. reflexivity.
Qed.

End Refinement.

(** ** The error surface *)

Section Reports.
Context {F : Fitz} {L : FitzLaws F} {T : RenderTotal F}.

(** On an engine that keeps the laws and renders every page, what
    [open_pdf] reports is what the controller reports. *)
Lemma open_report_session (path : string) (s : PDFViewer) :
  raises_base (fitz_open path) = false ->
  open_report path s = session_report (OpenFile path).
Proof.
  intros Hb. unfold open_report, session_report.
  destruct (String.eqb path ""); [reflexivity |].
  destruct (fitz_open path) as [d | [msg | msg]]; [| reflexivity | discriminate Hb].
  rewrite (show_page_returns (opened d s) (opened_inv d s)). reflexivity.
Qed.

(** C27: the dialogs are the errors of the controller.  On an engine that
    keeps the laws of PyMuPDF and renders every page, and unless
    [fitz.open] raises what [except Exception] does not catch, a slot shows
    a dialog exactly when the controller reports an error for its action,
    and the dialog carries that message. *)
Theorem run_slot_reports (accept : Q -> bool) (path : string) (sl : Slot)
  (s : PDFViewer) (a : Session) :
  raises_base (fitz_open path) = false ->
  message_boxes (exec (run_slot path sl) s) =
    message_boxes s ++
    match outcome (controller accept (action_of path sl)) a with
    | Ok (Some msg) => [open_error_box msg]
    | _ => []
    end.
Proof.
  intros Hb. rewrite outcome_controller.
  destruct sl; try (rewrite navigation_message_boxes by discriminate;
                    symmetry; apply app_nil_r).
  cbn [action_of run_slot].
  rewrite open_pdf_message_boxes, (open_report_session path s Hb). reflexivity.
Qed.

End Reports.

(** ** The render step *)

Section Rendering.
Context {F : Fitz} {L : FitzLaws F}.

(** A loaded session whose index is a page has a request to make: the
    guard against a stale index does not fire, and so never under the
    invariant of the session. *)
Lemma render_request_loaded (d : Document) (pc i : Z) (q : Q) :
  0 <= i < pc -> render_request (Loaded d pc i q) = Ok (d, i, q).
Proof.
  intros Hi. unfold render_request.
  replace ((0 <=? i) && (i <? pc)) with true; [reflexivity |].
  symmetry. apply andb_true_iff. rewrite Z.leb_le, Z.ltb_lt. exact Hi.
Qed.

(** The number the widget scales by is the factor of the session, to one
    part in 2^53. *)
Lemma zoom_refines_factor (s : PDFViewer) (k : Z) (q : Q) :
  zoom s = zoom_at k -> -4 <= k <= 24 -> (q == zoom_exact k)%Q ->
  exists q', float_to_Q (zoom s) = Some q' /\
    (Qabs (q' - q) <= q * (2 # 1) ^ (-53))%Q.
Proof.
  intros Hz Hk Hq. pose proof (zoom_close_window k Hk) as C.
  unfold zoom_close in C. rewrite Hz.
  destruct (float_to_Q (zoom_at k)) as [q' |]; [| discriminate].
  exists q'. split; [reflexivity |]. rewrite Hq. apply Qle_bool_iff, C.
Qed.

(** C15: [show_page] makes the request of [render()].  From a state of the
    invariant that stands for a session, [show_page] asks the engine for
    exactly what the session requests: the page of the session's index
    from the session's document, which the document has, and its image at
    a scale within one part in 2^53 of the session's factor.  When the
    session has no request to make it is empty, and [show_page] calls
    nothing. *)
Theorem show_page_refines_render (s : PDFViewer) (a : Session) :
  viewer_inv s -> refines s a ->
  match render_request a with
  | Ok (d, i, q) =>
      fitz_calls (exec show_page s) =
        fitz_calls s ++
        Document_load_page d i ::
        match load_page d i with
        | Ok page => [Page_get_pixmap page (Matrix_scale (zoom s) (zoom s))]
        | Raise _ => []
        end /\
      is_ok (load_page d i) = true /\
      exists q', float_to_Q (zoom s) = Some q' /\
        (Qabs (q' - q) <= q * (2 # 1) ^ (-53))%Q
  | Raise _ => a = Empty /\ fitz_calls (exec show_page s) = fitz_calls s
  end.
Proof.
  intros Hi Hr. apply refines_inv in Hr.
  destruct Hr as [Hf | d k q Hd Ht Hz Hk Hq]; rewrite show_page_calls.
  - rewrite Hf. cbn. split; [reflexivity | apply app_nil_r].
  - pose proof (truthy_in_range s d Hi Hd Ht) as Hn.
    destruct Hi as [_ Hc]. unfold count_cached in Hc. rewrite Hd in Hc.
    rewrite render_request_loaded by lia.
    unfold doc_truthy, render_calls. rewrite Hd, Ht.
    split; [reflexivity | split].
    + apply load_page_in_range, Hn.
    + apply (zoom_refines_factor s k q Hz Hk Hq).
Qed.

End Rendering.

(** ** The scenario of the specification, on the session *)

(** The zoom factor of a session, 0 when it is empty. *)
Definition zoomFactor_of {F : Fitz} (a : Session) : Q :=
  match a with
  | Empty => 0
  | Loaded _ _ _ q => q
  end.

Definition scenario : list Event :=
  [ click open_btn "three.pdf"; press "Right"; press "Right"; press "Right";
    press "Ctrl++"; press "Ctrl+-"; press "Ctrl+-";
    press "Ctrl+-"; press "Ctrl+-"; press "Ctrl+-" ].

(** On the events of the scenario the session ends at 64/125 = 0.512 with
    the rule of the specification and at 256/625 = 0.4096 with the test of
    the code. *)
Example scenario_sessions :
  Qeq_bool (zoomFactor_of (session_after (F := toy_fitz) result_not_below_floor scenario Empty))
    (64 # 125) = true /\
  Qeq_bool (zoomFactor_of (session_after (F := toy_fitz) above_floor scenario Empty))
    (256 # 625) = true.
Proof. split; vm_compute; reflexivity. Qed.

(** ** Instances of the claims *)

Section ToySessions.
#[local] Existing Instance toy_fitz.

Lemma toy_opened_refines : refines toy_opened (Loaded toy_three 3 0 1).
Proof.
  apply (refines_loaded toy_opened toy_three 0 1);
    [reflexivity | reflexivity | reflexivity | lia | reflexivity].
Defined.

Lemma run_slot_refines_witness :
  refines (exec (run_slot "" slot_next_page) toy_opened)
    (exec (controller above_floor (action_of "" slot_next_page)) (Loaded toy_three 3 0 1)).
Proof.
  apply run_slot_refines; [apply opened_inv | apply toy_opened_refines | reflexivity].
Defined.

Lemma after_refines_witness :
  refines (after scenario init) (session_after above_floor scenario Empty).
Proof. apply after_refines; [vm_compute; lia | vm_compute; reflexivity]. Defined.

Lemma run_slot_refines_spec_rule_witness :
  refines (exec (run_slot "" slot_zoom_out) toy_opened)
    (exec (controller result_not_below_floor (action_of "" slot_zoom_out))
       (Loaded toy_three 3 0 1)).
Proof.
  apply run_slot_refines_spec_rule;
    [apply opened_inv | apply toy_opened_refines | reflexivity |].
  intros _ E. apply zoom_eqb_eq in E. vm_compute in E. discriminate E.
Defined.

Definition toy_at_floor : PDFViewer := set_zoom (zoom_at (-3)) toy_opened.

Lemma zoom_out_departs_from_spec_rule_witness :
  exists d pc i q,
    Loaded toy_three 3 0 (zoom_exact (-3)) = Loaded d pc i q /\
    session_eq (exec (controller result_not_below_floor ZoomOut)
                  (Loaded toy_three 3 0 (zoom_exact (-3))))
      (Loaded d pc i (zoom_exact (-3))) /\
    refines (exec zoom_out toy_at_floor) (Loaded d pc i (zoom_exact (-4))) /\
    (zoom_exact (-4) < zoom_floor_Q <= zoom_exact (-3))%Q.
Proof.
  apply (zoom_out_departs_from_spec_rule toy_at_floor);
    [| reflexivity | reflexivity].
  apply (refines_loaded toy_at_floor toy_three (-3));
    [reflexivity | reflexivity | reflexivity | lia | reflexivity].
Defined.

End ToySessions.

Section CleanSessions.
#[local] Existing Instance clean_fitz.
#[local] Existing Instance clean_fitz_laws.
#[local] Existing Instance clean_fitz_total.

Lemma run_slot_reports_witness :
  message_boxes (exec (run_slot "nope.pdf" slot_open_pdf) init) =
    message_boxes init ++
    match outcome (controller above_floor (action_of "nope.pdf" slot_open_pdf)) Empty with
    | Ok (Some msg) => [open_error_box msg]
    | _ => []
    end.
Proof. apply run_slot_reports. reflexivity. Defined.

Lemma clean_run_refines : refines clean_run (Loaded clean_three 3 1 (5 # 4)).
Proof.
  apply (refines_loaded clean_run clean_three 1 (5 # 4));
    [reflexivity | reflexivity | reflexivity | lia | reflexivity].
Defined.

Lemma clean_run_inv : viewer_inv clean_run.
Proof.
  split; [split; [| left] | reflexivity]; vm_compute; [discriminate | reflexivity].
Defined.

Lemma show_page_refines_render_witness :
  match render_request (Loaded clean_three 3 1 (5 # 4)) with
  | Ok (d, i, q) =>
      fitz_calls (exec show_page clean_run) =
        fitz_calls clean_run ++
        Document_load_page d i ::
        match load_page d i with
        | Ok page => [Page_get_pixmap page (Matrix_scale (zoom clean_run) (zoom clean_run))]
        | Raise _ => []
        end /\
      is_ok (load_page d i) = true /\
      exists q', float_to_Q (zoom clean_run) = Some q' /\
        (Qabs (q' - q) <= q * (2 # 1) ^ (-53))%Q
  | Raise _ =>
      Loaded clean_three 3 1 (5 # 4) = Empty /\
      fitz_calls (exec show_page clean_run) = fitz_calls clean_run
  end.
Proof.
  apply (show_page_refines_render clean_run); [apply clean_run_inv | apply clean_run_refines].
Defined.

End CleanSessions.
