(* ===== verification/Program.v ===== *)
(** * The program, end to end

    The launcher of [Launcher] runs the widget of [Viewer] through the
    wiring of [Wiring]; [Session] says what the widget stands for.  This
    file composes them.  On the runs where the zoom-out rule of the
    specification answers as the test of the code, the window a launch
    leaves stands for the session the controller of the specification
    reaches with that rule on the events the loop handled, and that
    session keeps the invariant of the specification.  On an engine that
    renders up to a limit, a launch in which the user zooms in no more
    often than the limit allows is never ended by an exception.  The
    interactive loop of [EventLoop], started on the window of a launch and
    asked for the events of the environment, returns what the launch
    leaves.  The script is run on the small engines. *)

From Stdlib Require Import Floats ZArith QArith String List Bool Lia.
From S2P Require Import Prelude Zoom Fitz Viewer Wiring Launcher EventLoop Session.
From ITree Require Import ITree ITreeFacts Events.State Events.StateFacts.
Import ListNotations.

Section Bounds.
Context {F : Fitz}.

Lemma zoom_ins_app (evs1 evs2 : list Event) :
  zoom_ins (evs1 ++ evs2) = (zoom_ins evs1 + zoom_ins evs2)%nat.
Proof. unfold zoom_ins. rewrite filter_app. apply length_app. Qed.

(** What a run allows, its handled events allow. *)
Lemma handled_bounded (hooked : bool) (evs : list Event) (s : PDFViewer) :
  (zoom_ins evs <= 24)%nat -> forallb opens_pages evs = true ->
  (zoom_ins (handled hooked evs s) <= 24)%nat /\
  forallb opens_pages (handled hooked evs s) = true.
Proof.
  destruct (handled_prefix hooked evs s) as (rest & E & _).
  rewrite E at 1 2. rewrite zoom_ins_app, forallb_app.
  intros Hz Ho. apply andb_true_iff in Ho. split; [lia | apply Ho].
Qed.

Lemma handled_agrees (accept : Q -> bool) (hooked : bool) (evs : list Event)
  (s : PDFViewer) (a : Session) :
  agrees_run accept evs a = true -> agrees_run accept (handled hooked evs s) a = true.
Proof.
  destruct (handled_prefix hooked evs s) as (rest & E & _).
  rewrite E at 1. apply agrees_run_app.
Qed.

End Bounds.

Section EndToEnd.
Context {F : Fitz} {L : FitzLaws F}.

(** The session the View Controller of the specification reaches from
    [Empty] on the events the loop of a launch handles, with the zoom-out
    rule of the specification: a zoom-out whose result would be below 0.5
    is rejected. *)
Definition launched_session (env : Env) : Session :=
  session_after result_not_below_floor (handled (env_hooked env) (env_events env) init) Empty.

(** The user never zooms out where the rule of the specification and the
    test of the code part: with the session at a factor above 0.5 whose
    step down is below 0.5. *)
Definition within_rule (env : Env) : bool :=
  agrees_run result_not_below_floor (env_events env) Empty.

(** C6: the program refines the specification wherever the two zoom-out
    tests agree.  On an engine that keeps the laws of PyMuPDF, whatever
    the process, if the user zooms in at most 24 times, opens no document
    without a page and never zooms out with the session at a factor above
    0.5 whose step down is below 0.5, then the window [launch_viewer]
    leaves stands for the session the View Controller reaches from [Empty]
    on the events the loop handled, with the zoom-out rule of the
    specification; that session keeps the invariant of the specification
    (the page index is a page, the factor is at least 0.5); and the loop
    handled every event unless the process was ended by an exception that
    left a slot. *)
Theorem launch_refines_session (env : Env) (p : Process) :
  (zoom_ins (env_events env) <= 24)%nat ->
  forallb opens_pages (env_events env) = true ->
  within_rule env = true ->
  exists v : PDFViewer,
    window (lexec (launch_viewer env) p) = Some v /\
    refines v (launched_session env) /\
    session_inv (launched_session env) /\
    (aborted (ending (launch_viewer env) p) = false ->
     handled (env_hooked env) (env_events env) init = env_events env).
Proof.
  intros Hz Ho Ha. unfold launched_session, lexec, ending. rewrite launch_viewer_spec.
  cbn [fst snd]. eexists. split; [reflexivity |]. rewrite event_loop_after.
  destruct (handled_bounded (env_hooked env) _ init Hz Ho) as [Hz' Ho'].
  split; [| split].
  - rewrite (session_after_agrees _ _ _ (handled_agrees _ _ _ init _ Ha)).
    apply after_simulates; [split; [apply init_inv | reflexivity] | apply refines_empty; reflexivity |].
    apply (simulable_run_bounded _ Empty 0); [exact I | exact Hz' | exact Ho'].
  - apply session_after_inv; [exact Ho' | exact I].
  - destruct (handled_prefix (env_hooked env) (env_events env) init) as (rest & E & Hn).
    unfold launch_ending. intros Hb.
    destruct (fst (event_loop _ _ _)); [discriminate Hb |].
    rewrite (Hn eq_refl), app_nil_r in E. symmetry. exact E.
Qed.

End EndToEnd.

(** ** The launch and the interactive loop *)

Section Interactive.
Context {F : Fitz}.

(** [app.exec()] of a launch as the interactive loop: the loop of
    [EventLoop] on the window [PDFViewer()] builds, its requests for the
    next event answered from the events of the environment. *)
Definition launch_loop (env : Env) : itree void1 (list Event * (option exn * PDFViewer)) :=
  interp_state script (exec_loop (env_hooked env) init) (env_events env).

(** The launcher and the interactive loop agree.  Whatever the
    process and the environment, the loop of [EventLoop], started on the
    window of the launch and asked for the events of the environment,
    returns; the window it returns is the window [launch_viewer] leaves;
    it returns an exception exactly when the launch ends the process; and
    the events it never asked for are those after the ones the launch
    handled. *)
Lemma launch_runs_exec_loop (env : Env) (p : Process) :
  exists (r : option exn * PDFViewer) (rest : list Event),
    launch_loop env ≈ Ret (rest, r) /\
    window (lexec (launch_viewer env) p) = Some (snd r) /\
    aborted (ending (launch_viewer env) p) =
      match fst r with Some _ => true | None => false end /\
    env_events env = handled (env_hooked env) (env_events env) init ++ rest.
Proof.
  exists (event_loop (env_hooked env) (env_events env) init),
    (undelivered (env_hooked env) (env_events env) init).
  unfold launch_loop, lexec, ending. rewrite launch_viewer_spec. cbn [fst snd].
  split; [apply exec_loop_script |]. split; [reflexivity |].
  split; [| apply handled_undelivered].
  unfold launch_ending. destruct (fst (event_loop _ _ _)); [reflexivity |].
  destruct (env_exec_result env); reflexivity.
Qed.

End Interactive.

(** ** A launch on an engine with a limit

    No engine renders at every scale: beyond some zoom the image is too
    large and [get_pixmap] raises.  What the launcher needs of the engine
    is less: that it renders the pages of the documents it opened at the
    zoom levels the user reaches. *)

Local Open Scope Z_scope.

(** An engine that renders the pages of the documents it opens at the zoom
    levels -4 to [top]. *)
Class RendersUpTo (F : Fitz) (top : nat) : Prop := {
  get_pixmap_up_to :
    forall (path : string) (d : Document) (n : Z) (page : Page) (k : Z),
      fitz_open path = Ok d -> load_page d n = Ok page -> -4 <= k <= Z.of_nat top ->
      is_ok (get_pixmap page (Matrix_scale (zoom_at k) (zoom_at k))) = true
}.

Section Limit.
Context {F : Fitz} {L : FitzLaws F}.

(** The document held is one [fitz.open] returned, and the zoom is at a
    level of at most [n]. *)
Definition level_at_most (n : nat) (s : PDFViewer) : Prop :=
  (forall d, doc s = Some d -> exists path, fitz_open path = Ok d) /\
  exists k, zoom s = zoom_at k /\ -4 <= k <= Z.of_nat n.

(** The zoom-ins of a slot and of an event. *)
Definition slot_zoom_ins (sl : Slot) : nat := if is_zoom_in_slot sl then 1 else 0.
Definition event_zoom_ins (ev : Event) : nat := if is_zoom_in ev then 1 else 0.

Lemma zoom_ins_cons (ev : Event) (evs : list Event) :
  zoom_ins (ev :: evs) = (event_zoom_ins ev + zoom_ins evs)%nat.
Proof. unfold zoom_ins, event_zoom_ins. cbn [filter]. destruct (is_zoom_in ev); reflexivity. Qed.

Lemma level_same_data (n : nat) (s1 s2 : PDFViewer) :
  same_data s1 s2 -> level_at_most n s2 -> level_at_most n s1.
Proof. intros (H1 & _ & _ & H4). unfold level_at_most. rewrite H1, H4. auto. Qed.

Lemma level_at_most_le (n m : nat) (s : PDFViewer) :
  (n <= m)%nat -> level_at_most n s -> level_at_most m s.
Proof. intros Hn [Hd (k & Hz & Hk)]. split; [exact Hd |]. exists k. split; [exact Hz | lia]. Qed.

(** A slot raises the level by one when it zooms in, and not otherwise. *)
Lemma data_step_level (path : string) (sl : Slot) (s : PDFViewer) (n : nat) :
  level_at_most n s -> (n + slot_zoom_ins sl <= 24)%nat ->
  level_at_most (n + slot_zoom_ins sl) (data_step path sl s).
Proof.
  intros Hl Hn. assert (Hs : level_at_most (n + slot_zoom_ins sl) s)
    by (apply (level_at_most_le n); [lia | exact Hl]).
  destruct Hl as [Hd (k & Hz & Hk)].
  destruct sl; cbn [data_step slot_zoom_ins is_zoom_in_slot] in *.
  - destruct (fitz_open path) as [d |] eqn:Ho; [| exact Hs].
    destruct (String.eqb path ""); [exact Hs |].
    split; [intros d' [= <-]; eauto | exists 0; split; [reflexivity | lia]].
  - destruct (prev_page_guard s); exact Hs.
  - destruct (next_page_guard s); exact Hs.
  - destruct (zoom_in_guard s); [| exact Hs]. split; [exact Hd |].
    exists (k + 1). split; [cbn; rewrite Hz; apply zoom_mul_level |]; lia.
  - destruct (zoom_out_guard s) eqn:G; [| exact Hs]. split; [exact Hd |].
    unfold zoom_out_guard in G. apply andb_true_iff in G. destruct G as [_ G].
    rewrite Hz, zoom_gt_floor_level in G by lia. apply Z.leb_le in G.
    exists (k - 1). split; [cbn; rewrite Hz; apply zoom_div_level |]; lia.
Qed.

Context {top : nat} {R : RendersUpTo F top}.

(** Below the limit the render of the current page returns. *)
Lemma render_up_to (n : nat) (s : PDFViewer) :
  viewer_inv s -> level_at_most n s -> (n <= top)%nat ->
  doc_truthy (doc s) = true -> is_ok (render s) = true.
Proof.
  intros Hs [Hd (k & Hz & Hk)] Hn Ht.
  destruct (render_loads s Hs Ht) as (d & page & Ed & Ep). destruct (Hd d Ed) as [path Ho].
  unfold render. rewrite Ed, Ep, Hz.
  assert (Hk' : -4 <= k <= Z.of_nat top) by lia.
  pose proof (get_pixmap_up_to path d _ page k Ho Ep Hk') as Hg.
  destruct (get_pixmap page _); [reflexivity | discriminate].
Qed.

(** Below the limit an event returns, and raises the level as its slot
    does. *)
Lemma emit_up_to (ev : Event) (s : PDFViewer) (n : nat) :
  wired_inv s -> level_at_most n s -> (n + event_zoom_ins ev <= top)%nat -> (top <= 24)%nat ->
  raises_base (fitz_open (ev_dialog ev)) = false ->
  outcome (emit ev) s = Ok tt /\ level_at_most (n + event_zoom_ins ev) (exec (emit ev) s).
Proof.
  intros Hw Hl Hn Ht Hb. unfold outcome, exec. rewrite (emit_handle ev s (proj2 Hw)).
  unfold Wiring.handle, event_zoom_ins, is_zoom_in in *.
  destruct (signal_slot (ev_signal ev)) as [sl |];
    [| split; [reflexivity | apply (level_at_most_le n); [lia | exact Hl]]].
  assert (Hl' : level_at_most (n + slot_zoom_ins sl) (data_step (ev_dialog ev) sl s))
    by (apply data_step_level; [exact Hl | unfold slot_zoom_ins; destruct sl; cbn in *; lia]).
  pose proof (run_slot_same_data (ev_dialog ev) sl s) as Hsame.
  assert (Hn' : (n + slot_zoom_ins sl <= top)%nat)
    by (unfold slot_zoom_ins; destruct sl; cbn in *; lia).
  split.
  - apply run_slot_returns_if; [exact Hb |]. intros T.
    rewrite <- (render_same_data _ _ Hsame). rewrite <- (proj1 Hsame) in T.
    apply (render_up_to (n + slot_zoom_ins sl));
      [apply (run_slot_wired_inv _ sl s Hw) | exact (level_same_data _ _ _ Hsame Hl') | exact Hn' | exact T].
  - replace (if match sl with slot_zoom_in => true | _ => false end then 1 else 0)%nat
      with (slot_zoom_ins sl) by (destruct sl; reflexivity).
    exact (level_same_data _ _ _ Hsame Hl').
Qed.

(** Below the limit the loop is never aborted, hook or not, and ends in
    the state after all the events. *)
Lemma event_loop_up_to (hooked : bool) (evs : list Event) (s : PDFViewer) (n : nat) :
  wired_inv s -> level_at_most n s -> (n + zoom_ins evs <= top)%nat -> (top <= 24)%nat ->
  Forall (fun ev => raises_base (fitz_open (ev_dialog ev)) = false) evs ->
  event_loop hooked evs s = (None, after evs s).
Proof.
  revert s n. induction evs as [| ev evs IH]; intros s n Hw Hl Hn Ht Hev; [reflexivity |].
  apply Forall_cons_iff in Hev. destruct Hev as [Hb Hev]. rewrite zoom_ins_cons in Hn.
  assert (Hn' : (n + event_zoom_ins ev <= top)%nat) by lia.
  destruct (emit_up_to ev s n Hw Hl Hn' Ht Hb) as [Ho Hl'].
  pose proof (emit_wired_inv ev s Hw) as Hw'.
  cbn [event_loop after fold_left]. fold (after evs (exec (emit ev) s)).
  unfold outcome, exec in *. destruct (emit ev s) as [r s']. cbn [fst snd] in *. subst r.
  apply (IH s' (n + event_zoom_ins ev)%nat); (assumption || lia).
Qed.

End Limit.

Section LimitedLaunch.
Context {F : Fitz} {L : FitzLaws F}.

(** C11: a launch on an engine with a limit.  On an engine that keeps the
    laws of PyMuPDF and renders the pages of the documents it opens at the
    zoom levels up to [top], which is at most 24, if the user zooms in at
    most [top] times, then whatever else the user does no exception leaves
    a slot (unless [fitz.open] raises what [except Exception] does not
    catch): the process is not ended, hook or no hook, every event is
    handled, and when the loop call returns [launch_viewer] returns with
    the window in the state after all the events. *)
Theorem launch_returns_up_to (top : nat) (R : RendersUpTo F top) (env : Env) (p : Process) :
  (top <= 24)%nat -> (zoom_ins (env_events env) <= top)%nat ->
  Forall (fun ev => raises_base (fitz_open (ev_dialog ev)) = false) (env_events env) ->
  env_exec_result env = exec_returns ->
  ending (launch_viewer env) p = Returns tt /\
  window (lexec (launch_viewer env) p) = Some (after (env_events env) init).
Proof.
  intros Ht Hz Hev Hr. unfold ending, lexec. rewrite launch_viewer_spec.
  unfold launch_ending, launched.
  rewrite (event_loop_up_to _ _ init 0); auto;
    [rewrite Hr; split; reflexivity | split; [apply init_inv | reflexivity] |].
  split; [discriminate | exists 0; split; [reflexivity | lia]].
Qed.

End LimitedLaunch.

(** ** The script on the small engines *)

Section ToyProgram.
#[local] Existing Instance toy_fitz.

(** The script run from a fresh interpreter: the calls in order, the
    window after the three events, and a normal return although the loop
    call raised [SystemExit]; once the launcher has returned the window is
    off the screen and the application it built is gone. *)
Example toy_script :
  let run := main toy_env "__main__" boot in
  fst run = Returns tt /\
  calls (snd run) =
    [QApplication_instance; QApplication_new ["pdf_viewer.py"%string]; PDFViewer_new;
     QWidget_show; hasattr_exec; app_exec call_exec] /\
  option_map data_of (window (snd run)) = Some (3%Z, 0%Z, 1%float) /\
  visible (snd run) = false /\
  qapp (snd run) = None.
Proof. vm_compute. repeat split; reflexivity. Qed.

End ToyProgram.

Section CleanProgram.
#[local] Existing Instance clean_fitz.
#[local] Existing Instance clean_fitz_laws.

(** A user who opens a document and zooms out three times, to 0.512. *)
Definition shrink_env : Env :=
  mkEnv ["pdf_viewer.py"%string] true false
    [click open_btn "three.pdf"; press "Ctrl+-"; press "Ctrl+-"; press "Ctrl+-"; press "Right"]
    exec_returns.

(** One more zoom-out is the one the specification rejects and the code
    accepts. *)
Example shrink_once_more :
  within_rule shrink_env = true /\
  agrees_run result_not_below_floor (env_events shrink_env ++ [press "Ctrl+-"]) Empty = false.
Proof. split; vm_compute; reflexivity. Qed.

Lemma launch_refines_session_witness :
  exists v : PDFViewer,
    window (lexec (launch_viewer shrink_env) boot) = Some v /\
    refines v (launched_session shrink_env) /\
    session_inv (launched_session shrink_env) /\
    (aborted (ending (launch_viewer shrink_env) boot) = false ->
     handled (env_hooked shrink_env) (env_events shrink_env) init = env_events shrink_env).
Proof.
  apply launch_refines_session; [vm_compute; lia | vm_compute; reflexivity | vm_compute; reflexivity].
Defined.

End CleanProgram.

Section LimitedProgram.
#[local] Existing Instance limited_fitz.
#[local] Existing Instance limited_fitz_laws.

(** The pages the limited engine opens. *)
Lemma limited_pages (path : string) (d : Document) (n : Z) (page : Page) :
  fitz_open path = Ok d -> load_page d n = Ok page -> In page [(4, 6); (6, 4); (2, 2)].
Proof.
  cbn [fitz_open load_page limited_fitz]. unfold clean_open, clean_files, clean_load_page.
  cbn [find fst snd].
  repeat match goal with
         | |- context [String.eqb ?a path] => destruct (String.eqb a path)
         end;
    intros [= <-]; destruct (Z.to_nat n) as [| [| [| m]]]; try destruct m;
    cbn [nth_error clean_three]; destruct (0 <=? n); intros [= <-]; cbn; auto.
Qed.

(** The limited engine renders its pages up to level 11. *)
#[local] Instance limited_renders_up_to : RendersUpTo limited_fitz 11.
Proof.
  split. intros path d n page k Ho Hp Hk.
  destruct (limited_pages path d n page Ho Hp) as [<- | [<- | [<- | []]]];
    match goal with
    | |- is_ok (get_pixmap ?pg _) = true =>
        by_Zrange (fun k => is_ok (get_pixmap pg (Matrix_scale (zoom_at k) (zoom_at k)))) k (-4) 16%nat
    end.
Qed.

(** A user who zooms in twice and out once. *)
Definition zoom_env : Env :=
  mkEnv ["pdf_viewer.py"%string] true false
    [click open_btn "three.pdf"; press "Ctrl++"; press "Ctrl++"; press "Right"; press "Ctrl+-"]
    exec_returns.

Lemma launch_returns_up_to_witness :
  ending (launch_viewer zoom_env) boot = Returns tt /\
  window (lexec (launch_viewer zoom_env) boot) = Some (after (env_events zoom_env) init).
Proof.
  apply (launch_returns_up_to 11 limited_renders_up_to);
    [lia | vm_compute; lia | repeat constructor | reflexivity].
Defined.

(** The limit is real: at level 12 the image of a page of 4 by 6 points is
    refused, and without a hook the twelfth zoom-in ends the process. *)
Example twelfth_zoom_in :
  let env := mkEnv [] true false
               (click open_btn "three.pdf" :: repeat (press "Ctrl++") 12) exec_returns in
  is_ok (get_pixmap (4, 6) (Matrix_scale (zoom_at 12) (zoom_at 12))) = false /\
  ending (launch_viewer env) boot =
    Stops (Aborted (unhandled_in_slot (Exception "cannot allocate pixmap"))).
Proof. split; vm_compute; reflexivity. Qed.

End LimitedProgram.
